(* ===== verification/_CoqProject ===== *)
-Q . S2P
Prelude.v
Config.v
Baseline.v
Host.v
Datafeed.v
Sentiment.v
Async.v
React.v
Lifecycle.v
Page.v
TvCode.v
