(* ===== verification/Prelude.v ===== *)
(** * A verification library for the TradingView chart container of tv-chart-base

    ** The program

    The repository holds two versions of one React component,
    [TVChartContainer]:
    - [src/tv-code.js], the plain container: configuration tables, a
      datafeed object for the charting widget, style overrides, and the
      React effects that create the widget and restyle its chart;
    - [src/Sentiment/Sentiment.js], the same container extended with a
      synthetic "Gradient Sentiment" overlay series, a module-level handle
      [sentimentId] on that overlay, and the recalculation of the
      overlay's baseline level ([setBaselineLevel]) on widget events.

    Its parts and how they interact:
    - the configuration tables ([getConfigurationData], [tvAssetTypes],
      [assetsSessions], [tvChartLocales], [getCommonOverrides],
      [getWidgetOptions]) are pure maps from the application's data to the
      widget's schema;
    - the datafeed ([onReady], [resolveSymbol], [getBars],
      [subscribeBars], [unsubscribeBars]) is called by the widget and
      answers through callbacks, some of them deferred with [setTimeout];
    - the event handlers registered with [tvWidget.subscribe] read and
      write the module-level [sentimentId], query the widget's chart
      (studies, panes, visible price range) and push overrides back;
    - the React effects create the widget, register the handlers and
      restyle the chart whenever the [chart] state changes.
    The charting widget itself is a host component outside the repository:
    its observable API is modelled as a small host state (file [Host]).

    ** The files of this development

    - [Prelude] (this file): the JavaScript values the code manipulates:
      the error monad [result] of a computation that may throw
      ([ReferenceError], [TypeError], host errors), JavaScript numbers
      [jsnum] over exact rationals with [NaN] and infinities, override
      values, object literals with JavaScript's later-key-wins semantics
      as stdpp [gmap]s, and property lookup through [Object.prototype];
      the hint database [tv] and the shared tactics.
    - [Config] (Module [Config]): the static tables of both files
      ([tvAssetTypes], [assetsSessions], [tvChartLocales],
      [getCommonOverrides]) and [getWidgetOptions] with its evaluation
      order. Theorems: the locale fallback on mapped, unmapped and
      inherited keys, the bar colours, the overrides and options built.
    - [Baseline] (Module [Baseline]): the percentage computed in
      [setBaselineLevel] (Sentiment.js 210-217), its abstract
      specification (the clamped position of the zero line in the visible
      range) and the refinement theorem between them, the bounds
      [0..100], and the degenerate range that gives [NaN].
    - [Host] (Module [Host]): the charting widget's API as the classes
      [ChartOps] (operations) and [ChartLaws] (what the code may assume
      of them, with the host invariant [chart_wf]); a list-based instance
      [chart_laws] discharges the laws and runs the examples.
    - [Datafeed] (Module [Datafeed]): the datafeed object of both files
      over a task queue that models [setTimeout]. Theorems: the record the
      widget expects ([datafeed_contract]), deferral, the errors of
      unbound globals and of a [null] asset, the two requests of
      [getBars], and the round trip of a symbol through
      [resolveSymbol].
    - [Sentiment] (Module [Sentiment], Section [Handlers] over any
      [ChartLaws]): the handle [sentimentId] and every handler of
      [Sentiment.js] (the six widget events, the ['study'] handler, the
      two halves of the ready callback) as operations on a state
      [sstate], and the step relation they form. Theorems: the baseline
      applied, the clean-up that removes the tracked overlay too, the
      handle left dangling by a ['study'] event so that no later step
      writes a baseline, the handle stuck on a promise.
    - [Async] (Module [Async], Section [Microtasks] over any [ChartLaws]
      and a host flag [echo]): [setBaselineLevel] split at its three
      [await]s into continuations ([bjob]) on a FIFO microtask queue,
      the handlers calling its synchronous part, and the event loop
      [astep] that runs the microtasks before the next widget event.
      Theorems: without the echo, each event settles within three
      microtasks to the atomic [Sentiment.dispatch], and every split run
      refines a run of [Sentiment.step] ([async_refines], a stuttering
      simulation whose measure is the work left on the queue); a pointer
      event on a tracked overlay runs the three continuations in order
      and the third applies the baseline of the range the second read
      ([pointer_event_applies_baseline]); if the host reports the overlay's own override as a property change, one
      pointer event never lets the queue empty ([echo_starves]).
    - [React] (Module [React]): the component skeleton both files share:
      the widget object and [changeStyles], the class [Body] of what a
      file's component does in its effects and ready callback (with the
      laws [BodyLaws]), and the React runtime over it: the props
      [asset], [settings], [locale] and two state hooks, the three
      effects with their dependency arrays, the values their closures
      capture, the ready callback split at its [await], re-renders with
      new props, and unmounting, as a step relation [lstep] on [lstate];
      concrete schedules are chains of steps built by the tactics
      [lmount], [lrender], [lready], [lresolve], [levent], [lprops] and
      [lunmount]. Theorems, for any body: an invariant of every reachable
      state, the cleanup that throws on the stale [tvWidget], the
      repeated subscriptions, a throwing [getWidgetOptions], the widget
      built from the first props only, the theme applied once.
    - [Lifecycle] (Module [Lifecycle], Section [SentimentBody]): the body
      of Sentiment.js ([sentiment_body]) and what depends on its
      handlers: one recomputation per event despite the double
      subscription, the race between [createStudy] and the commit of
      [setChart] on two concrete schedules, the recovery of the baseline
      by the next event, the continuation that still runs after
      teardown, and a parent passing a new theme and locale that the
      widget never sees.
    - [Page] (Module [Page], Section [Page] over any [ChartLaws]): a
      page holding the one binding of [sentimentId] and two instances
      of the Sentiment.js component. Each instance steps by
      [React.lstep] against the shared binding ([load], [pstep]), and
      [remount] is the page right after the component is mounted again.
      Theorems: once the old instance's pending continuation has
      written its overlay's id over the new instance's handle, the new
      instance never tracks a live study again
      ([remount_never_tracks]), and a concrete page reaches that state
      ([remount_clobbers_handle]).
    - [TvCode] (Module [TvCode]): tv-code.js: its tables and options
      (the same text as those of Sentiment.js) and its body ([tvcode_body]),
      whose ready callback uses the undeclared [sentimentName] and
      [sentimentId]: it rejects before [createStudy] or, with a global
      [sentimentName], after it.

    ** What is modelled and how

    JavaScript numbers are modelled as exact rationals [Q]: the theorems
    are about the arithmetic the code writes, not about IEEE rounding.
    The cases IEEE division adds ([x/0], [0/0]) are kept as values of
    [jsnum]. Free identifiers of the sources ([assetClasses], [priceData],
    [BLOB_CDN_URL], [yourSubscriptionMethod], [drawSentiment]) are an
    explicit environment [globals]: evaluating an unbound one throws a
    [ReferenceError], as it does in a browser. Promises the code awaits
    are resolved by explicit steps; the three [await]s of
    [setBaselineLevel] are one step in [Sentiment] and [Lifecycle], and
    [Async] proves that this loses nothing when the host does not echo
    the override back as an event. No definition uses fuel: the loops of the
    code are [forEach]s over lists, modelled by [foldl]; the task queue
    is drained by structural recursion on its list of tasks
    ([Datafeed.run_tasks]).
    The overlay is created by [createStudy('Overlay', true, false,
    {symbol: sentimentName}, ...)] (Sentiment.js lines 236 and 241),
    and the code finds it again by [name === sentimentName] in
    [getAllStudies()] (line 246) and by [study.value === sentimentName]
    in the ['study'] event (line 240). The model
    takes the widget to name that study [sentimentName], the symbol it
    overlays: [Host.createStudy] receives the name the study will be
    reported under, and the handlers pass [sentimentName]. This is an
    assumption on the widget, not code of the repository; the theorems
    on the clean-up of the ['study'] handler
    ([Sentiment.study_handler_removes_all],
    [Sentiment.study_event_orphans_handle]) rest on it.
    An exception thrown by an effect is recorded in the component's
    [errors]; React's error recovery (unmounting the tree) is not.

    ** Plan

    1. Configuration tables and locale fallback (done: [Config]).
    2. Baseline computation with bounds and its refinement (done).
    3. Host model and its invariant (done: [Host]).
    4. Datafeed with deferral through a task queue (done: [Datafeed]).
    5. The overlay handle state machine and the event handlers (done:
       [Sentiment]).
    6. The React effects as a render/commit step relation (done:
       [React], [Lifecycle]); tv-code.js's component on the same runtime
       (done: [TvCode]).
    7. Prop changes ([asset], [settings], [locale]) after mounting
       (done: [React.set_props], [React.ls_props]).
    8. The microtask interleaving of the three [await]s of
       [setBaselineLevel] (done: [Async]). It justifies the one-step
       [Sentiment.setBaselineLevel] the other files use: widget events
       are macrotasks, so the queue drains between them.
    9. The module-level [sentimentId] shared by two mounts of the
       component, an unmount followed by a remount (done: [Page]).

    Not modelled: the JSX rendering (pure markup), [PropTypes] (runtime
    type checks of React), the widget's rendering pipeline (host).
    Widget events reach an instance only while it is mounted: the events
    of a widget left alive by a failed cleanup are not delivered, since
    its container has left the document. More than two instances on one
    page add nothing to the shared-handle argument of [Page]. The guard
    and [applyOverrides] call at the head of tv-code.js's [changeStyles]
    (lines 80-90) are the shared [React.changeStyles], which is mapped to
    the Sentiment.js copy. *)

From stdpp Require Export base gmap strings list.
From Stdlib Require Export QArith Qabs Qpower Lqa ZArith.

Declare Scope js_scope.
Delimit Scope js_scope with js.
Open Scope Q_scope.

Create HintDb tv.
Create Rewrite HintDb tv_rw.

(** ** Computations that may throw *)

Inductive js_error :=
  | ReferenceError (name : string)
  | TypeError (what : string)
  | HostError (what : string).

Inductive result (A : Type) :=
  | Ok (a : A)
  | Throw (e : js_error).
Arguments Ok {A} a.
Arguments Throw {A} e.

#[export] Instance result_ret : MRet result := fun _ a => Ok a.
#[export] Instance result_bind : MBind result :=
  fun _ _ f r => match r with Ok a => f a | Throw e => Throw e end.
#[export] Instance result_fmap : FMap result :=
  fun _ _ f r => match r with Ok a => Ok (f a) | Throw e => Throw e end.

Lemma bind_Ok {A B} (a : A) (f : A -> result B) : (Ok a ≫= f) = f a.
Proof. reflexivity. Qed.

Lemma bind_Throw {A B} (e : js_error) (f : A -> result B) : (Throw e ≫= f) = Throw e.
Proof. reflexivity. Qed.

Lemma bind_Ok_inv {A B} (r : result A) (f : A -> result B) b :
  (r ≫= f) = Ok b -> exists a, r = Ok a /\ f a = Ok b.
Proof. destruct r; simpl; [eauto | discriminate]. Qed.

#[export] Hint Rewrite @bind_Ok @bind_Throw : tv_rw.

(** Reading a free identifier of the source: bound or [ReferenceError]. *)
Definition read_global {A} (name : string) (v : option A) : result A :=
  match v with Some a => Ok a | None => Throw (ReferenceError name) end.

(** Reading a property of a value that may be [null]. *)
Definition read_nullable {A B} (what : string) (f : A -> B) (v : option A) : result B :=
  match v with Some a => Ok (f a) | None => Throw (TypeError what) end.

(** ** JavaScript numbers *)

(** A number of the code: a finite value (an exact rational), [NaN], or
    an infinity with its sign ([true] for [+Infinity]). *)
Inductive jsnum :=
  | JNum (q : Q)
  | JNaN
  | JInf (pos : bool).

Definition qltb (a b : Q) : bool := negb (Qle_bool b a).

Lemma qltb_spec a b : qltb a b = true <-> a < b.
Proof.
  unfold qltb. rewrite negb_true_iff. split.
  - intros H. apply Qnot_le_lt. intros Hle. apply Qle_bool_iff in Hle. congruence.
  - intros H. destruct (Qle_bool b a) eqn:E; [|done].
    apply Qle_bool_iff in E. lra.
Qed.

Lemma qltb_false a b : qltb a b = false <-> b <= a.
Proof.
  unfold qltb. rewrite negb_false_iff. apply Qle_bool_iff.
Qed.

(** [a / b] as IEEE division does it on finite operands; the divisor is
    never a negative zero in this code (it is a [Math.abs]). *)
Definition js_div (a b : Q) : jsnum :=
  if Qeq_bool b 0 then
    (if Qeq_bool a 0 then JNaN else JInf (Qle_bool 0 a))
  else JNum (a / b).

Definition js_mul (x : jsnum) (k : Q) : jsnum :=
  match x with
  | JNum q => JNum (q * k)
  | JNaN => JNaN
  | JInf p => if Qeq_bool k 0 then JNaN else JInf (Bool.eqb p (Qle_bool 0 k))
  end.

(** Numbers compared by value: the equivalence of the model is [Qeq] on
    finite values, coarser than Leibniz equality of their representation. *)
Definition jsnum_eq (x y : jsnum) : Prop :=
  match x, y with
  | JNum a, JNum b => a == b
  | JNaN, JNaN => True
  | JInf p, JInf q => p = q
  | _, _ => False
  end.

Definition jsnum_eqb (x y : jsnum) : bool :=
  match x, y with
  | JNum a, JNum b => Qeq_bool a b
  | JNaN, JNaN => true
  | JInf p, JInf q => Bool.eqb p q
  | _, _ => false
  end.

Lemma jsnum_eqb_spec x y : jsnum_eqb x y = true <-> jsnum_eq x y.
Proof.
  destruct x, y; simpl; try (split; done).
  - apply Qeq_bool_iff.
  - apply Bool.eqb_true_iff.
Qed.

#[export] Instance jsnum_eq_equiv : Equivalence jsnum_eq.
Proof.
  split.
  - intros []; simpl; reflexivity.
  - intros [] []; simpl; intros; try done; by symmetry.
  - intros [] [] []; simpl; intros; try done; [lra | congruence].
Qed.

Infix "≈" := jsnum_eq (at level 70) : js_scope.

(** ** Values the code passes to the widget as overrides *)

Inductive ovalue :=
  | OStr (s : string)
  | OBool (b : bool)
  | ONum (n : jsnum).

(** ** Object literals and property lookup *)

(** An object literal [{k1: v1, ..., kn: vn}] evaluates its entries left
    to right; a repeated (computed) key keeps the last value. *)
Definition obj_of_literal {V} (l : list (string * V)) : gmap string V :=
  foldl (fun m kv => <[kv.1 := kv.2]> m) ∅ l.

Lemma obj_of_literal_app {V} (l1 l2 : list (string * V)) :
  obj_of_literal (l1 ++ l2) = foldl (fun m kv => <[kv.1 := kv.2]> m) (obj_of_literal l1) l2.
Proof. unfold obj_of_literal. by rewrite foldl_app. Qed.

(** A property every iteration keeps holds after a [forEach]. *)
Lemma foldl_inv {A B} (P : A -> Prop) (f : A -> B -> A) (l : list B) (x : A) :
  P x -> (forall y b, P y -> P (f y b)) -> P (foldl f x l).
Proof. revert x. induction l; simpl; auto. Qed.

Lemma foldl_insert_lookup_notin {V} (l : list (string * V)) (m : gmap string V) k :
  k ∉ l.*1 -> foldl (fun m kv => <[kv.1 := kv.2]> m) m l !! k = m !! k.
Proof.
  revert m. induction l as [|[k' v'] l IH]; intros m Hk; simpl; [done|].
  rewrite IH by set_solver. apply lookup_insert_ne. set_solver.
Qed.

(** The last entry of a key decides its value. *)
Lemma obj_of_literal_last {V} (l1 l2 : list (string * V)) k v :
  k ∉ l2.*1 -> obj_of_literal (l1 ++ (k, v) :: l2) !! k = Some v.
Proof.
  intros Hk. rewrite obj_of_literal_app. simpl.
  rewrite foldl_insert_lookup_notin by done. apply lookup_insert_eq.
Qed.

Lemma obj_of_literal_None {V} (l : list (string * V)) k :
  k ∉ l.*1 -> obj_of_literal l !! k = None.
Proof. intros Hk. unfold obj_of_literal. by rewrite foldl_insert_lookup_notin. Qed.

(** A value found in a sequence of inserts was inserted, or was there. *)
Lemma foldl_insert_lookup_Some {V} (l : list (string * V)) (m : gmap string V) k v :
  foldl (fun m kv => <[kv.1 := kv.2]> m) m l !! k = Some v -> (k, v) ∈ l \/ m !! k = Some v.
Proof.
  revert m. induction l as [|[k' v'] l IH]; intros m Hk; simpl in *; [by right|].
  destruct (IH _ Hk) as [?|Hm]; [left; set_solver|].
  destruct (decide (k = k')) as [->|?].
  - rewrite lookup_insert_eq in Hm. simplify_eq. left; set_solver.
  - rewrite lookup_insert_ne in Hm by done. by right.
Qed.

(** Every property of a literal comes from one of its entries. *)
Lemma obj_of_literal_Some {V} (l : list (string * V)) k v :
  obj_of_literal l !! k = Some v -> (k, v) ∈ l.
Proof. intros Hk. by destruct (foldl_insert_lookup_Some l ∅ k v Hk) as [?|?]. Qed.

(** With distinct keys, every entry of the literal is found. *)
Lemma obj_of_literal_In {V} (l : list (string * V)) k v :
  NoDup l.*1 -> (k, v) ∈ l -> obj_of_literal l !! k = Some v.
Proof.
  intros Hnd Hin. apply list_elem_of_split in Hin as (l1 & l2 & ->).
  apply obj_of_literal_last. rewrite fmap_app in Hnd. simpl in Hnd.
  apply NoDup_app in Hnd as (_ & _ & Hnd). by apply NoDup_cons in Hnd as [? _].
Qed.

#[export] Hint Resolve obj_of_literal_In obj_of_literal_None : tv.

(** Inserting the entries of [l] into [m] is the literal of [l] over [m]. *)
Lemma foldl_insert_union {V} (l : list (string * V)) (m : gmap string V) :
  foldl (fun m kv => <[kv.1 := kv.2]> m) m l = obj_of_literal l ∪ m.
Proof.
  unfold obj_of_literal. revert m. induction l as [|[k v] l IH]; intros m; simpl.
  - by rewrite map_empty_union.
  - rewrite IH, (IH (<[k:=v]> ∅)), <- map_union_assoc. f_equal.
    rewrite insert_empty. apply insert_union_singleton_l.
Qed.

(** Object spread [{...src}] after the own entries [acc]: the entries of
    [src] come later and win. stdpp's union is left-biased. *)
Definition obj_spread {V} (acc src : gmap string V) : gmap string V := src ∪ acc.

(** The property names every plain object inherits from [Object.prototype]
    (all functions, or the prototype object itself for [__proto__]). *)
Definition object_prototype_props : list string :=
  ["constructor"; "hasOwnProperty"; "isPrototypeOf"; "propertyIsEnumerable";
   "toLocaleString"; "toString"; "valueOf"; "__proto__";
   "__defineGetter__"; "__defineSetter__"; "__lookupGetter__"; "__lookupSetter__"].

(** What [obj[k]] yields on a plain object whose own properties are [m]. *)
Inductive prop_value (V : Type) :=
  | Own (v : V)
  | Inherited (name : string)
  | Undefined.
Arguments Own {V} v.
Arguments Inherited {V} name.
Arguments Undefined {V}.

Definition js_get {V} (m : gmap string V) (k : string) : prop_value V :=
  match m !! k with
  | Some v => Own v
  | None => if decide (k ∈ object_prototype_props) then Inherited k else Undefined
  end.

Lemma js_get_own {V} (m : gmap string V) k v : m !! k = Some v -> js_get m k = Own v.
Proof. intros H. unfold js_get. by rewrite H. Qed.

Lemma js_get_undefined {V} (m : gmap string V) k :
  m !! k = None -> k ∉ object_prototype_props -> js_get m k = Undefined.
Proof. intros H Hk. unfold js_get. rewrite H. by case_decide. Qed.

#[export] Hint Resolve js_get_own js_get_undefined : tv.

(** ** Lists *)

Lemma NoDup_fmap_filter {A B} (f : A -> B) (P : A -> Prop) `{!forall x, Decision (P x)}
    (l : list A) :
  NoDup (f <$> l) -> NoDup (f <$> filter P l).
Proof.
  induction l as [|x l IH]; simpl; [constructor|]. rewrite filter_cons.
  intros Hnd. apply NoDup_cons in Hnd as [Hn Hnd]. case_decide; simpl; [|auto].
  constructor; [|auto]. intros Hin. apply Hn.
  apply list_elem_of_fmap in Hin as (y & -> & Hy). apply list_elem_of_fmap.
  exists y. split; [done|]. by apply list_elem_of_filter in Hy as [_ ?].
Qed.

Lemma filter_all {A} (P : A -> Prop) `{!forall x, Decision (P x)} (l : list A) :
  (forall x, P x) -> filter P l = l.
Proof.
  intros HP. induction l as [|x l IH]; [done|].
  rewrite filter_cons, decide_True by done. by rewrite IH.
Qed.

Lemma Forall_filter_sub {A} (Q P : A -> Prop) `{!forall x, Decision (P x)} (l : list A) :
  Forall Q l -> Forall Q (filter P l).
Proof.
  rewrite !Forall_forall. intros HQ x Hx. apply list_elem_of_filter in Hx as [_ ?]. auto.
Qed.

(** ** Shared tactics *)

(** Turn the boolean comparisons of the code into propositions. *)
(** Closes [l = r] by evaluating both sides in the virtual machine,
    without reading back their normal forms (they hold [gmap]s). *)
Ltac vm_refl := match goal with |- ?l = ?r => exact (@eq_refl _ r <: l = r) end.

Ltac qbool :=
  repeat match goal with
  | H : qltb _ _ = true |- _ => apply qltb_spec in H
  | H : qltb _ _ = false |- _ => apply qltb_false in H
  | H : Qeq_bool _ _ = true |- _ => apply Qeq_bool_iff in H
  | H : Qeq_bool _ _ = false |- _ => apply Qeq_bool_neq in H
  | H : (_ && _)%bool = true |- _ => apply andb_true_iff in H as [? ?]
  | H : (_ && _)%bool = false |- _ => apply andb_false_iff in H as [? | ?]
  end.

(** Case on every comparison of the goal, remembering its outcome. *)
Ltac qcase :=
  repeat match goal with
  | |- context [qltb ?a ?b] => destruct (qltb a b) eqn:?
  | |- context [Qeq_bool ?a ?b] => destruct (Qeq_bool a b) eqn:?
  end; cbv beta iota delta [andb orb negb] in *; qbool.
