(* ===== verification/Config.v ===== *)
(** * Config: the static tables and the widget options

    The module-level constants of [src/Sentiment/Sentiment.js] (lines
    7-69), identical in [src/tv-code.js] (lines 7-69): the datafeed
    configuration, the asset-class tables keyed by the ids of the
    external [assetClasses] object, the locale table and its [|| 'en']
    fallback, the colour overrides, the CSS custom properties of
    [changeStyles], and [getWidgetOptions]. Tables are object literals,
    hence [obj_of_literal] maps; lookups go through [js_get], which sees
    the properties every object inherits from [Object.prototype]. *)

From S2P Require Import Prelude.

Module Config.

(** ** Data of the application *)

(** The [asset] prop. [Decimals] is a JavaScript number, an integer in
    practice; [AssetClassId] is kept as the property key it becomes when
    it indexes a table. *)
Record asset := {
  Decimals : Z;
  AssetClassId : string;
  AssetTicker : string;
  AssetName : string;
  Category : string
}.

(** The [settings] prop (theme colours). *)
Record settings := {
  primaryBackgroundColor1 : string;
  primaryBackgroundColor2 : string;
  fontColor : string;
  buyColor : string;
  sellColor : string;
  accentColor : string
}.

(** The ids of the external [assetClasses] object, as property keys. *)
Record asset_classes := {
  Coins_id : string;
  Equity_id : string;
  Commodity_id : string;
  Index_id : string;
  CurrencyPairs_id : string
}.

(** A price bar, opaque to the code. *)
Record bar := {
  bar_time : Z;
  bar_open : Q;
  bar_high : Q;
  bar_low : Q;
  bar_close : Q
}.

(** The free identifiers of the sources: [None] (or [false]) when unbound. *)
Record globals := {
  g_assetClasses : option asset_classes;
  g_BLOB_CDN_URL : option string;
  g_drawSentiment : bool;
  g_priceData : option (list bar);
  g_yourSubscriptionMethod : bool
}.

(** [const sentimentName = 'Gradient Sentiment'] (Sentiment.js line 71). *)
Definition sentimentName : string := "Gradient Sentiment".

(** ** Configuration data *)

Record configuration := {
  supported_resolutions : list string;
  supports_marks : bool
}.

(** [getConfigurationData(isAI)]: the argument is ignored. *)
Definition getConfigurationData {A} (isAI : A) : configuration :=
  {| supported_resolutions := ["1D"]; supports_marks := true |}.

(** ** Asset-class tables (computed keys) *)

Definition tvAssetTypes_entries (ac : asset_classes) : list (string * string) :=
  [(Coins_id ac, "crypto"); (Equity_id ac, "stock"); (Commodity_id ac, "commodity");
   (Index_id ac, "index"); (CurrencyPairs_id ac, "forex")].

Definition tvAssetTypes (ac : asset_classes) : gmap string string :=
  obj_of_literal (tvAssetTypes_entries ac).

Definition assetsSessions_entries (ac : asset_classes) : list (string * string) :=
  [(Coins_id ac, "24x7"); (Equity_id ac, "0000-0000"); (Commodity_id ac, "0000-0000");
   (Index_id ac, "24x7"); (CurrencyPairs_id ac, "0000-0000")].

Definition assetsSessions (ac : asset_classes) : gmap string string :=
  obj_of_literal (assetsSessions_entries ac).

(** The class ids the tables name, in order. *)
Definition class_ids (ac : asset_classes) : list string :=
  [Coins_id ac; Equity_id ac; Commodity_id ac; Index_id ac; CurrencyPairs_id ac].

(** ** Locales *)

Definition tvChartLocales_entries : list (string * string) :=
  [("ar-AE", "ar"); ("zh-tw", "zh_TW"); ("zh-CN", "zh"); ("en-GB", "en");
   ("fr-FR", "fr"); ("de-DE", "de"); ("id-ID", "id_ID"); ("it-IT", "it");
   ("ja-JP", "ja"); ("ms-MY", "ms_MY"); ("pl-PL", "pl"); ("pt-PT", "pt");
   ("ru-RU", "ru"); ("es-ES", "es"); ("sv-SE", "sv"); ("th-TH", "th");
   ("tr-TR", "tr"); ("vi-vn", "vi")].

Definition tvChartLocales : gmap string string := obj_of_literal tvChartLocales_entries.

(** [a || b] on a property read: a falsy [a] (undefined, the empty
    string) gives [b]; an inherited property is a function or an object,
    which is truthy. *)
Definition js_or_default (p : prop_value string) (d : string) : prop_value string :=
  match p with
  | Own s => if decide (s = "") then Own d else Own s
  | Inherited n => Inherited n
  | Undefined => Own d
  end.

(** The [locale] option: [tvChartLocales[locale] || 'en']. *)
Definition widget_locale (locale : string) : prop_value string :=
  js_or_default (js_get tvChartLocales locale) "en".

(** ** Overrides *)

Definition getCommonOverrides (s : settings) : gmap string ovalue :=
  obj_of_literal
    [("paneProperties.background", OStr (primaryBackgroundColor2 s));
     ("scalesProperties.textColor", OStr (fontColor s));
     ("scalesProperties.showSymbolLabels", OBool false);
     ("mainSeriesProperties.barStyle.downColor", OStr (buyColor s));
     ("mainSeriesProperties.barStyle.upColor", OStr (buyColor s));
     ("mainSeriesProperties.candleStyle.borderUpColor", OStr (buyColor s));
     ("mainSeriesProperties.candleStyle.borderDownColor", OStr (sellColor s));
     ("mainSeriesProperties.lineStyle.color", OStr (fontColor s));
     ("mainSeriesProperties.showPriceLine", OBool false);
     ("paneProperties.separatorColor", OStr (primaryBackgroundColor2 s))].

(** The [overrides] option: two own entries, then [...getCommonOverrides]. *)
Definition widget_overrides (s : settings) : gmap string ovalue :=
  obj_spread
    (obj_of_literal [("paneProperties.crossHairProperties.color", OStr (accentColor s));
                     ("mainSeriesProperties.style", ONum (JNum 1))])
    (getCommonOverrides s).

(** The [setCSSCustomProperty] calls of [changeStyles], in order. *)
Definition changeStyles_css (s : settings) : list (string * string) :=
  [("--tv-color-platform-background", primaryBackgroundColor2 s);
   ("--tv-color-pane-background", primaryBackgroundColor2 s);
   ("--tv-color-toolbar-button-text", fontColor s);
   ("--tv-color-toolbar-button-background-hover", primaryBackgroundColor1 s);
   ("--tv-color-toolbar-button-text-active", accentColor s);
   ("--tv-color-popup-background", primaryBackgroundColor1 s);
   ("--tv-color-popup-element-text", fontColor s);
   ("--tv-color-popup-element-secondary-text", fontColor s);
   ("--tv-color-popup-element-background-active", accentColor s);
   ("--tv-color-toolbar-button-background-expanded", primaryBackgroundColor1 s);
   ("--tv-color-toolbar-button-text-hover", accentColor s);
   ("--tv-color-toolbar-button-text-active", accentColor s);
   ("--tv-color-toolbar-divider-background", primaryBackgroundColor1 s);
   ("--tv-color-popup-element-text-hover", accentColor s);
   ("--tv-color-popup-element-background-hover", primaryBackgroundColor1 s);
   ("--tv-color-popup-element-divider-background", fontColor s)].

(** ** Widget options *)

Record widget_options := {
  wo_symbol : string;
  wo_interval : string;
  wo_library_path : string;
  wo_locale : prop_value string;
  wo_enabled_features : list string;
  wo_disabled_features : list string;
  wo_charts_storage_api_version : string;
  wo_client_id : string;
  wo_user_id : string;
  wo_fullscreen : bool;
  wo_autosize : bool;
  wo_studies_overrides : gmap string ovalue;
  wo_overrides : gmap string ovalue
}.

(** [getWidgetOptions()]: the literal is evaluated in order, so a [null]
    asset fails first ([asset.AssetTicker]), then an unbound
    [BLOB_CDN_URL]. The container ref and the datafeed object are opaque
    to the model. *)
Definition getWidgetOptions (g : globals) (a : option asset) (s : settings)
    (locale : string) : result widget_options :=
  ticker ← read_nullable "asset.AssetTicker" AssetTicker a;
  cdn ← read_global "BLOB_CDN_URL" (g_BLOB_CDN_URL g);
  mret {| wo_symbol := ticker;
          wo_interval := "1D";
          wo_library_path := cdn +:+ "/tvchartinglibrary/";
          wo_locale := widget_locale locale;
          wo_enabled_features := ["fix_left_edge"; "iframe_loading_compatibility_mode";
                                  "low_density_bars";
                                  "determine_first_data_request_size_using_visible_range"];
          wo_disabled_features := ["use_localstorage_for_settings"; "header_symbol_search";
                                   "header_compare"; "study_templates";
                                   "request_only_visible_range_on_reset"];
          wo_charts_storage_api_version := "1.1";
          wo_client_id := "tradingview.com";
          wo_user_id := "public_user_id";
          wo_fullscreen := false;
          wo_autosize := true;
          wo_studies_overrides := obj_of_literal [("Overlay.style", ONum (JNum 10))];
          wo_overrides := widget_overrides s |}.

(** ** Properties *)

Lemma tvAssetTypes_entries_keys ac : (tvAssetTypes_entries ac).*1 = class_ids ac.
Proof. reflexivity. Qed.

Lemma assetsSessions_entries_keys ac : (assetsSessions_entries ac).*1 = class_ids ac.
Proof. reflexivity. Qed.

(** With distinct class ids, each table maps each class to its entry. *)
Lemma tvAssetTypes_lookup ac k v :
  NoDup (class_ids ac) -> (k, v) ∈ tvAssetTypes_entries ac -> tvAssetTypes ac !! k = Some v.
Proof. intros Hnd. apply obj_of_literal_In. by rewrite tvAssetTypes_entries_keys. Qed.

Lemma assetsSessions_lookup ac k v :
  NoDup (class_ids ac) -> (k, v) ∈ assetsSessions_entries ac -> assetsSessions ac !! k = Some v.
Proof. intros Hnd. apply obj_of_literal_In. by rewrite assetsSessions_entries_keys. Qed.

(** An id outside the five classes has neither a type nor a session. *)
Lemma asset_tables_unmapped ac k :
  k ∉ class_ids ac -> tvAssetTypes ac !! k = None /\ assetsSessions ac !! k = None.
Proof.
  intros Hk. split; apply obj_of_literal_None;
    [rewrite tvAssetTypes_entries_keys | rewrite assetsSessions_entries_keys]; done.
Qed.

Lemma tvChartLocales_entries_NoDup : NoDup tvChartLocales_entries.*1.
Proof. vm_compute. repeat constructor; set_solver. Qed.

(** The own keys of the locale table are exactly its entries' keys. *)
Lemma tvChartLocales_None k : k ∉ tvChartLocales_entries.*1 -> tvChartLocales !! k = None.
Proof. apply obj_of_literal_None. Qed.

Lemma prototype_props_not_locales k :
  k ∈ object_prototype_props -> k ∉ tvChartLocales_entries.*1.
Proof. intros Hk. vm_compute in Hk. vm_compute. set_solver. Qed.

(** Every locale of the table is passed to the widget as its table value. *)
Theorem widget_locale_mapped k v :
  (k, v) ∈ tvChartLocales_entries -> widget_locale k = Own v.
Proof.
  intros Hin. unfold widget_locale.
  rewrite (js_get_own _ _ v) by (apply obj_of_literal_In; [apply tvChartLocales_entries_NoDup | done]).
  apply list_elem_of_In in Hin. simpl in Hin.
  repeat (destruct Hin as [Hin | Hin]; [injection Hin as <- <-; reflexivity |]). done.
Qed.

(** A locale code that is neither in the table nor a property of
    [Object.prototype] falls back to ['en']. *)
Theorem widget_locale_unmapped k :
  k ∉ tvChartLocales_entries.*1 -> k ∉ object_prototype_props -> widget_locale k = Own "en".
Proof.
  intros Hk Hp. unfold widget_locale.
  rewrite js_get_undefined by auto using tvChartLocales_None. reflexivity.
Qed.

(** The locale codes the widget knows: the values of the table and the
    fallback. *)
Definition host_locales : list string := "en" :: tvChartLocales_entries.*2.

(** C32: the type of the [locale] option: for every code that is not a
    property of [Object.prototype], the widget receives a string, one of
    the table's values or ['en'], and ['en'] when the code is not in the
    table. *)
Theorem widget_locale_typed k :
  k ∉ object_prototype_props ->
  exists c, widget_locale k = Own c /\ c ∈ host_locales /\ (k ∉ tvChartLocales_entries.*1 -> c = "en").
Proof.
  intros Hp. destruct (decide (k ∈ tvChartLocales_entries.*1)) as [Hk|Hk].
  - apply list_elem_of_fmap in Hk as [[k' v] [-> Hin]].
    exists v. split_and!; [by apply widget_locale_mapped | right |];
      [| intros Hn; exfalso; apply Hn]; apply list_elem_of_fmap; by exists (k', v).
  - exists "en". split_and!; [by apply widget_locale_unmapped | left | done].
Qed.

Lemma widget_locale_typed_witness :
  "en-US" ∉ object_prototype_props /\
  exists c, widget_locale "en-US" = Own c /\ c ∈ host_locales /\ ("en-US" ∉ tvChartLocales_entries.*1 -> c = "en").
Proof.
  assert (H : "en-US" ∉ object_prototype_props) by (vm_compute; set_solver).
  split; [exact H | exact (widget_locale_typed "en-US" H)].
Defined.

(** C31: a locale code that names a property of [Object.prototype] does
    not fall back to ['en']: the lookup returns the inherited function,
    which is truthy, and the widget receives it as its locale. *)
Theorem widget_locale_inherited k :
  k ∈ object_prototype_props -> widget_locale k = Inherited k.
Proof.
  intros Hk. unfold widget_locale, js_get.
  rewrite tvChartLocales_None by auto using prototype_props_not_locales.
  by rewrite decide_True.
Qed.

Lemma widget_locale_inherited_witness :
  "toString" ∈ object_prototype_props /\ widget_locale "toString" <> Own "en".
Proof.
  assert (H : "toString" ∈ object_prototype_props) by (vm_compute; set_solver).
  split; [exact H |]. rewrite (widget_locale_inherited "toString" H). discriminate.
Defined.

(** C33: the down-bar colour of the main series is the buy colour, the
    same as the up-bar colour, whatever the theme; the sell colour
    reaches the candle's down border and, when the theme's sell colour
    differs from its background, font and buy colours, no other
    override: no bar, candle body or line is drawn in it. *)
Theorem common_overrides_bar_colors s :
  sellColor s ∉ [primaryBackgroundColor2 s; fontColor s; buyColor s] ->
  (getCommonOverrides s !! "mainSeriesProperties.barStyle.downColor" = Some (OStr (buyColor s)) /\
   getCommonOverrides s !! "mainSeriesProperties.barStyle.upColor" = Some (OStr (buyColor s)) /\
   getCommonOverrides s !! "mainSeriesProperties.candleStyle.borderDownColor" =
     Some (OStr (sellColor s))) /\
  forall k, getCommonOverrides s !! k = Some (OStr (sellColor s)) ->
    k = "mainSeriesProperties.candleStyle.borderDownColor".
Proof.
  intros Hs. split; [split_and!; reflexivity|]. intros k Hk.
  apply obj_of_literal_Some, list_elem_of_In in Hk. apply not_elem_of_cons in Hs as [H1 Hs].
  apply not_elem_of_cons in Hs as [H2 Hs]. apply not_elem_of_cons in Hs as [H3 _].
  simpl in Hk. intuition congruence.
Qed.

Lemma getCommonOverrides_crosshair s :
  getCommonOverrides s !! "paneProperties.crossHairProperties.color" = None.
Proof. reflexivity. Qed.

(** The initial [overrides] option holds every common override and
    keeps its own cross-hair colour and chart style. *)
Theorem widget_overrides_spec s k v :
  getCommonOverrides s !! k = Some v -> widget_overrides s !! k = Some v.
Proof. intros Hk. unfold widget_overrides, obj_spread. by apply lookup_union_Some_l. Qed.

Lemma widget_overrides_own s :
  widget_overrides s !! "paneProperties.crossHairProperties.color" = Some (OStr (accentColor s)) /\
  widget_overrides s !! "mainSeriesProperties.style" = Some (ONum (JNum 1)).
Proof. split; reflexivity. Qed.

(** C34: [getWidgetOptions] fails with a [TypeError] on a [null] asset
    (the component's default prop), with a [ReferenceError] when
    [BLOB_CDN_URL] is unbound, and otherwise builds the options from the
    asset's ticker, the locale table and the theme. *)
Theorem getWidgetOptions_spec g a s l :
  match a, g_BLOB_CDN_URL g with
  | None, _ => getWidgetOptions g a s l = Throw (TypeError "asset.AssetTicker")
  | Some _, None => getWidgetOptions g a s l = Throw (ReferenceError "BLOB_CDN_URL")
  | Some x, Some cdn => exists o, getWidgetOptions g a s l = Ok o /\
      wo_symbol o = AssetTicker x /\ wo_locale o = widget_locale l /\
      wo_library_path o = cdn +:+ "/tvchartinglibrary/" /\ wo_overrides o = widget_overrides s
  end.
Proof.
  unfold getWidgetOptions. destruct a as [x|], (g_BLOB_CDN_URL g) as [cdn|]; simpl; eauto 10.
Qed.

(** ** Concrete inputs *)

Definition ex_settings : settings :=
  {| primaryBackgroundColor1 := "#111"; primaryBackgroundColor2 := "#222"; fontColor := "#eee";
     buyColor := "#0f0"; sellColor := "#f00"; accentColor := "#09f" |}.

Lemma common_overrides_bar_colors_witness :
  sellColor ex_settings ∉ [primaryBackgroundColor2 ex_settings; fontColor ex_settings; buyColor ex_settings] /\
  forall k, getCommonOverrides ex_settings !! k = Some (OStr (sellColor ex_settings)) ->
    k = "mainSeriesProperties.candleStyle.borderDownColor".
Proof.
  assert (H : sellColor ex_settings ∉ [primaryBackgroundColor2 ex_settings; fontColor ex_settings;
                                       buyColor ex_settings]) by (simpl; rewrite !not_elem_of_cons; split_and!; [discriminate.. | apply not_elem_of_nil]).
  split; [exact H | exact (proj2 (common_overrides_bar_colors ex_settings H))].
Defined.

End Config.
