(* ===== verification/Baseline.v ===== *)
(** * Baseline: the baseline percentage of the sentiment overlay

    The arithmetic core of [setBaselineLevel] in
    [src/Sentiment/Sentiment.js] (lines 210-217): from the visible range
    [{from, to}] of the left price scale it computes
    [baseLevelPercentage], the height (in percent of the range) of the
    overlay's zero line. The operation that reads the range from the
    widget and pushes the override is [Sentiment.setBaselineLevel].

    The abstract specification [baseline_spec] says what the number
    means: the position of the price 0 inside an increasing range
    [from < to], measured from [from] in percent of the range, clamped to
    [0, 100]. The refinement theorem shows the three branches of the code
    compute it; the remaining theorems give each branch, the bounds, and
    the only range for which the code divides zero by zero. *)

From S2P Require Import Prelude.

Module Baseline.

(** ** The code *)

(** [from > 0 && to > 0 ? 0 : from < 0 && to < 0 ? 100 :
     Math.abs(from) / Math.abs(from - to) * 100] *)
Definition baseLevelPercentage (from to : Q) : jsnum :=
  if qltb 0 from && qltb 0 to then JNum 0
  else if qltb from 0 && qltb to 0 then JNum 100
  else js_mul (js_div (Qabs from) (Qabs (from - to))) 100.

(** ** The specification *)

Definition clamp (lo hi x : Q) : Q :=
  if qltb x lo then lo else if qltb hi x then hi else x.

(** Where the price 0 sits in [[from, to]], in percent from [from]. *)
Definition baseline_spec (from to : Q) : Q :=
  clamp 0 100 ((0 - from) / (to - from) * 100).

(** ** Arithmetic lemmas *)

Lemma clamp_id lo hi x : lo <= x -> x <= hi -> clamp lo hi x == x.
Proof. intros. unfold clamp. qcase; lra. Qed.

Lemma clamp_below lo hi x : lo <= hi -> x <= lo -> clamp lo hi x == lo.
Proof. intros. unfold clamp. qcase; lra. Qed.

Lemma clamp_above lo hi x : lo <= hi -> hi <= x -> clamp lo hi x == hi.
Proof. intros. unfold clamp. qcase; lra. Qed.

(** A ratio [a / b] of [0 <= a <= b] is a percentage. *)
Lemma percent_bounds a b : 0 <= a -> a <= b -> 0 < b -> 0 <= a / b * 100 <= 100.
Proof.
  intros Ha Hab Hb.
  assert (0 <= a / b) by (apply Qle_shift_div_l; lra).
  assert (a / b <= 1) by (apply Qle_shift_div_r; lra).
  lra.
Qed.

Lemma div_nonpos a b : a <= 0 -> 0 < b -> a / b <= 0.
Proof. intros. apply Qle_shift_div_r; lra. Qed.

Lemma div_ge_one a b : b <= a -> 0 < b -> 1 <= a / b.
Proof. intros. apply Qle_shift_div_l; lra. Qed.

(** Bounds of opposite signs: [|from| <= |from - to|]. *)
Lemma straddle_abs from to :
  (from <= 0 /\ 0 <= to) \/ (to <= 0 /\ 0 <= from) ->
  Qabs from <= Qabs (from - to).
Proof.
  intros [[] | []].
  - rewrite (Qabs_neg from), (Qabs_neg (from - to)) by lra. lra.
  - rewrite (Qabs_pos from), (Qabs_pos (from - to)) by lra. lra.
Qed.

(** The third branch is taken exactly when the bounds do not share a strict sign. *)
Lemma straddle_of_branch from to :
  (qltb 0 from && qltb 0 to)%bool = false -> (qltb from 0 && qltb to 0)%bool = false ->
  (from <= 0 /\ 0 <= to) \/ (to <= 0 /\ 0 <= from).
Proof. intros H1 H2. qbool; lra. Qed.

Lemma Qabs_zero x : Qabs x == 0 -> x == 0.
Proof. intros H. destruct (Qlt_le_dec x 0); [rewrite Qabs_neg in H | rewrite Qabs_pos in H]; lra. Qed.

Lemma Qabs_nonzero x : ~ Qabs x == 0 -> ~ x == 0.
Proof. intros H Hx. apply H. rewrite Hx. reflexivity. Qed.

(** Replace the tests [Math.abs(x) == 0] of a division by tests on [x]. *)
Ltac qabs_zero :=
  repeat match goal with
  | H : Qabs _ == 0 |- _ => apply Qabs_zero in H
  | H : ~ Qabs _ == 0 |- _ => apply Qabs_nonzero in H
  end.

#[export] Hint Resolve percent_bounds straddle_abs straddle_of_branch : tv.

(** ** Compatibility with the equality of rationals *)

#[export] Instance qltb_proper : Proper (Qeq ==> Qeq ==> eq) qltb.
Proof. intros a a' Ha b b' Hb. unfold qltb. by rewrite Ha, Hb. Qed.

#[export] Instance js_div_proper : Proper (Qeq ==> Qeq ==> jsnum_eq) js_div.
Proof.
  intros a a' Ha b b' Hb. unfold js_div.
  rewrite Ha, Hb. destruct (Qeq_bool b' 0), (Qeq_bool a' 0); simpl; try done;
    by rewrite ?Ha, ?Hb.
Qed.

#[export] Instance js_mul_proper : Proper (jsnum_eq ==> Qeq ==> jsnum_eq) js_mul.
Proof.
  intros [x| |p] [y| |p'] Hxy k k' Hk; simpl in *; try done; subst.
  - by rewrite Hxy, Hk.
  - rewrite Hk. destruct (Qeq_bool k' 0); [done |]. simpl.
    by rewrite (Qleb_comp 0 0 (Qeq_refl 0) k k' Hk).
Qed.

(** The percentage depends on the values of the bounds only. *)
#[export] Instance baseLevelPercentage_proper : Proper (Qeq ==> Qeq ==> jsnum_eq) baseLevelPercentage.
Proof.
  intros f f' Hf t t' Ht. unfold baseLevelPercentage.
  rewrite Hf, Ht. destruct (_ && _)%bool; [done|].
  rewrite Hf, Ht. destruct (_ && _)%bool; [done|].
  by rewrite Hf, Ht.
Qed.

(** ** Properties *)

Lemma js_div_nonzero a b : ~ b == 0 -> js_div a b = JNum (a / b).
Proof. intros Hb. unfold js_div. destruct (Qeq_bool b 0) eqn:E; qbool; done. Qed.

Lemma jsnum_eq_NaN x : (x ≈ JNaN)%js -> x = JNaN.
Proof. by destruct x. Qed.

(** Bounds of opposite signs take the third branch. *)
Lemma baseline_third f t :
  (f <= 0 /\ 0 <= t) \/ (t <= 0 /\ 0 <= f) ->
  baseLevelPercentage f t = js_mul (js_div (Qabs f) (Qabs (f - t))) 100.
Proof. intros H. unfold baseLevelPercentage. qcase; try reflexivity; exfalso; lra. Qed.

Lemma Qabs_pos_of_neq x y : ~ x == y -> 0 < Qabs (x - y).
Proof.
  intros Hxy. destruct (Qlt_le_dec (x - y) 0);
    [rewrite Qabs_neg | rewrite Qabs_pos]; lra.
Qed.

(** Both bounds above zero: the baseline is 0. *)
Lemma baseline_positive f t : 0 < f -> 0 < t -> baseLevelPercentage f t = JNum 0.
Proof. intros. unfold baseLevelPercentage. qcase; try reflexivity; exfalso; lra. Qed.

(** Both bounds below zero: the baseline is 100. *)
Lemma baseline_negative f t : f < 0 -> t < 0 -> baseLevelPercentage f t = JNum 100.
Proof. intros. unfold baseLevelPercentage. qcase; try reflexivity; exfalso; lra. Qed.


(** C2: a range that contains 0 and is not a single point gives a
    finite percentage between 0 and 100. *)
Theorem baseline_straddle_bounds f t :
  (f <= 0 /\ 0 <= t) \/ (t <= 0 /\ 0 <= f) -> ~ f == t ->
  exists q, baseLevelPercentage f t = JNum q /\ 0 <= q <= 100.
Proof.
  intros Hs Hne. pose proof (Qabs_pos_of_neq f t Hne).
  rewrite baseline_third by done. rewrite js_div_nonzero by lra. simpl.
  eexists; split; [reflexivity |].
  apply percent_bounds; [apply Qabs_nonneg | by apply straddle_abs | done].
Qed.

Lemma baseline_straddle_bounds_witness :
  exists q, baseLevelPercentage (-30) 10 = JNum q /\ 0 <= q <= 100.
Proof. apply baseline_straddle_bounds; [left; split; discriminate | discriminate]. Defined.

(** C3: the code computes NaN exactly on the range [[0, 0]] (zero
    divided by zero), and never an infinity. Equal non-zero bounds are
    caught by the sign branches. *)
Theorem baseline_degenerate f t :
  (baseLevelPercentage f t = JNaN <-> f == 0 /\ t == 0) /\
  forall p, baseLevelPercentage f t <> JInf p.
Proof.
  unfold baseLevelPercentage, js_div. split; [split|].
  - qcase; try discriminate; intros _; qabs_zero; lra.
  - intros [Hf Ht]. apply jsnum_eq_NaN.
    change (baseLevelPercentage f t ≈ baseLevelPercentage 0 0)%js. by rewrite Hf, Ht.
  - intros p. qcase; try discriminate; qabs_zero; try (exfalso; lra); discriminate.
Qed.

(** C1: refinement. On an increasing range the code computes the
    specified position of the zero line, clamped to [[0, 100]]. *)
Theorem baseline_refinement f t :
  f < t -> (baseLevelPercentage f t ≈ JNum (baseline_spec f t))%js.
Proof.
  intros Hft. unfold baseline_spec. simpl.
  destruct (Qlt_le_dec 0 f) as [Hf | Hf]; [|destruct (Qlt_le_dec t 0) as [Ht | Ht]].
  - rewrite baseline_positive by lra. simpl. symmetry. apply clamp_below; [lra |].
    pose proof (div_nonpos (0 - f) (t - f)). lra.
  - rewrite baseline_negative by lra. simpl. symmetry. apply clamp_above; [lra |].
    pose proof (div_ge_one (0 - f) (t - f)). lra.
  - rewrite baseline_third by lra.
    assert (E1 : Qabs f == 0 - f) by (rewrite Qabs_neg by lra; ring).
    assert (E2 : Qabs (f - t) == t - f) by (rewrite Qabs_neg by lra; ring).
    rewrite E1, E2, js_div_nonzero by lra. simpl. symmetry.
    apply clamp_id; apply (percent_bounds (0 - f) (t - f)); lra.
Qed.

Lemma baseline_refinement_witness :
  (baseLevelPercentage (-30) 10 ≈ JNum (baseline_spec (-30) 10))%js.
Proof. apply baseline_refinement. reflexivity. Defined.

(** The values the specification lists: [[-10, 10]] gives 50,
    [[-30, 10]] gives 75. *)
Example baseline_examples :
  (baseLevelPercentage (-10) 10 ≈ JNum 50)%js /\ (baseLevelPercentage (-30) 10 ≈ JNum 75)%js.
Proof. split; apply jsnum_eqb_spec; vm_compute; reflexivity. Qed.

End Baseline.
