(* ===== verification/Host.v ===== *)
(** * Host: the charting widget as the code observes it

    The widget ([new Widget(options)] in [src/Sentiment/Sentiment.js] line
    225) is a host component outside the repository. The code uses a
    small part of its chart API: [createStudy], [removeEntity],
    [getAllStudies], [getStudyById(id).applyOverrides],
    [getPanes()[0].getLeftPriceScales()[0].getVisiblePriceRange()],
    [chart(0).applyOverrides], [setChartType] and
    [setCSSCustomProperty].

    The class [ChartOps] lists those operations and [ChartLaws] what the
    code relies on them to do, with a well-formedness predicate
    [chart_wf] they preserve. The handlers of [Sentiment] are proved
    against the class; the record [chart] with its operations is the
    concrete model, an instance of the class (its laws are lemmas here),
    on which the witnesses compute. Study identifiers are numbers drawn
    from a counter; a study is its identifier, its name and the overrides
    applied to it. *)

From S2P Require Import Prelude.

Module Host.

Definition study_id := nat.

(** ** The interface the handlers use *)

Class ChartOps (C : Type) := {
  getAllStudies : C -> list (study_id * string);
  createStudy : string -> C -> study_id * C;
  removeEntity : study_id -> C -> C;
  study_overrides : study_id -> C -> option (gmap string ovalue);
  study_applyOverrides : study_id -> gmap string ovalue -> C -> C;
  visiblePriceRange : C -> result (Q * Q);
  chart_wf : C -> Prop
}.

Definition study_ids {C} `{ChartOps C} (c : C) : list study_id := (getAllStudies c).*1.

(** The studies of the chart with a given name. *)
Definition studies_named {C} `{ChartOps C} (name : string) (c : C) : list study_id :=
  (filter (fun p => p.2 = name) (getAllStudies c)).*1.

Class ChartLaws (C : Type) `{ChartOps C} : Prop := {
  createStudy_studies name c :
    chart_wf c ->
    getAllStudies (createStudy name c).2 = getAllStudies c ++ [((createStudy name c).1, name)];
  createStudy_fresh name c :
    chart_wf c -> (createStudy name c).1 ∉ study_ids c;
  createStudy_overrides name c :
    chart_wf c -> study_overrides (createStudy name c).1 (createStudy name c).2 = Some ∅;
  removeEntity_studies id c :
    getAllStudies (removeEntity id c) = filter (fun p => p.1 <> id) (getAllStudies c);
  study_overrides_Some id c :
    chart_wf c -> is_Some (study_overrides id c) <-> id ∈ study_ids c;
  study_applyOverrides_studies id ov c :
    getAllStudies (study_applyOverrides id ov c) = getAllStudies c;
  study_applyOverrides_lookup id ov c o :
    chart_wf c -> study_overrides id c = Some o ->
    study_overrides id (study_applyOverrides id ov c) = Some (ov ∪ o);
  study_applyOverrides_range id ov c :
    visiblePriceRange (study_applyOverrides id ov c) = visiblePriceRange c;
  wf_createStudy name c : chart_wf c -> chart_wf (createStudy name c).2;
  wf_removeEntity id c : chart_wf c -> chart_wf (removeEntity id c);
  wf_applyOverrides id ov c : chart_wf c -> chart_wf (study_applyOverrides id ov c)
}.

(** ** The concrete model *)

Record study := {
  st_id : study_id;
  st_name : string;
  st_overrides : gmap string ovalue
}.

(** The active chart: its studies in creation order, the counter of
    identifiers, the visible ranges of the left price scales of each pane
    ([None] for a scale whose range is [null]), and what the code sets
    on the chart itself. *)
Record chart := {
  studies : list study;
  next_id : nat;
  panes : list (list (option (Q * Q)));
  chart_type : Z;
  main_overrides : gmap string ovalue
}.

Definition set_studies (c : chart) (l : list study) : chart :=
  {| studies := l; next_id := next_id c; panes := panes c;
     chart_type := chart_type c; main_overrides := main_overrides c |}.

Definition list_createStudy (name : string) (c : chart) : study_id * chart :=
  (next_id c,
   {| studies := studies c ++ [{| st_id := next_id c; st_name := name; st_overrides := ∅ |}];
      next_id := S (next_id c); panes := panes c;
      chart_type := chart_type c; main_overrides := main_overrides c |}).

Definition list_removeEntity (id : study_id) (c : chart) : chart :=
  set_studies c (filter (fun s => st_id s <> id) (studies c)).

(** [getStudyById(id)]: the first study with that identifier. *)
Fixpoint find_study (id : study_id) (l : list study) : option study :=
  match l with
  | [] => None
  | s :: l' => if decide (st_id s = id) then Some s else find_study id l'
  end.

Definition list_study_overrides (id : study_id) (c : chart) : option (gmap string ovalue) :=
  st_overrides <$> find_study id (studies c).

Definition override_study (id : study_id) (ov : gmap string ovalue) (s : study) : study :=
  if decide (st_id s = id)
  then {| st_id := st_id s; st_name := st_name s; st_overrides := ov ∪ st_overrides s |}
  else s.

Definition list_study_applyOverrides (id : study_id) (ov : gmap string ovalue) (c : chart) : chart :=
  set_studies c (override_study id ov <$> studies c).

(** [chart.getPanes()[0].getLeftPriceScales()[0]] and then
    [const { from, to } = await priceScale?.getVisiblePriceRange()]:
    a missing pane fails on [.getLeftPriceScales], a missing scale
    ([priceScale?.] gives [undefined]) or a [null] range fails on the
    destructuring. *)
Definition list_visiblePriceRange (c : chart) : result (Q * Q) :=
  match panes c with
  | [] => Throw (TypeError "getPanes()[0] is undefined")
  | p0 :: _ =>
      match p0 with
      | Some r :: _ => Ok r
      | _ => Throw (TypeError "cannot destructure the visible price range")
      end
  end.

(** Well-formed: identifiers unique and below the counter. *)
Definition list_chart_wf (c : chart) : Prop :=
  NoDup (st_id <$> studies c) /\ Forall (fun s => (st_id s < next_id c)%nat) (studies c).

#[export] Instance chart_ops : ChartOps chart := {
  getAllStudies c := (fun s => (st_id s, st_name s)) <$> studies c;
  createStudy := list_createStudy;
  removeEntity := list_removeEntity;
  study_overrides := list_study_overrides;
  study_applyOverrides := list_study_applyOverrides;
  visiblePriceRange := list_visiblePriceRange;
  chart_wf := list_chart_wf
}.

(** ** The concrete model satisfies the interface *)

Lemma study_ids_chart (c : chart) : study_ids c = st_id <$> studies c.
Proof. unfold study_ids. simpl. rewrite <- list_fmap_compose. reflexivity. Qed.

Lemma find_study_Some id l s : find_study id l = Some s -> st_id s = id /\ s ∈ l.
Proof.
  induction l as [|s' l IH]; simpl; [done|]. case_decide.
  - intros [= ->]. split; [done | constructor].
  - intros H'. apply IH in H' as [? ?]. split; [done | by constructor].
Qed.

Lemma find_study_is_Some id l : is_Some (find_study id l) <-> id ∈ st_id <$> l.
Proof.
  induction l as [|s l IH]; simpl.
  - split; [by intros [? ?] | set_solver].
  - case_decide; rewrite elem_of_cons; [split; eauto|]. rewrite IH. naive_solver.
Qed.

Lemma find_study_app_r id l1 l2 :
  id ∉ st_id <$> l1 -> find_study id (l1 ++ l2) = find_study id l2.
Proof.
  induction l1 as [|s l1 IH]; simpl; [done|]. rewrite elem_of_cons.
  intros Hn. rewrite decide_False by naive_solver. apply IH. naive_solver.
Qed.

Lemma override_study_id i ov s : st_id (override_study i ov s) = st_id s.
Proof. unfold override_study. by case_decide. Qed.

Lemma override_study_name i ov s : st_name (override_study i ov s) = st_name s.
Proof. unfold override_study. by case_decide. Qed.

Lemma find_study_override id i ov l :
  find_study id (override_study i ov <$> l) = override_study i ov <$> find_study id l.
Proof.
  induction l as [|s l IH]; simpl; [done|]. rewrite override_study_id.
  case_decide; [done | apply IH].
Qed.

Lemma next_id_fresh (c : chart) : list_chart_wf c -> next_id c ∉ st_id <$> studies c.
Proof.
  intros [_ Hlt] Hin. apply list_elem_of_fmap in Hin as (s & Hs & Hin).
  rewrite Forall_forall in Hlt. specialize (Hlt s Hin). lia.
Qed.

#[export] Instance chart_laws : ChartLaws chart.
Proof.
  split; simpl.
  - intros name c _. by rewrite fmap_app.
  - intros name c Hwf. rewrite study_ids_chart. by apply next_id_fresh.
  - intros name c Hwf. unfold list_study_overrides. simpl.
    by rewrite find_study_app_r by (by apply next_id_fresh); simpl; rewrite decide_True.
  - intros id c. unfold list_removeEntity. simpl.
    induction (studies c) as [|s l IH]; [done|].
    rewrite filter_cons, fmap_cons, filter_cons. simpl.
    destruct (decide (st_id s ≠ id)); [by rewrite fmap_cons, IH | exact IH].
  - intros id c _. rewrite study_ids_chart. unfold list_study_overrides.
    rewrite <- find_study_is_Some. by rewrite fmap_is_Some.
  - intros id ov c. simpl. rewrite <- list_fmap_compose.
    apply list_fmap_ext. intros _ s _. simpl. by rewrite override_study_id, override_study_name.
  - intros id ov c o _. unfold list_study_overrides. simpl. rewrite find_study_override.
    destruct (find_study id (studies c)) as [s|] eqn:E; [|done]. simpl. intros [= <-].
    apply find_study_Some in E as [Hid _]. unfold override_study. by rewrite decide_True.
  - done.
  - intros name c [Hnd Hlt]. split; simpl.
    + rewrite fmap_app. apply NoDup_app. split_and!; [done | | apply NoDup_singleton].
      intros x Hx Hx'. apply list_elem_of_singleton in Hx' as ->.
      apply (next_id_fresh c); [by split | done].
    + apply Forall_app. split; [|apply Forall_singleton; simpl; lia].
      eapply Forall_impl; [done|]. simpl. intros; lia.
  - intros id c [Hnd Hlt]. split; simpl.
    + by apply NoDup_fmap_filter.
    + by apply Forall_filter_sub.
  - intros id ov c [Hnd Hlt]. split; simpl.
    + rewrite <- list_fmap_compose. erewrite list_fmap_ext; [done|].
      intros _ s _. apply override_study_id.
    + apply Forall_fmap. eapply Forall_impl; [done|]. intros s. simpl. by rewrite override_study_id.
Qed.

End Host.
