(* ===== verification/Datafeed.v ===== *)
(** * Datafeed: the object the widget calls for symbols and bars

    [getDatafeed()] of [src/Sentiment/Sentiment.js] (lines 112-119 and
    122-173) and of [src/tv-code.js] (lines 110-117 and 120-155). The
    widget calls [onReady], [resolveSymbol], [getBars], [subscribeBars]
    and [unsubscribeBars] and receives the answers through its callbacks.

    The model is an event loop: [df_state] holds the queue of timer
    callbacks ([setTimeout]), the log of the widget's callbacks invoked
    so far, the rejections of the [async] methods (an exception in an
    [async] function rejects its promise, which nobody awaits), the
    exceptions thrown by timer callbacks, and the subscriptions made
    through the external [yourSubscriptionMethod]. A timer callback runs
    only when the loop takes it ([tick]); [drain] runs the queue to the
    end.

    [datafeed] is the capability set as a record of operations;
    [getDatafeed] (Sentiment.js) and [getDatafeed_tvcode] (tv-code.js)
    build it. The contract the widget expects of a datafeed (the
    specification's §4.1) is [datafeed_contract]; the theorems show which
    parts the code meets and which it does not. *)

From S2P Require Import Prelude Config.

Module Datafeed.
Import Config.

(** ** Symbol descriptors *)

Record symbol_info := {
  si_type : prop_value string;
  si_ticker : string;
  si_name : string;
  si_sector : option string;
  si_exchange : option string;
  si_timezone : string;
  si_pricescale : Q;
  si_has_intraday : bool;
  si_visible_plots_set : string;
  si_has_weekly_and_monthly : bool;
  si_supported_resolutions : list string;
  si_volume_precision : Z;
  si_data_status : string;
  si_minmov : Z;
  si_session : prop_value string
}.

(** [getConfigurationData(drawSentiment)]: [drawSentiment] is declared
    nowhere in the repository, so reading it throws unless a global of
    that name exists. *)
Definition config_read (g : globals) : result configuration :=
  if g_drawSentiment g then Ok (getConfigurationData tt)
  else Throw (ReferenceError "drawSentiment").

(** The descriptor of the synthetic series (Sentiment.js lines 130-144). *)
Definition sentimentSymbolInfo (symbolName : string) (cfg : configuration) : symbol_info :=
  {| si_type := Own "undefined"; si_ticker := symbolName; si_name := symbolName;
     si_sector := None; si_exchange := Some ""; si_timezone := "Etc/UTC";
     si_pricescale := 1000; si_has_intraday := true; si_visible_plots_set := "ohlc";
     si_has_weekly_and_monthly := false; si_supported_resolutions := supported_resolutions cfg;
     si_volume_precision := 2; si_data_status := "streaming"; si_minmov := 1;
     si_session := Own "0000-0000" |}.

(** The descriptor of the asset (Sentiment.js lines 145-160,
    tv-code.js lines 127-142): [pricescale: 10 ** decimals]. *)
Definition assetSymbolInfo (ac : asset_classes) (a : asset) (cfg : configuration) : symbol_info :=
  {| si_type := js_get (tvAssetTypes ac) (AssetClassId a); si_ticker := AssetTicker a;
     si_name := AssetName a; si_sector := Some (Category a); si_exchange := None;
     si_timezone := "Etc/UTC"; si_pricescale := Qpower (inject_Z 10) (Decimals a);
     si_has_intraday := true; si_visible_plots_set := "ohlc";
     si_has_weekly_and_monthly := false; si_supported_resolutions := supported_resolutions cfg;
     si_volume_precision := 2; si_data_status := "streaming"; si_minmov := 1;
     si_session := js_get (assetsSessions ac) (AssetClassId a) |}.

(** The synchronous part of [resolveSymbol] in Sentiment.js: read
    [asset.Decimals] (a [TypeError] on a [null] asset, whatever the
    symbol), then build the descriptor of the branch. *)
Definition resolve_symbol_info (g : globals) (ac : asset_classes) (a : option asset)
    (symbolName : string) : result symbol_info :=
  x ← read_nullable "asset.Decimals" id a;
  if decide (symbolName = sentimentName)
  then cfg ← config_read g; mret (sentimentSymbolInfo symbolName cfg)
  else cfg ← config_read g; mret (assetSymbolInfo ac x cfg).

(** The same in tv-code.js, which has no synthetic series. *)
Definition resolve_symbol_info_tvcode (g : globals) (ac : asset_classes) (a : option asset)
    (symbolName : string) : result symbol_info :=
  x ← read_nullable "asset.Decimals" id a;
  cfg ← config_read g; mret (assetSymbolInfo ac x cfg).

(** ** The event loop *)

(** The widget's callbacks, as they are invoked. *)
Inductive callback_event :=
  | Configured (cfg : configuration)
  | SymbolResolved (info : symbol_info)
  | History (bars : list bar) (noData : bool)
  | Tick (listenerGuid : string) (b : bar).

(** Timer callbacks waiting in the queue. *)
Inductive task :=
  | TReady
  | TResolve (info : symbol_info).

Record df_state := {
  tasks : list task;
  log : list callback_event;
  rejected : list js_error;
  uncaught : list js_error;
  subscriptions : list string
}.

Definition df_init : df_state :=
  {| tasks := []; log := []; rejected := []; uncaught := []; subscriptions := [] |}.

Definition push_task (t : task) (st : df_state) : df_state :=
  {| tasks := tasks st ++ [t]; log := log st; rejected := rejected st;
     uncaught := uncaught st; subscriptions := subscriptions st |}.

Definition emit (evs : list callback_event) (st : df_state) : df_state :=
  {| tasks := tasks st; log := log st ++ evs; rejected := rejected st;
     uncaught := uncaught st; subscriptions := subscriptions st |}.

Definition reject (e : js_error) (st : df_state) : df_state :=
  {| tasks := tasks st; log := log st; rejected := rejected st ++ [e];
     uncaught := uncaught st; subscriptions := subscriptions st |}.

Definition throw_uncaught (e : js_error) (st : df_state) : df_state :=
  {| tasks := tasks st; log := log st; rejected := rejected st;
     uncaught := uncaught st ++ [e]; subscriptions := subscriptions st |}.

Definition set_tasks (ts : list task) (st : df_state) : df_state :=
  {| tasks := ts; log := log st; rejected := rejected st;
     uncaught := uncaught st; subscriptions := subscriptions st |}.

(** Running one timer callback. *)
Definition run_task (g : globals) (t : task) (st : df_state) : df_state :=
  match t with
  | TReady =>
      match config_read g with
      | Ok cfg => emit [Configured cfg] st
      | Throw e => throw_uncaught e st
      end
  | TResolve info => emit [SymbolResolved info] st
  end.

(** One turn of the loop: the first timer callback, if any. *)
Definition tick (g : globals) (st : df_state) : option df_state :=
  match tasks st with
  | [] => None
  | t :: ts => Some (run_task g t (set_tasks ts st))
  end.

Fixpoint run_tasks (g : globals) (ts : list task) (st : df_state) : df_state :=
  match ts with
  | [] => st
  | t :: ts' => run_tasks g ts' (run_task g t st)
  end.

(** Run the queue to the end. *)
Definition drain (g : globals) (st : df_state) : df_state :=
  run_tasks g (tasks st) (set_tasks [] st).

(** ** The methods *)

(** [onReady: (callback) => { setTimeout(() => callback(getConfigurationData(drawSentiment))) }] *)
Definition onReady (st : df_state) : df_state := push_task TReady st.

(** [resolveSymbol] is [async]: an exception rejects its promise; on
    success the descriptor is handed to [setTimeout(..., 0)]. *)
Definition resolveSymbol_with (info : result symbol_info) (st : df_state) : df_state :=
  match info with
  | Ok i => push_task (TResolve i) st
  | Throw e => reject e st
  end.

(** [getBars] is [async] and calls the callback before returning:
    [onHistoryCallback(firstDataRequest ? priceData : [], { noData: !firstDataRequest })].
    [priceData] is read only on a first request. *)
Definition getBars (g : globals) (firstDataRequest : bool) (st : df_state) : df_state :=
  if firstDataRequest then
    match g_priceData g with
    | Some d => emit [History d false] st
    | None => reject (ReferenceError "priceData") st
    end
  else emit [History [] true] st.

(** The [getBars] of tv-code.js (lines 110-117), the same arrow
    function. *)
Definition getBars_tvcode (g : globals) (firstDataRequest : bool) (st : df_state) : df_state :=
  if firstDataRequest then
    match g_priceData g with
    | Some d => emit [History d false] st
    | None => reject (ReferenceError "priceData") st
    end
  else emit [History [] true] st.

(** [subscribeBars] calls [yourSubscriptionMethod().onUpdate(...)]
    synchronously; the guid is not kept by the code. The model records
    which subscriber's [onTick] the registration calls. *)
Definition subscribeBars (g : globals) (listenerGuid : string) (st : df_state) : result df_state :=
  if g_yourSubscriptionMethod g then
    Ok {| tasks := tasks st; log := log st; rejected := rejected st; uncaught := uncaught st;
          subscriptions := subscriptions st ++ [listenerGuid] |}
  else Throw (ReferenceError "yourSubscriptionMethod").

(** [unsubscribeBars(symbol, callback) { }]: the body is empty. *)
Definition unsubscribeBars (listenerGuid : string) (st : df_state) : df_state := st.

(** A message of the subscription source reaches every registration. *)
Definition source_update (b : bar) (st : df_state) : df_state :=
  emit ((fun guid => Tick guid b) <$> subscriptions st) st.

(** ** The capability set *)

Record datafeed := {
  df_onReady : df_state -> df_state;
  df_resolveSymbol : string -> df_state -> df_state;
  df_getBars : bool -> df_state -> df_state;
  df_subscribeBars : string -> df_state -> result df_state;
  df_unsubscribeBars : string -> df_state -> df_state
}.

Definition getDatafeed (g : globals) (ac : asset_classes) (a : option asset) : datafeed :=
  {| df_onReady := onReady;
     df_resolveSymbol name := resolveSymbol_with (resolve_symbol_info g ac a name);
     df_getBars := getBars g;
     df_subscribeBars := subscribeBars g;
     df_unsubscribeBars := unsubscribeBars |}.

Definition getDatafeed_tvcode (g : globals) (ac : asset_classes) (a : option asset) : datafeed :=
  {| df_onReady := onReady;
     df_resolveSymbol name := resolveSymbol_with (resolve_symbol_info_tvcode g ac a name);
     df_getBars := getBars_tvcode g;
     df_subscribeBars := subscribeBars g;
     df_unsubscribeBars := unsubscribeBars |}.

(** ** The event loop *)

Lemma run_task_tasks g t st : tasks (run_task g t st) = tasks st.
Proof. destruct t; simpl; [destruct (config_read g)|]; reflexivity. Qed.

Lemma run_task_set_tasks g t ts st : set_tasks ts (run_task g t st) = run_task g t (set_tasks ts st).
Proof. destruct t; simpl; [destruct (config_read g)|]; reflexivity. Qed.

Lemma run_tasks_app g ts1 ts2 st :
  run_tasks g (ts1 ++ ts2) st = run_tasks g ts2 (run_tasks g ts1 st).
Proof. revert st. induction ts1; simpl; auto. Qed.

Lemma run_tasks_tasks g ts st : tasks (run_tasks g ts st) = tasks st.
Proof. revert st. induction ts; intros st; simpl; [done|]. by rewrite IHts, run_task_tasks. Qed.

(** A callback queued last runs after everything queued before it. *)
Lemma drain_push g t st : drain g (push_task t st) = run_task g t (drain g st).
Proof. unfold drain. simpl. rewrite run_tasks_app. reflexivity. Qed.

(** What a timer callback passes to the widget. *)
Definition task_events (g : globals) (t : task) : list callback_event :=
  match t with
  | TReady => match config_read g with Ok cfg => [Configured cfg] | Throw _ => [] end
  | TResolve i => [SymbolResolved i]
  end.

Lemma run_task_log g t st : log (run_task g t st) = log st ++ task_events g t.
Proof. destruct t; simpl; [destruct (config_read g)|]; simpl; by rewrite ?app_nil_r. Qed.

Lemma run_tasks_log g ts st : log (run_tasks g ts st) = log st ++ (ts ≫= task_events g).
Proof.
  revert st. induction ts as [|t ts IH]; intros st; simpl; [by rewrite app_nil_r|].
  by rewrite IH, run_task_log, app_assoc.
Qed.

#[export] Hint Rewrite drain_push : tv_rw.

(** ** Deferral and its failures *)

Lemma config_read_bound g : g_drawSentiment g = true -> config_read g = Ok (getConfigurationData tt).
Proof. unfold config_read. by intros ->. Qed.

(** [onReady] answers after the current call stack, once the loop
    runs its timer: nothing is invoked during the call, and the
    configuration is delivered after every callback queued before it. *)
Lemma onReady_deferred g st :
  g_drawSentiment g = true ->
  log (onReady st) = log st /\
  drain g (onReady st) = emit [Configured (getConfigurationData tt)] (drain g st).
Proof. intros Hg. split; [done|]. unfold onReady. by rewrite drain_push; simpl; rewrite config_read_bound. Qed.

(** C24: with no global [drawSentiment], the timer of [onReady] throws a
    [ReferenceError]: the widget's ready callback is never invoked. *)
Theorem onReady_unbound g st :
  g_drawSentiment g = false ->
  drain g (onReady st) = throw_uncaught (ReferenceError "drawSentiment") (drain g st).
Proof. intros Hg. unfold onReady. rewrite drain_push. simpl. unfold config_read. by rewrite Hg. Qed.

(** ** resolveSymbol *)

Lemma resolve_symbol_info_asset g ac x name :
  g_drawSentiment g = true -> name <> sentimentName ->
  resolve_symbol_info g ac (Some x) name = Ok (assetSymbolInfo ac x (getConfigurationData tt)).
Proof. intros Hg Hn. unfold resolve_symbol_info. simpl. rewrite decide_False by done. by rewrite config_read_bound. Qed.

(** C22: resolving a real asset whose class is in the tables, with
    distinct class ids: the descriptor arrives only when the loop runs
    its timer, with price scale [10 ^ Decimals], and the type and the
    session of the class. *)
Theorem resolveSymbol_asset g ac x name ty ses st :
  NoDup (class_ids ac) -> g_drawSentiment g = true -> name <> sentimentName ->
  (AssetClassId x, ty) ∈ tvAssetTypes_entries ac ->
  (AssetClassId x, ses) ∈ assetsSessions_entries ac ->
  (0 <= Decimals x)%Z ->
  let st' := resolveSymbol_with (resolve_symbol_info g ac (Some x) name) st in
  log st' = log st /\
  exists info, drain g st' = emit [SymbolResolved info] (drain g st) /\
    si_pricescale info == inject_Z (10 ^ Decimals x) /\
    si_type info = Own ty /\ si_session info = Own ses /\ si_ticker info = AssetTicker x.
Proof.
  intros Hnd Hg Hn Hty Hses Hd st'. subst st'.
  rewrite resolve_symbol_info_asset by done. simpl. split; [done|].
  eexists. rewrite drain_push. split; [reflexivity|]. simpl. split_and!.
  - by rewrite Zpower_Qpower.
  - apply js_get_own. by apply tvAssetTypes_lookup.
  - apply js_get_own. by apply assetsSessions_lookup.
  - done.
Qed.

Lemma resolve_symbol_info_sentiment g ac x :
  g_drawSentiment g = true ->
  resolve_symbol_info g ac (Some x) sentimentName =
    Ok (sentimentSymbolInfo sentimentName (getConfigurationData tt)).
Proof. intros Hg. unfold resolve_symbol_info, config_read. by rewrite Hg. Qed.

(** A descriptor built synchronously reaches the widget when the loop
    runs the timer of [resolveSymbol], after the callbacks queued before. *)
Lemma resolveSymbol_ok g info st :
  drain g (resolveSymbol_with (Ok info) st) = emit [SymbolResolved info] (drain g st).
Proof. apply drain_push. Qed.

Lemma getWidgetOptions_symbol g x s l o :
  getWidgetOptions g (Some x) s l = Ok o -> wo_symbol o = AssetTicker x.
Proof. unfold getWidgetOptions. simpl. destruct (g_BLOB_CDN_URL g); by intros [= <-]. Qed.

(** C26: the symbols the component hands the widget resolve to
    themselves: the widget's [symbol] option (the asset's ticker) and the
    overlay's [sentimentName] each come back from [resolveSymbol] as a
    descriptor whose [ticker] is that symbol, delivered by the timer. *)
Theorem symbol_roundtrip g ac x s l o name st :
  g_drawSentiment g = true -> getWidgetOptions g (Some x) s l = Ok o ->
  name = wo_symbol o \/ name = sentimentName ->
  exists info, drain g (resolveSymbol_with (resolve_symbol_info g ac (Some x) name) st) =
    emit [SymbolResolved info] (drain g st) /\ si_ticker info = name.
Proof.
  intros Hg Ho Hn. apply getWidgetOptions_symbol in Ho.
  destruct (decide (name = sentimentName)) as [->|Hs].
  - rewrite resolve_symbol_info_sentiment by done. eexists. split; [apply resolveSymbol_ok | done].
  - rewrite resolve_symbol_info_asset by done. eexists. split; [apply resolveSymbol_ok |].
    simpl. destruct Hn; congruence.
Qed.

(** C25: with a [null] asset (the component's default prop) every
    resolution, the synthetic series included, rejects with a
    [TypeError]: the widget's callback is never invoked. *)
Theorem resolveSymbol_null_asset g ac name st :
  resolveSymbol_with (resolve_symbol_info g ac None name) st =
  reject (TypeError "asset.Decimals") st.
Proof. reflexivity. Qed.

(** With no global [drawSentiment] every resolution of a present
    asset rejects with a [ReferenceError]. *)
Theorem resolveSymbol_unbound g ac x name st :
  g_drawSentiment g = false ->
  resolveSymbol_with (resolve_symbol_info g ac (Some x) name) st =
  reject (ReferenceError "drawSentiment") st.
Proof.
  intros Hg. unfold resolve_symbol_info, config_read. rewrite Hg. simpl.
  by case_decide.
Qed.

(** ** getBars *)

(** C23: the specification's sequence of two requests: the first
    returns the known bars with [noData = false], the second no bars
    with [noData = true]. Both callbacks are invoked during the call,
    no timer is queued. *)
Theorem getBars_twice g d st :
  g_priceData g = Some d ->
  let st' := getBars g false (getBars g true st) in
  log st' = log st ++ [History d false; History [] true] /\ tasks st' = tasks st.
Proof. intros Hd st'. subst st'. unfold getBars. rewrite Hd. simpl. by rewrite <- app_assoc. Qed.

(** ** Subscriptions *)

(** Without a [yourSubscriptionMethod] global, [subscribeBars]
    throws synchronously into the widget. *)
Theorem subscribeBars_unbound g guid st :
  g_yourSubscriptionMethod g = false ->
  subscribeBars g guid st = Throw (ReferenceError "yourSubscriptionMethod").
Proof. intros Hg. unfold subscribeBars. by rewrite Hg. Qed.

(** ** The contract of a datafeed *)

(** What the widget may rely on, for a datafeed serving [data]: a
    deferred [onReady] that delivers the configuration, a first request
    answered with the data, later ones with [noData], and an
    [unsubscribeBars] that is a no-op on unknown guids. *)
Record datafeed_contract (g : globals) (d : datafeed) (cfg : configuration) (data : list bar) : Prop := {
  dc_onReady_deferred st : log (df_onReady d st) = log st;
  dc_onReady_answers st : drain g (df_onReady d st) = emit [Configured cfg] (drain g st);
  dc_getBars_first st : df_getBars d true st = emit [History data false] st;
  dc_getBars_next st : df_getBars d false st = emit [History [] true] st;
  dc_unsubscribe_unknown guid st :
    guid ∉ subscriptions st -> df_unsubscribeBars d guid st = st
}.

Lemma getBars_contract g d st :
  g_priceData g = Some d ->
  getBars g true st = emit [History d false] st /\ getBars g false st = emit [History [] true] st.
Proof. intros Hd. unfold getBars. by rewrite Hd. Qed.

(** C21: refinement: both datafeeds of the repository meet the contract
    when the globals they read are bound. *)
Theorem getDatafeed_contract g ac a d :
  g_drawSentiment g = true -> g_priceData g = Some d ->
  datafeed_contract g (getDatafeed g ac a) (getConfigurationData tt) d /\
  datafeed_contract g (getDatafeed_tvcode g ac a) (getConfigurationData tt) d.
Proof.
  intros Hg Hd. pose proof (getBars_contract g d) as Hb.
  split; split; simpl; intros; try done; try apply onReady_deferred; try apply Hb; done.
Qed.

(** ** Concrete runs *)

Definition ex_classes : asset_classes :=
  {| Coins_id := "1"; Equity_id := "2"; Commodity_id := "3"; Index_id := "4"; CurrencyPairs_id := "5" |}.

Definition ex_bar : bar :=
  {| bar_time := 1700000000; bar_open := 10; bar_high := 12; bar_low := 9; bar_close := 11 |}.

Definition ex_globals : globals :=
  {| g_assetClasses := Some ex_classes; g_BLOB_CDN_URL := Some "https://cdn.example";
     g_drawSentiment := true; g_priceData := Some [ex_bar]; g_yourSubscriptionMethod := true |}.

(** The globals as the repository leaves them: none is declared. *)
Definition ex_globals_unbound : globals :=
  {| g_assetClasses := Some ex_classes; g_BLOB_CDN_URL := None;
     g_drawSentiment := false; g_priceData := None; g_yourSubscriptionMethod := false |}.

Definition ex_asset : asset :=
  {| Decimals := 2; AssetClassId := "1"; AssetTicker := "BTC"; AssetName := "Bitcoin";
     Category := "Crypto" |}.

Lemma onReady_unbound_witness :
  drain ex_globals_unbound (onReady df_init) =
  throw_uncaught (ReferenceError "drawSentiment") (drain ex_globals_unbound df_init).
Proof. exact (onReady_unbound ex_globals_unbound df_init eq_refl). Defined.

Lemma resolveSymbol_asset_witness :
  let st' := resolveSymbol_with (resolve_symbol_info ex_globals ex_classes (Some ex_asset) "BTC") df_init in
  log st' = log df_init /\
  exists info, drain ex_globals st' = emit [SymbolResolved info] (drain ex_globals df_init) /\
    si_pricescale info == inject_Z (10 ^ Decimals ex_asset) /\
    si_type info = Own "crypto" /\ si_session info = Own "24x7" /\ si_ticker info = AssetTicker ex_asset.
Proof.
  apply resolveSymbol_asset; apply (bool_decide_unpack _); vm_compute; reflexivity.
Defined.

Lemma symbol_roundtrip_witness :
  exists info, drain ex_globals (resolveSymbol_with (resolve_symbol_info ex_globals ex_classes (Some ex_asset) "BTC") df_init) =
    emit [SymbolResolved info] (drain ex_globals df_init) /\ si_ticker info = "BTC".
Proof.
  apply (symbol_roundtrip ex_globals ex_classes ex_asset ex_settings "en-GB"
           (default (Build_widget_options "" "" "" Undefined [] [] "" "" "" false false ∅ ∅)
              (match getWidgetOptions ex_globals (Some ex_asset) ex_settings "en-GB" with
               | Ok o => Some o | Throw _ => None end))); [reflexivity | vm_refl | left; reflexivity].
Defined.

Lemma getBars_twice_witness :
  let st' := getBars ex_globals false (getBars ex_globals true df_init) in
  log st' = log df_init ++ [History [ex_bar] false; History [] true] /\ tasks st' = tasks df_init.
Proof. exact (getBars_twice ex_globals [ex_bar] df_init eq_refl). Defined.

Lemma getDatafeed_contract_witness :
  datafeed_contract ex_globals (getDatafeed ex_globals ex_classes (Some ex_asset)) (getConfigurationData tt) [ex_bar] /\
  datafeed_contract ex_globals (getDatafeed_tvcode ex_globals ex_classes (Some ex_asset)) (getConfigurationData tt) [ex_bar].
Proof. exact (getDatafeed_contract ex_globals ex_classes (Some ex_asset) [ex_bar] eq_refl eq_refl). Defined.

End Datafeed.
