(* ===== verification/Sentiment.v ===== *)
(** * Sentiment: the overlay handle and the event handlers

    The stateful part of [src/Sentiment/Sentiment.js]: the module-level
    [let sentimentId = null] (line 72), [setBaselineLevel] (lines
    201-222), the [onChartReady] callback that creates the overlay and
    subscribes to ['study'] (lines 229-252), and the six handlers the
    effect of lines 260-292 subscribes.

    [sentimentId] takes four kinds of values: [null], [undefined] (after
    a ['remove'] event), a study identifier (the awaited result of
    [createStudy], line 236), or the promise [createStudy] returns when
    it is not awaited (line 241). A promise is truthy and never strictly
    equal to an identifier.

    Each handler closure captures the React state [chart] of the render
    that subscribed it; the model passes that value ([captured]) to the
    handler. Every asynchronous function whose promise nobody awaits
    records its exception as a rejection. [setBaselineLevel] is modelled
    as one step: its [await]s read the host state and write nothing
    before the final [applyOverrides] ([Async.async_refines] shows the
    split execution refines it). The ['study'] handler runs its
    executor synchronously and its [then] callback as the next
    microtask; no other code runs in between, since no other handler
    listens to that event.

    [createStudy('Overlay', ..., {symbol: sentimentName})] is modelled
    as [createStudy sentimentName]: the widget is assumed to report the
    overlay under the name of its symbol, which is what the comparisons
    [study.value === sentimentName] (line 240) and [name ===
    sentimentName] (line 246) rely on (see the
    root file).

    The handlers are written against the host interface
    [Host.ChartLaws]: the section's theorems hold for every host that
    meets it, and the concrete [Host.chart] instantiates them for the
    witnesses. *)

From S2P Require Import Prelude Config Baseline Host.

Module Sentiment.
Import Config Baseline Host.

(** ** The overlay handle *)

Inductive sid :=
  | SNull
  | SUndefined
  | SId (id : study_id)
  | SPromise (id : study_id).

(** [!sentimentId] is [negb (truthy sentimentId)]. *)
Definition truthy (x : sid) : bool :=
  match x with SNull | SUndefined => false | SId _ | SPromise _ => true end.

(** [id === sentimentId] for an identifier [id]. *)
Definition sid_is (x : sid) (id : study_id) : bool :=
  match x with SId i => bool_decide (i = id) | _ => false end.

(** The events the widget fires, with their payloads. *)
Inductive event :=
  | MouseDown
  | MouseUp
  | StudyPropertiesChanged (id : study_id)
  | UndoRedoStateChanged
  | ResetScales
  | StudyEvent (id : study_id) (eventType : string)
  | StudyAdded (value : string).

Section Handlers.
Context {C : Type} `{ChartLaws C}.

(** The state the handlers share: the module-level handle, the widget's
    chart, the rejections of handlers' promises, and the subscriptions:
    one entry per run of the effect of lines 260-292, holding whether
    the [chart] it captured was set, and whether the ['study'] handler
    is subscribed. *)
Record sstate := {
  sentimentId : sid;
  chart : C;
  rejections : list js_error;
  effect_subs : list bool;
  study_sub : bool
}.

Definition set_sentimentId (x : sid) (st : sstate) : sstate :=
  {| sentimentId := x; chart := chart st; rejections := rejections st;
     effect_subs := effect_subs st; study_sub := study_sub st |}.

Definition set_chart (c : C) (st : sstate) : sstate :=
  {| sentimentId := sentimentId st; chart := c; rejections := rejections st;
     effect_subs := effect_subs st; study_sub := study_sub st |}.

Definition reject_with (e : js_error) (st : sstate) : sstate :=
  {| sentimentId := sentimentId st; chart := chart st; rejections := rejections st ++ [e];
     effect_subs := effect_subs st; study_sub := study_sub st |}.

(** The override [setBaselineLevel] pushes. *)
Definition baseline_override (from to : Q) : gmap string ovalue :=
  {[ "baselineStyle.baseLevelPercentage" := ONum (baseLevelPercentage from to) ]}.

(** [chart.getStudyById(sentimentId)]: the host throws when no study
    has that identifier; a promise is never an identifier. *)
Definition getStudyById (x : sid) (c : C) : result study_id :=
  match x with
  | SId id => if study_overrides id c is Some _ then Ok id
              else Throw (HostError "getStudyById: no such study")
  | _ => Throw (HostError "getStudyById: no such study")
  end.

(** [setBaselineLevel]: the guard [!chart || !sentimentId], then the
    study, the visible range of the first left price scale, and the
    override with the computed percentage. *)
Definition setBaselineLevel (captured : bool) (st : sstate) : sstate :=
  if negb captured || negb (truthy (sentimentId st)) then st
  else
    match (id ← getStudyById (sentimentId st) (chart st);
           r ← visiblePriceRange (chart st); mret (id, r)) with
    | Throw e => reject_with e st
    | Ok (id, (from, to)) =>
        set_chart (study_applyOverrides id (baseline_override from to) (chart st)) st
    end.

(** One subscription of the effect of lines 260-292, given the event. *)
Definition handle_effect_event (captured : bool) (ev : event) (st : sstate) : sstate :=
  match ev with
  | MouseDown | MouseUp | UndoRedoStateChanged | ResetScales => setBaselineLevel captured st
  | StudyPropertiesChanged id =>
      if sid_is (sentimentId st) id then setBaselineLevel captured st else st
  | StudyEvent id eventType =>
      if sid_is (sentimentId st) id && bool_decide (eventType = "remove")
      then set_sentimentId SUndefined st
      else setBaselineLevel captured st
  | StudyAdded _ => st
  end.

(** The executor of the ['study'] handler (lines 239-243): create the
    overlay when the handle is falsy and the added study is the
    sentiment; the promise of [createStudy] is stored, not awaited. *)
Definition study_sync (value : string) (st : sstate) : sstate :=
  if negb (truthy (sentimentId st)) && bool_decide (value = sentimentName) then
    let (id, c) := createStudy sentimentName (chart st) in
    set_sentimentId (SPromise id) (set_chart c st)
  else st.

(** The [then] callback (lines 244-250): remove every study named
    [sentimentName] that [getAllStudies()] lists. *)
Definition study_cleanup (st : sstate) : sstate :=
  set_chart (foldl (fun c id => removeEntity id c) (chart st) (studies_named sentimentName (chart st))) st.

Definition handle_study (value : string) (st : sstate) : sstate :=
  study_cleanup (study_sync value st).

(** The widget calls the subscribers of an event in subscription order. *)
Definition dispatch (ev : event) (st : sstate) : sstate :=
  match ev with
  | StudyAdded value => if study_sub st then handle_study value st else st
  | _ => foldl (fun s captured => handle_effect_event captured ev s) st (effect_subs st)
  end.

(** The [onChartReady] callback (lines 229-252) in its two halves: the
    synchronous part calls [createStudy] (line 236); after the [await]
    the identifier becomes the handle and the ['study'] handler is
    subscribed (line 238). *)
Definition ready_createStudy (st : sstate) : study_id * sstate :=
  let (id, c) := createStudy sentimentName (chart st) in (id, set_chart c st).

Definition ready_resolved (id : study_id) (st : sstate) : sstate :=
  {| sentimentId := SId id; chart := chart st; rejections := rejections st;
     effect_subs := effect_subs st; study_sub := true |}.

(** The whole callback when nothing runs between its halves. *)
Definition onChartReady (st : sstate) : sstate :=
  let (id, st') := ready_createStudy st in ready_resolved id st'.

(** ** The transitions of the component *)

(** The effect of lines 260-292 runs again and subscribes the six
    handlers once more, capturing the current [chart]. *)
Definition add_effect_sub (captured : bool) (st : sstate) : sstate :=
  {| sentimentId := sentimentId st; chart := chart st; rejections := rejections st;
     effect_subs := effect_subs st ++ [captured]; study_sub := study_sub st |}.

(** The widget fires an event, React re-runs the subscribing effect, or
    the chart becomes ready (once: the ['study'] handler is not yet
    subscribed). *)
Inductive step : sstate -> sstate -> Prop :=
  | step_dispatch ev st : step st (dispatch ev st)
  | step_subscribe captured st : step st (add_effect_sub captured st)
  | step_ready st : study_sub st = false -> step st (onChartReady st).

(** The handle names no study of the chart: a removed overlay, a
    promise, or a falsy value. *)
Definition no_live_handle (x : sid) (c : C) : Prop :=
  forall id, x = SId id -> study_overrides id c = None.

Definition hinv (h : sstate) : Prop := no_live_handle (sentimentId h) (chart h) /\ chart_wf (chart h).

(** ** Lemmas on the handlers *)

Lemma setBaselineLevel_guard captured st :
  captured = false \/ truthy (sentimentId st) = false -> setBaselineLevel captured st = st.
Proof. unfold setBaselineLevel. intros [-> | ->]; simpl; [done | by rewrite orb_true_r]. Qed.

(** What [setBaselineLevel] does once past its guard. *)
Lemma setBaselineLevel_cases captured st :
  setBaselineLevel captured st = st \/
  (exists e, setBaselineLevel captured st = reject_with e st) \/
  (exists id ov, setBaselineLevel captured st =
     set_chart (study_applyOverrides id ov (chart st)) st /\ getStudyById (sentimentId st) (chart st) = Ok id).
Proof.
  unfold setBaselineLevel. destruct (_ || _)%bool; [by left|].
  destruct (getStudyById _ _) as [id|e] eqn:E; simpl; [|eauto].
  destruct (visiblePriceRange _) as [[f t]|e]; simpl; eauto 6.
Qed.

Lemma getStudyById_Ok x c id : getStudyById x c = Ok id -> x = SId id /\ is_Some (study_overrides id c).
Proof. destruct x; simpl; try discriminate. destruct (study_overrides _ _) eqn:E; intros [= <-]; eauto. Qed.

(** The handlers other than the ['remove'] branch keep the handle and
    the subscriptions. *)
Lemma setBaselineLevel_frame captured st :
  let st' := setBaselineLevel captured st in
  sentimentId st' = sentimentId st /\ effect_subs st' = effect_subs st /\ study_sub st' = study_sub st.
Proof.
  destruct (setBaselineLevel_cases captured st) as [-> | [[e ->] | (id & ov & -> & _)]]; done.
Qed.

Lemma setBaselineLevel_wf captured st :
  chart_wf (chart st) -> chart_wf (chart (setBaselineLevel captured st)).
Proof.
  destruct (setBaselineLevel_cases captured st) as [-> | [[e ->] | (id & ov & -> & _)]]; auto.
  apply wf_applyOverrides.
Qed.

Lemma handle_effect_event_subs captured ev st :
  effect_subs (handle_effect_event captured ev st) = effect_subs st /\
  study_sub (handle_effect_event captured ev st) = study_sub st.
Proof.
  pose proof (setBaselineLevel_frame captured st) as (_ & ? & ?).
  destruct ev; simpl; try case_match; auto.
Qed.

Lemma handle_effect_event_wf captured ev st :
  chart_wf (chart st) -> chart_wf (chart (handle_effect_event captured ev st)).
Proof. intros. destruct ev; simpl; try case_match; auto using setBaselineLevel_wf. Qed.

(** A falsy handle makes every subscribed handler a no-op. *)
Lemma handle_effect_event_falsy captured ev st :
  truthy (sentimentId st) = false -> handle_effect_event captured ev st = st.
Proof.
  intros Hf. assert (Hs : setBaselineLevel captured st = st) by (apply setBaselineLevel_guard; auto).
  destruct ev; simpl; rewrite ?Hs; try done.
  - by destruct (sentimentId st).
  - by destruct (sentimentId st).
Qed.

Lemma foldl_handlers_id (f : bool -> sstate -> sstate) (bs : list bool) st :
  (forall b, f b st = st) -> foldl (fun s b => f b s) st bs = st.
Proof. intros Hf. induction bs as [|b bs IH]; simpl; [done|]. by rewrite Hf. Qed.

Lemma foldl_remove_studies (ids : list study_id) (c : C) :
  getAllStudies (foldl (fun c id => removeEntity id c) c ids) =
  filter (fun p => p.1 ∉ ids) (getAllStudies c).
Proof.
  revert c. induction ids as [|i ids IH]; intros c; simpl.
  - symmetry. apply filter_all. set_solver.
  - rewrite IH, removeEntity_studies, list_filter_filter.
    apply list_filter_iff. intros p. rewrite not_elem_of_cons. tauto.
Qed.

Lemma foldl_remove_wf (ids : list study_id) (c : C) :
  chart_wf c -> chart_wf (foldl (fun c id => removeEntity id c) c ids).
Proof. revert c. induction ids; simpl; auto using wf_removeEntity. Qed.

(** ** Properties of the handlers *)

(** Past its guard, on a tracked study that exists and a readable
    range, [setBaselineLevel] is one [applyOverrides]. *)
Lemma setBaselineLevel_tracked st id o f t :
  sentimentId st = SId id -> study_overrides id (chart st) = Some o ->
  visiblePriceRange (chart st) = Ok (f, t) ->
  setBaselineLevel true st = set_chart (study_applyOverrides id (baseline_override f t) (chart st)) st.
Proof. intros Hid Ho Hr. unfold setBaselineLevel. rewrite Hid. simpl. rewrite Ho. simpl. by rewrite Hr. Qed.

(** C4: [setBaselineLevel] past its guard, on a tracked study that
    exists and a readable price range, sets the study's baseline to the
    computed percentage and changes nothing else the code observes. *)
Theorem setBaselineLevel_applies st id o f t :
  chart_wf (chart st) -> sentimentId st = SId id -> study_overrides id (chart st) = Some o ->
  visiblePriceRange (chart st) = Ok (f, t) ->
  let st' := setBaselineLevel true st in
  study_overrides id (chart st') = Some (baseline_override f t ∪ o) /\
  getAllStudies (chart st') = getAllStudies (chart st) /\
  rejections st' = rejections st /\ sentimentId st' = sentimentId st.
Proof.
  intros Hwf Hid Ho Hr st'. subst st'. rewrite (setBaselineLevel_tracked st id o f t) by done. simpl.
  split_and!; auto using study_applyOverrides_lookup, study_applyOverrides_studies.
Qed.

(** C8: a ['remove'] event for the tracked overlay clears the handle
    and touches nothing else: the first subscription clears it, and
    every later one finds a falsy handle. *)
Theorem remove_event_clears st id :
  effect_subs st <> [] -> sentimentId st = SId id ->
  let st' := dispatch (StudyEvent id "remove") st in
  sentimentId st' = SUndefined /\ chart st' = chart st /\ rejections st' = rejections st.
Proof.
  intros Hsubs Hid st'. subst st'. unfold dispatch.
  destruct (effect_subs st) as [|b bs]; [done|]. cbn [foldl].
  assert (E : handle_effect_event b (StudyEvent id "remove") st = set_sentimentId SUndefined st).
  { simpl. rewrite Hid. simpl. by rewrite !bool_decide_true. }
  rewrite E, foldl_handlers_id; [done|]. intros b'. by apply handle_effect_event_falsy.
Qed.

(** C9: while the handle is falsy ([null], or [undefined] after a
    removal), every event but ['study'] leaves the whole state as it
    is: no recomputation happens until an overlay is tracked again. *)
Theorem falsy_handle_inert st ev :
  truthy (sentimentId st) = false -> (forall v, ev <> StudyAdded v) -> dispatch ev st = st.
Proof.
  intros Hf Hev. destruct ev; try (exfalso; by eapply Hev);
    apply foldl_handlers_id; intros b; by apply handle_effect_event_falsy.
Qed.

Lemma studies_named_cleanup (c : C) :
  studies_named sentimentName (foldl (fun c id => removeEntity id c) c (studies_named sentimentName c)) = [].
Proof.
  unfold studies_named at 1. rewrite foldl_remove_studies, list_filter_filter.
  apply elem_of_nil_inv. intros i Hi.
  apply list_elem_of_fmap in Hi as ([i' n] & -> & Hp).
  apply list_elem_of_filter in Hp as [[Hn Hnot] Hin]. simpl in *. apply Hnot.
  apply list_elem_of_fmap. exists (i', n). split; [done|]. by apply list_elem_of_filter.
Qed.

(** C5: the ['study'] handler's clean-up removes every overlay named
    [sentimentName], not only the extra ones: after it no sentiment
    overlay is left on the chart, whatever study was added. *)
Theorem study_handler_removes_all st value :
  studies_named sentimentName (chart (handle_study value st)) = [].
Proof. unfold handle_study, study_cleanup. simpl. apply studies_named_cleanup. Qed.

Lemma study_sync_truthy value st :
  truthy (sentimentId st) = true -> study_sync value st = st.
Proof. intros Ht. unfold study_sync. by rewrite Ht. Qed.

(** Without a live handle, [setBaselineLevel] returns at its guard or
    rejects in [getStudyById]: it never writes. *)
Lemma sbl_dead b h : hinv h -> setBaselineLevel b h = h \/ exists e, setBaselineLevel b h = reject_with e h.
Proof.
  intros [Hn _]. destruct (setBaselineLevel_cases b h) as [E | [[e E] | (id & ov & _ & Hg)]]; eauto.
  exfalso. apply getStudyById_Ok in Hg as [Hid [o Ho]]. by rewrite (Hn id Hid) in Ho.
Qed.

Lemma hinv_sbl b h : hinv h -> hinv (setBaselineLevel b h).
Proof. intros Hh. by destruct (sbl_dead b h Hh) as [-> | [e ->]]. Qed.

Lemma remove_none (ids : list study_id) (c : C) id :
  chart_wf c -> study_overrides id c = None ->
  study_overrides id (foldl (fun c i => removeEntity i c) c ids) = None.
Proof.
  intros Hwf Hn. apply eq_None_not_Some.
  rewrite study_overrides_Some by (by apply foldl_remove_wf).
  unfold study_ids. rewrite foldl_remove_studies. intros Hin.
  apply list_elem_of_fmap in Hin as [p [-> Hp]]. apply list_elem_of_filter in Hp as [_ Hp].
  assert (Hs : is_Some (study_overrides p.1 c)).
  { apply study_overrides_Some; [done|]. apply list_elem_of_fmap. by exists p. }
  rewrite Hn in Hs. by destruct Hs.
Qed.

Lemma hinv_study v h : hinv h -> hinv (handle_study v h).
Proof.
  intros [Hn Hwf]. unfold handle_study, study_cleanup, study_sync.
  destruct (negb _ && _)%bool.
  - destruct (createStudy _ _) as [id c] eqn:E. pose proof (wf_createStudy sentimentName (chart h) Hwf) as Hc.
    rewrite E in Hc. split; simpl; [by intros ? [=] | by apply foldl_remove_wf].
  - split; simpl; [intros id Hid; apply remove_none; auto | by apply foldl_remove_wf].
Qed.

Lemma hinv_hee b ev h : hinv h -> hinv (handle_effect_event b ev h).
Proof.
  intros Hh. destruct ev; cbn [handle_effect_event]; try apply hinv_sbl; try done;
    repeat case_match; try apply hinv_sbl; try done.
  split; [by intros ? [=] | apply Hh].
Qed.

Lemma hinv_dispatch ev h : hinv h -> hinv (dispatch ev h).
Proof.
  intros Hh. destruct ev; unfold dispatch; try (destruct (study_sub h); [by apply hinv_study | done]);
    apply foldl_inv; auto using hinv_hee.
Qed.

Lemma dispatch_study_sub ev h : study_sub (dispatch ev h) = study_sub h.
Proof.
  destruct ev; unfold dispatch;
    try (apply (foldl_inv (fun s => study_sub s = study_sub h)); [done|];
         intros y b Hy; rewrite <- Hy; apply handle_effect_event_subs).
  destruct (study_sub h) eqn:E; [|done]. unfold handle_study, study_cleanup, study_sync. simpl.
  case_match; [destruct (createStudy _ _)|]; done.
Qed.

(** Once the ['study'] handler is subscribed, no step gives the handle a
    live study: only the ready callback stores an identifier, and it has
    run. *)
Lemma hinv_reachable s s' :
  rtc step s s' -> hinv s /\ study_sub s = true -> hinv s' /\ study_sub s' = true.
Proof.
  induction 1 as [s | s1 s2 s3 Hstep _ IH]; [done|]. intros [Hh Hs]. apply IH.
  inversion Hstep; subst.
  - split; [by apply hinv_dispatch | by rewrite dispatch_study_sub].
  - done.
  - congruence.
Qed.

(** C6: when the handle tracks an existing sentiment overlay, any
    ['study'] event removes that overlay but keeps the handle, and no
    later recomputation ever writes a baseline: whatever the component
    does afterwards, the handle names no study of the chart, so every
    [setBaselineLevel] leaves the chart as it is, and while the handle
    still names the removed overlay the call rejects in [getStudyById].
    Only a later ['remove'] event changes the handle, to [undefined]. *)
Theorem study_event_orphans_handle st value id st' :
  chart_wf (chart st) -> study_sub st = true -> sentimentId st = SId id ->
  id ∈ studies_named sentimentName (chart st) ->
  rtc step (handle_study value st) st' ->
  (forall b, chart (setBaselineLevel b st') = chart st') /\
  (sentimentId st' = SId id ->
   setBaselineLevel true st' = reject_with (HostError "getStudyById: no such study") st').
Proof.
  intros Hwf Hsub Hid Hin Hr.
  assert (Hst0 : hinv (handle_study value st) /\ study_sub (handle_study value st) = true).
  { unfold handle_study. rewrite study_sync_truthy by (by rewrite Hid).
    split; [split|]; [| unfold study_cleanup; simpl; by apply foldl_remove_wf | done].
    intros i Hi. unfold study_cleanup in *. simpl in *. rewrite Hid in Hi. injection Hi as <-.
    apply eq_None_not_Some. rewrite study_overrides_Some by (by apply foldl_remove_wf).
    unfold study_ids. rewrite foldl_remove_studies. intros Hi.
    apply list_elem_of_fmap in Hi as (p & -> & Hp). by apply list_elem_of_filter in Hp as [Hp _]. }
  destruct (hinv_reachable _ _ Hr Hst0) as [[Hn Hwf'] _]. split.
  - intros b. by destruct (sbl_dead b st' (conj Hn Hwf')) as [-> | [e ->]].
  - intros Hid'. unfold setBaselineLevel. rewrite Hid'. simpl. by rewrite (Hn id Hid').
Qed.

(** ** Invariants of the transition system *)

Lemma foldl_handlers_inv (P : sstate -> Prop) (f : bool -> sstate -> sstate) (bs : list bool) st :
  P st -> (forall b s, P s -> P (f b s)) -> P (foldl (fun s b => f b s) st bs).
Proof. revert st. induction bs; simpl; auto. Qed.

Lemma handle_effect_event_promise captured ev st p :
  sentimentId st = SPromise p -> study_sub st = true ->
  sentimentId (handle_effect_event captured ev st) = SPromise p /\
  study_sub (handle_effect_event captured ev st) = true.
Proof.
  intros Hp Hs. pose proof (setBaselineLevel_frame captured st) as (E1 & _ & E2).
  destruct ev; simpl; rewrite ?Hp; simpl; rewrite ?E1, ?E2; auto.
Qed.

Lemma dispatch_promise ev st p :
  sentimentId st = SPromise p -> study_sub st = true ->
  sentimentId (dispatch ev st) = SPromise p /\ study_sub (dispatch ev st) = true.
Proof.
  intros Hp Hs. destruct ev;
    try (apply (foldl_handlers_inv (fun s => sentimentId s = SPromise p /\ study_sub s = true));
         [done | intros b s' [? ?]; by apply handle_effect_event_promise]).
  simpl. rewrite Hs. unfold handle_study. rewrite study_sync_truthy by (by rewrite Hp). done.
Qed.

Lemma step_promise s1 s2 p :
  step s1 s2 -> sentimentId s1 = SPromise p -> study_sub s1 = true ->
  sentimentId s2 = SPromise p /\ study_sub s2 = true.
Proof. intros Hstep Hp Hs. inversion Hstep; subst; [by apply dispatch_promise | done | congruence]. Qed.

(** C7: once the ['study'] handler has stored the promise of
    [createStudy] in the handle, the handle keeps it forever: no event,
    re-subscription or chart-ready callback changes it. Since a promise
    is never [===] to a study id, neither a ['remove'] event nor a
    property change of any study is recognised any more. *)
Theorem promise_handle_sticks st st' p :
  rtc step st st' -> sentimentId st = SPromise p -> study_sub st = true ->
  sentimentId st' = SPromise p.
Proof.
  intros Hsteps. induction Hsteps as [s | s1 s2 s3 Hstep _ IH]; [done|]. intros Hp Hs.
  destruct (step_promise s1 s2 p Hstep Hp Hs). by apply IH.
Qed.

Lemma dispatch_wf ev st : chart_wf (chart st) -> chart_wf (chart (dispatch ev st)).
Proof.
  intros Hwf. destruct ev;
    try (apply (foldl_handlers_inv (fun s => chart_wf (chart s))); [done | intros; by apply handle_effect_event_wf]).
  simpl. destruct (study_sub st); [|done]. unfold handle_study, study_cleanup. simpl.
  apply foldl_remove_wf. unfold study_sync. case_match; [|done].
  destruct (createStudy _ _) as [id c] eqn:E. simpl.
  replace c with (createStudy sentimentName (chart st)).2 by (by rewrite E). by apply wf_createStudy.
Qed.

Lemma onChartReady_wf st : chart_wf (chart st) -> chart_wf (chart (onChartReady st)).
Proof.
  intros Hwf. unfold onChartReady, ready_createStudy. destruct (createStudy _ _) as [id c] eqn:E. simpl.
  replace c with (createStudy sentimentName (chart st)).2 by (by rewrite E). by apply wf_createStudy.
Qed.

(** The ready callback tracks a fresh overlay named
    [sentimentName], added after the studies already there, and
    subscribes the ['study'] handler. *)
Lemma onChartReady_spec st :
  chart_wf (chart st) ->
  let st' := onChartReady st in
  exists id, sentimentId st' = SId id /\ (id ∉ study_ids (chart st)) /\
    studies_named sentimentName (chart st') = studies_named sentimentName (chart st) ++ [id] /\
    study_sub st' = true.
Proof.
  intros Hwf st'. subst st'. unfold onChartReady, ready_createStudy.
  pose proof (createStudy_studies sentimentName (chart st) Hwf) as Hs.
  pose proof (createStudy_fresh sentimentName (chart st) Hwf) as Hf.
  destruct (createStudy _ _) as [id c]. simpl in *. exists id. split_and!; try done.
  unfold studies_named. rewrite Hs, filter_app, filter_cons_True by done. by rewrite fmap_app.
Qed.

End Handlers.

(** ** Concrete runs on the list model of the host *)

Definition ex_chart : Host.chart :=
  {| studies := [{| st_id := 0%nat; st_name := sentimentName; st_overrides := ∅ |}];
     next_id := 1%nat; panes := [[Some (-30, 10)]]; chart_type := 1%Z; main_overrides := ∅ |}.

Definition ex_state (x : sid) : @sstate Host.chart :=
  {| sentimentId := x; chart := ex_chart; rejections := [];
     effect_subs := [false; true]; study_sub := true |}.

Lemma ex_chart_wf : chart_wf ex_chart.
Proof. split; simpl; [apply NoDup_singleton | apply Forall_singleton; simpl; lia]. Qed.

Lemma setBaselineLevel_applies_witness :
  let st' := setBaselineLevel true (ex_state (SId 0%nat)) in
  study_overrides 0%nat (chart st') = Some (baseline_override (-30) 10 ∪ ∅) /\
  getAllStudies (chart st') = getAllStudies (chart (ex_state (SId 0%nat))) /\
  rejections st' = rejections (ex_state (SId 0%nat)) /\ sentimentId st' = sentimentId (ex_state (SId 0%nat)).
Proof. exact (setBaselineLevel_applies (ex_state (SId 0%nat)) 0%nat ∅ (-30) 10 ex_chart_wf eq_refl eq_refl eq_refl). Defined.

Lemma remove_event_clears_witness :
  let st' := dispatch (StudyEvent 0%nat "remove") (ex_state (SId 0%nat)) in
  sentimentId st' = SUndefined /\ chart st' = ex_chart /\ rejections st' = [].
Proof. exact (remove_event_clears (ex_state (SId 0%nat)) 0%nat ltac:(discriminate) eq_refl). Defined.

Lemma falsy_handle_inert_witness :
  dispatch MouseDown (ex_state SUndefined) = ex_state SUndefined.
Proof. apply falsy_handle_inert; [reflexivity | discriminate]. Defined.

Lemma study_handler_removes_all_witness :
  studies_named sentimentName (chart (handle_study sentimentName (ex_state SNull))) = [].
Proof. exact (study_handler_removes_all (ex_state SNull) sentimentName). Defined.

Lemma study_event_orphans_handle_witness :
  let st' := dispatch MouseDown (handle_study "Volume" (ex_state (SId 0%nat))) in
  (forall b, chart (setBaselineLevel b st') = chart st') /\
  (sentimentId st' = SId 0%nat ->
   setBaselineLevel true st' = reject_with (HostError "getStudyById: no such study") st').
Proof.
  apply (study_event_orphans_handle (ex_state (SId 0%nat)) "Volume" 0%nat _ ex_chart_wf eq_refl eq_refl).
  - vm_compute. set_solver.
  - apply rtc_once. apply step_dispatch.
Defined.

Lemma promise_handle_sticks_witness :
  sentimentId (dispatch (StudyEvent 0%nat "remove") (ex_state (SPromise 0%nat))) = SPromise 0%nat.
Proof.
  apply (promise_handle_sticks (ex_state (SPromise 0%nat)) _ 0%nat); [| reflexivity | reflexivity].
  apply rtc_once. apply step_dispatch.
Defined.

End Sentiment.
