(* ===== verification/Async.v ===== *)
(** * Async: the awaits of [setBaselineLevel] on the microtask queue

    [setBaselineLevel] (Sentiment.js lines 201-222) is an [async]
    function. Its guard and the call [chart.getStudyById(sentimentId)]
    run synchronously, in the handler that called it; each of its three
    [await]s then suspends it, and its continuation runs later as a
    microtask:
    - after the first, [chart.getPanes()[0].getLeftPriceScales()[0]] is
      evaluated and awaited;
    - after the second, [priceScale?.getVisiblePriceRange()] is read and
      awaited;
    - after the third, the percentage is computed and
      [sentimentOverlay.applyOverrides] writes it.
    [Sentiment.setBaselineLevel] runs all of this as one step. This file
    splits it into a job [bjob] per suspension point, queued on a FIFO
    microtask queue beside the handler state, and the handlers of lines
    260-292 call the synchronous part only ([sbl_call]).

    The event loop runs the microtasks before it delivers the next widget
    event ([astep]): an event needs an empty queue. The host is opaque on
    one point the code depends on: whether [applyOverrides] on a study
    makes the widget report [study_properties_changed] for it, within the
    call. The section takes it as a parameter [echo].

    Theorems: without the echo, every event settles within three
    microtasks to what the atomic model computes, and every run of the
    split model is, job by job, a run of [Sentiment.step]
    ([async_refines]); a pointer event on a tracked overlay runs the
    three continuations in order and the last applies the baseline of
    the range read by the second ([pointer_event_applies_baseline]);
    with the echo, one pointer event on a tracked
    overlay feeds itself: the queue never empties again, so no later
    widget event is ever delivered ([echo_starves]). *)

From S2P Require Import Prelude Config Baseline Host Sentiment.

Module Async.
Import Config Baseline Host Sentiment.
Local Open Scope nat_scope.

(** The suspension points of [setBaselineLevel], with what the
    continuation holds: the study found, and after the second [await]
    the visible range read. *)
Inductive bjob :=
  | BStudy (id : study_id)
  | BScale (id : study_id)
  | BRange (id : study_id) (r : result (Q * Q)).

(** What is left to run of a job, in microtasks. *)
Definition work (j : bjob) : nat :=
  match j with BStudy _ => 3 | BScale _ => 2 | BRange _ _ => 1 end.

Section Microtasks.
Context {C : Type} `{ChartLaws C}.

(** Whether the host reports an override of a study as
    [study_properties_changed] for that study, synchronously. *)
Variable echo : bool.

Record astate := {
  a_st : @sstate C;
  a_queue : list bjob
}.

Definition a_map (f : sstate -> sstate) (s : astate) : astate :=
  {| a_st := f (a_st s); a_queue := a_queue s |}.

Definition a_enqueue (j : bjob) (s : astate) : astate :=
  {| a_st := a_st s; a_queue := a_queue s ++ [j] |}.

(** The synchronous part of a call of [setBaselineLevel]: the guard,
    then [getStudyById]; a throw there rejects the call's promise. *)
Definition sbl_call (captured : bool) (s : astate) : astate :=
  let st := a_st s in
  if negb captured || negb (truthy (sentimentId st)) then s
  else
    match getStudyById (sentimentId st) (chart st) with
    | Throw e => a_map (reject_with e) s
    | Ok id => a_enqueue (BStudy id) s
    end.

(** The handlers of lines 260-292, calling the synchronous part. *)
Definition handle_effect_event_async (captured : bool) (ev : event) (s : astate) : astate :=
  match ev with
  | MouseDown | MouseUp | UndoRedoStateChanged | ResetScales => sbl_call captured s
  | StudyPropertiesChanged id =>
      if sid_is (sentimentId (a_st s)) id then sbl_call captured s else s
  | StudyEvent id eventType =>
      if sid_is (sentimentId (a_st s)) id && bool_decide (eventType = "remove")
      then a_map (set_sentimentId SUndefined) s
      else sbl_call captured s
  | StudyAdded _ => s
  end.

Definition dispatch_async (ev : event) (s : astate) : astate :=
  match ev with
  | StudyAdded value => if study_sub (a_st s) then a_map (handle_study value) s else s
  | _ => foldl (fun s captured => handle_effect_event_async captured ev s) s (effect_subs (a_st s))
  end.

(** One microtask: the continuation of the job at the head of the
    queue, which may queue the next one. *)
Definition run_job (j : bjob) (s : astate) : astate :=
  match j with
  | BStudy id => a_enqueue (BScale id) s
  | BScale id => a_enqueue (BRange id (visiblePriceRange (chart (a_st s)))) s
  | BRange id (Throw e) => a_map (reject_with e) s
  | BRange id (Ok (from, to)) =>
      let s' := a_map (fun st => set_chart (study_applyOverrides id (baseline_override from to) (chart st)) st) s in
      if echo then dispatch_async (StudyPropertiesChanged id) s' else s'
  end.

Definition micro (s : astate) : astate :=
  match a_queue s with
  | [] => s
  | j :: q => run_job j {| a_st := a_st s; a_queue := q |}
  end.

(** The event loop: the microtasks first, a widget event only on an
    empty queue. *)
Inductive astep : astate -> astate -> Prop :=
  | as_micro s : a_queue s <> [] -> astep s (micro s)
  | as_event ev s : a_queue s = [] -> astep s (dispatch_async ev s).

(** Run at most [n] microtasks. *)
Fixpoint settle (n : nat) (s : astate) : astate :=
  match n, a_queue s with
  | O, _ | _, [] => s
  | S n, _ :: _ => settle n (micro s)
  end.

Definition a_init (st : sstate) : astate := {| a_st := st; a_queue := [] |}.

(** The state a split run stands for: its pending job run to the end. *)
Definition complete (s : astate) : sstate := a_st (settle 3 s).

Definition workq (q : list bjob) : nat := sum_list_with work q.

(** The subscription lists the component produces ([React.effect_subs_shape]). *)
Definition subs_shape (l : list bool) : Prop :=
  l = [] \/ l = [false] \/ l = [true] \/ l = [false; true].

(** ** Lemmas *)

Lemma settle_empty n s : a_queue s = [] -> settle n s = s.
Proof. destruct s as [st q]; simpl; intros ->; by destruct n. Qed.

Lemma settle_steps n s : rtc astep s (settle n s).
Proof.
  revert s. induction n as [|n IH]; intros [st [|j q]]; [done..|].
  eapply rtc_l; [by apply as_micro | apply IH].
Qed.

(** With a captured [chart = null] a handler does at once what the
    atomic one does. *)
Lemma hee_false ev s :
  handle_effect_event_async false ev s = a_map (handle_effect_event false ev) s.
Proof.
  destruct s as [st q]. unfold a_map. destruct ev; simpl; rewrite ?setBaselineLevel_guard by auto; try done;
    repeat case_match; try done.
Qed.

Lemma sbl_call_false s : sbl_call false s = s.
Proof. reflexivity. Qed.

(** What a handler's call adds to the queue: nothing, or one job. *)
Lemma sbl_call_queue b s :
  effect_subs (a_st (sbl_call b s)) = effect_subs (a_st s) /\
  (a_queue (sbl_call b s) = a_queue s \/ exists id, a_queue (sbl_call b s) = a_queue s ++ [BStudy id]).
Proof.
  unfold sbl_call. destruct (_ || _)%bool; [auto|].
  destruct (getStudyById _ _); simpl; eauto.
Qed.

Lemma hee_queue b ev s :
  effect_subs (a_st (handle_effect_event_async b ev s)) = effect_subs (a_st s) /\
  (a_queue (handle_effect_event_async b ev s) = a_queue s \/
   exists id, a_queue (handle_effect_event_async b ev s) = a_queue s ++ [BStudy id]).
Proof.
  destruct ev; cbn [handle_effect_event_async]; try destruct (sid_is _ _);
    try destruct (bool_decide _); simpl; auto using sbl_call_queue.
Qed.

Lemma dispatch_async_subs ev s : effect_subs (a_st (dispatch_async ev s)) = effect_subs (a_st s).
Proof.
  destruct ev; unfold dispatch_async;
    try (destruct (study_sub _); [|done]; destruct s as [st q]; simpl;
         unfold handle_study, study_cleanup, study_sync; repeat case_match; done).
  all: apply (foldl_inv (fun s' => effect_subs (a_st s') = effect_subs (a_st s))); [done|];
    intros y b Hy; by rewrite <- Hy; apply hee_queue.
Qed.

(** An event on an empty queue queues at most one job: only the
    subscription that captured the chart gets past the guard. *)
Lemma dispatch_async_queue ev st :
  subs_shape (effect_subs st) ->
  a_queue (dispatch_async ev (a_init st)) = [] \/
  exists id, a_queue (dispatch_async ev (a_init st)) = [BStudy id].
Proof.
  intros Hs. destruct ev; unfold dispatch_async; try (simpl; destruct (study_sub st); by left);
    cbn [a_st a_init]; destruct Hs as [-> | [-> | [-> | ->]]]; cbn [foldl];
    rewrite ?hee_false; auto;
    match goal with |- context [a_queue (handle_effect_event_async true ?e ?x)] =>
      destruct (hee_queue true e x) as [_ [-> | [? ->]]] end; simpl; eauto.
Qed.

(** The tracked overlay exists: a handler's call queues its job. *)
Lemma tracked_call s id :
  sentimentId (a_st s) = SId id -> is_Some (study_overrides id (chart (a_st s))) ->
  sbl_call true s = a_enqueue (BStudy id) s.
Proof. intros Hid [o Ho]. unfold sbl_call. rewrite Hid. simpl. by rewrite Ho. Qed.

Section NoEcho.
Hypothesis Hecho : echo = false.

(** The three microtasks of a call finish what [setBaselineLevel] does
    in one step. *)
Lemma sbl_settles st :
  settle 3 (sbl_call true (a_init st)) = a_init (setBaselineLevel true st).
Proof.
  unfold sbl_call, setBaselineLevel. simpl.
  destruct (truthy (sentimentId st)); simpl; [|done].
  destruct (getStudyById _ _) as [id|e]; simpl; [|done].
  unfold micro, run_job. simpl.
  destruct (visiblePriceRange _) as [[f t]|e]; simpl; [rewrite Hecho|]; done.
Qed.

Lemma hee_true ev st :
  settle 3 (handle_effect_event_async true ev (a_init st)) = a_init (handle_effect_event true ev st).
Proof.
  destruct ev; cbn [handle_effect_event_async handle_effect_event];
    try destruct (sid_is _ _); try destruct (bool_decide _); simpl; try apply sbl_settles; done.
Qed.

Lemma workq_micro s :
  a_queue s <> [] -> workq (a_queue (micro s)) + 1 = workq (a_queue s).
Proof.
  destruct s as [st [|j q]]; [done|]. intros _. unfold micro, workq. simpl.
  destruct j as [id|id|id [[f t]|e]]; simpl; rewrite ?Hecho; simpl;
    rewrite ?fmap_app, ?sum_list_with_app; simpl; lia.
Qed.

Lemma micro_subs s : effect_subs (a_st (micro s)) = effect_subs (a_st s).
Proof.
  destruct s as [st [|j q]]; [done|]. unfold micro.
  destruct j as [id|id|id [[f t]|e]]; simpl; rewrite ?Hecho; done.
Qed.

(** Once the work left fits in [n] microtasks, more change nothing. *)
Lemma settle_stable n s : workq (a_queue s) <= n -> settle (S n) s = settle n s.
Proof.
  revert s. induction n as [|n IH]; intros s Hw.
  - destruct s as [st [|j q]]; [done|]. unfold workq in Hw. destruct j; simpl in Hw; lia.
  - pose proof (workq_micro s) as Hm. destruct (a_queue s) eqn:E; [by rewrite !settle_empty|].
    change (settle (S (S n)) s) with (match a_queue s with [] => s | _ :: _ => settle (S n) (micro s) end).
    change (settle (S n) s) with (match a_queue s with [] => s | _ :: _ => settle n (micro s) end).
    rewrite E. apply IH. specialize (Hm ltac:(congruence)). lia.
Qed.

(** A widget event and the microtasks it queues settle, within three
    microtasks, to what the atomic [Sentiment.dispatch] computes. *)
Lemma event_settles ev st :
  subs_shape (effect_subs st) ->
  settle 3 (dispatch_async ev (a_init st)) = a_init (dispatch ev st).
Proof.
  intros Hs. destruct ev; unfold dispatch_async, dispatch;
    try (simpl; by destruct (study_sub st));
    cbn [a_st a_init]; destruct Hs as [-> | [-> | [-> | ->]]]; cbn [foldl];
    rewrite ?hee_false; try apply hee_true; done.
Qed.

(** The invariant of the split runs: the subscriptions keep their shape
    and at most one job is pending. *)
Definition ainv (s : astate) : Prop :=
  subs_shape (effect_subs (a_st s)) /\ workq (a_queue s) <= 3.

Lemma ainv_step s s' : astep s s' -> ainv s -> ainv s'.
Proof.
  intros [s0 Hq | ev s0 Hq] [Hs Hw]; split.
  - by rewrite micro_subs.
  - pose proof (workq_micro s0 Hq). lia.
  - by rewrite dispatch_async_subs.
  - destruct s0 as [st q]; simpl in Hq, Hs; subst q. change {| a_st := st; a_queue := [] |} with (a_init st).
    destruct (dispatch_async_queue ev st Hs) as [-> | [id ->]]; simpl; lia.
Qed.

(** A microtask leaves the state the run stands for alone. *)
Lemma complete_micro s :
  a_queue s <> [] -> workq (a_queue s) <= 3 -> complete (micro s) = complete s.
Proof.
  intros Hq Hw. pose proof (workq_micro s Hq) as Hm. unfold complete.
  destruct s as [st [|j q]]; [done|].
  change (settle 3 {| a_st := st; a_queue := j :: q |}) with (settle 2 (micro {| a_st := st; a_queue := j :: q |})).
  rewrite settle_stable; [done | lia].
Qed.

(** Without the echo, every run of the event loop from a component
    whose subscriptions have the shape React produces stands, once its
    pending job has run, for a run of [Sentiment.step]. *)
Theorem async_refines st s :
  subs_shape (effect_subs st) -> rtc astep (a_init st) s -> rtc step st (complete s).
Proof.
  intros Hs.
  enough (Hg : forall s, rtc astep (a_init st) s -> ainv s /\ rtc step st (complete s))
    by (intros Hr; by apply Hg).
  apply rtc_ind_r; [split; [split; [done | simpl; lia] | apply rtc_refl] |].
  intros y z _ Hyz [Hinv Hst].
  split; [by apply (ainv_step y)|].
  destruct Hyz as [y Hq | ev y Hq].
  - rewrite complete_micro; [done | done | apply Hinv].
  - destruct y as [st' q]; simpl in Hq; subst q. change {| a_st := st'; a_queue := [] |} with (a_init st') in *.
    unfold complete in *. rewrite (event_settles ev st' (proj1 Hinv)). simpl in *.
    eapply rtc_r; [exact Hst | apply step_dispatch].
Qed.

End NoEcho.

(** The component tracks an existing overlay, the visible range can be
    read, and the live subscription captured the chart. *)
Definition tracked (st : sstate) (id : study_id) : Prop :=
  sentimentId st = SId id /\ is_Some (study_overrides id (chart st)) /\ chart_wf (chart st) /\
  (exists r, visiblePriceRange (chart st) = Ok r) /\
  (effect_subs st = [true] \/ effect_subs st = [false; true]).

(** The states of a recomputation that feeds itself. *)
Definition looping (s : astate) : Prop :=
  exists id, tracked (a_st s) id /\
  (a_queue s = [BStudy id] \/ a_queue s = [BScale id] \/ exists r, a_queue s = [BRange id (Ok r)]).

(** A pointer event, or a property change of the overlay, on a tracked
    overlay queues exactly the overlay's job. *)
Lemma tracked_dispatch ev s id :
  tracked (a_st s) id -> ev = MouseDown \/ ev = StudyPropertiesChanged id ->
  dispatch_async ev s = a_enqueue (BStudy id) s.
Proof.
  intros (Hid & Ho & _ & _ & Hsubs) Hev. pose proof (tracked_call s id Hid Ho) as Hc.
  assert (Hs : sid_is (sentimentId (a_st s)) id = true) by (rewrite Hid; simpl; by rewrite bool_decide_true).
  assert (Hf : handle_effect_event_async false ev s = s)
    by (destruct Hev as [-> | ->]; simpl; [|destruct (sid_is _ _)]; done).
  unfold dispatch_async. destruct Hev as [-> | ->]; destruct Hsubs as [E | E]; rewrite E;
    cbn [foldl]; rewrite ?Hf; cbn [handle_effect_event_async]; rewrite ?Hs; exact Hc.
Qed.

Section Applied.
Hypothesis Hecho : echo = false.

(** C27: without the echo, a pointer event on a tracked overlay whose
    subscription captured the chart queues [setBaselineLevel]'s job;
    the event loop then runs its three microtasks (the first gets the
    price scale, the second reads its visible range [(from, to)]) and
    the third applies the baseline computed from that range to the
    overlay.
    The queue is then empty, no promise is rejected and the handle
    still names the overlay. *)
Theorem pointer_event_applies_baseline st id o f t :
  sentimentId st = SId id -> study_overrides id (chart st) = Some o -> chart_wf (chart st) ->
  visiblePriceRange (chart st) = Ok (f, t) ->
  (effect_subs st = [true] \/ effect_subs st = [false; true]) ->
  let s := settle 3 (dispatch_async MouseDown (a_init st)) in
  rtc astep (a_init st) s /\ a_queue s = [] /\
  study_overrides id (chart (a_st s)) = Some (baseline_override f t ∪ o) /\
  rejections (a_st s) = rejections st /\ sentimentId (a_st s) = SId id.
Proof.
  intros Hid Ho Hwf Hr Hsubs s.
  assert (Htr : tracked st id) by (split_and!; eauto).
  assert (Hs : s = a_init (set_chart (study_applyOverrides id (baseline_override f t) (chart st)) st)).
  { subst s. rewrite (tracked_dispatch _ (a_init st) id); [| done | by left].
    cbn. rewrite Hr. cbn. by rewrite Hecho. }
  split; [eapply rtc_l; [by apply as_event | apply settle_steps]|].
  rewrite Hs. cbn. split_and!; auto using study_applyOverrides_lookup.
Qed.

End Applied.

Section Echo.
Hypothesis Hecho : echo = true.

Lemma looping_step s s' : astep s s' -> looping s -> looping s'.
Proof.
  intros [s0 _ | ev s0 Hq] (id & Htr & Hq'); [|destruct Hq' as [E | [E | [r E]]]; congruence].
  pose proof Htr as (Hid & Ho & Hwf & [r0 Hr] & Hsubs).
  destruct s0 as [st q]; simpl in *. unfold micro. cbn [a_queue a_st].
  destruct Hq' as [-> | [-> | [[f t] ->]]]; cbn [run_job a_st].
  - exists id. split; [exact Htr | by right; left].
  - exists id. split; [exact Htr|]. right; right. rewrite Hr. by exists r0.
  - rewrite Hecho. destruct Ho as [o Ho].
    assert (Htr' : tracked (set_chart (study_applyOverrides id (baseline_override f t) (chart st)) st) id).
    { split_and!; simpl; [done | eexists; by apply study_applyOverrides_lookup
                          | by apply wf_applyOverrides
                          | rewrite study_applyOverrides_range; eauto | done]. }
    rewrite (tracked_dispatch _ _ id); [| exact Htr' | by right].
    exists id. split; [exact Htr' | by left].
Qed.

(** C28: if the host reports the overlay's own override as a property
    change, one pointer event on a tracked overlay never settles: the
    [study_properties_changed] handler starts [setBaselineLevel] again
    from inside its last microtask, so no later state of the event loop
    has an empty microtask queue, and no widget event is delivered
    again. *)
Theorem echo_starves st id s :
  tracked st id -> rtc astep (dispatch_async MouseDown (a_init st)) s -> a_queue s <> [].
Proof.
  intros Htr Hr.
  assert (Hl : looping (dispatch_async MouseDown (a_init st))).
  { rewrite (tracked_dispatch _ _ id); [| done | by left]. exists id. by split; [|left]. }
  induction Hr as [x | x y z Hxy _ IH]; [|by apply IH, (looping_step x)].
  destruct Hl as (? & _ & [E | [E | [r E]]]); by rewrite E.
Qed.

End Echo.
End Microtasks.

(** ** Concrete runs on the list model of the host *)

Lemma pointer_event_applies_baseline_witness :
  let s := settle false 3 (dispatch_async MouseDown (a_init (ex_state (SId 0)))) in
  rtc (astep false) (a_init (ex_state (SId 0))) s /\ a_queue s = [] /\
  study_overrides 0 (chart (a_st s)) = Some (baseline_override (-30)%Q 10%Q ∪ ∅) /\
  rejections (a_st s) = [] /\ sentimentId (a_st s) = SId 0.
Proof.
  exact (pointer_event_applies_baseline false eq_refl (ex_state (SId 0)) 0 ∅ (-30)%Q 10%Q
           eq_refl eq_refl ex_chart_wf eq_refl (or_intror eq_refl)).
Defined.

Lemma echo_starves_witness :
  a_queue (micro true (micro true (dispatch_async MouseDown (a_init (ex_state (SId 0)))))) <> [].
Proof.
  apply (echo_starves true eq_refl (ex_state (SId 0)) 0).
  - split_and!; [done | eexists; reflexivity | apply ex_chart_wf | eexists; reflexivity | by right].
  - eapply rtc_l; [apply as_micro; vm_compute; discriminate|].
    eapply rtc_l; [apply as_micro; vm_compute; discriminate|]. apply rtc_refl.
Defined.

End Async.
