(* ===== verification/React.v ===== *)
(** * React: the runtime of [TVChartContainer], shared by both files

    [src/tv-code.js] (lines 72-231) and [src/Sentiment/Sentiment.js]
    (lines 74-315) declare the same component skeleton: two pieces of
    React state, [tvWidget] and [chart], and three effects that run after
    each commit, in their order of declaration, when their dependencies
    changed:
    - the mount effect (deps [[]]) creates the widget with
      [new Widget(getWidgetOptions())], stores it with [setTVWidget],
      registers the ready callback, and returns a cleanup closure that
      calls [tvWidget.remove()] on the [tvWidget] of the first render;
    - the subscription effect (deps [[chart, tvWidget]]) subscribes the
      file's widget handlers whenever [tvWidget] is set, without
      unsubscribing the previous ones;
    - the style effect (deps [[chart]]) calls [changeStyles] and, in
      Sentiment.js, [setBaselineLevel].
    The ready callback calls [setChartType(1)] and [setChart(activeChart)],
    then runs the file's own code up to an [await], then the rest.

    The class [Body] is what differs between the files: the widget
    options, the overrides and CSS properties [changeStyles] sets, and the
    state of the handlers with what the subscription effect, the style
    effect, the two halves of the ready callback and a widget event do to
    it. [BodyLaws] is what the runtime's theorems assume of a body: it
    records one subscription per run of the subscription effect, holding
    the [chart] that run captured. [Lifecycle] instantiates it with the
    body of Sentiment.js, [TvCode] with that of tv-code.js.

    The props [{ asset, settings, locale }] are a record [props]; the
    body reads the options, overrides and CSS properties from the props
    of the render whose effects run. The parent may render the component
    again with new props at any time after the first commit
    ([set_props], [ls_props]); React keeps [tvWidget] and [chart].

    The runtime keeps the values each closure captured. A state update
    schedules a render; a render and its commit are one step. Concrete
    interleavings are runs of [lstep] built step by step by the tactics
    [lmount], [lrender], [lready], [lresolve], [levent], [lprops],
    [lunmount].

    Theorems: the invariant [linv] of every reachable state, lifted
    along runs by [lstep_inv]; the cleanup that throws on the stale
    [tvWidget]; the shape of the subscriptions; a throwing
    [getWidgetOptions] that leaves the component without a widget; the
    options frozen at the first render ([widget_options_frozen]); the
    theme written once ([theme_applied_once]). *)

From S2P Require Import Prelude Config Host.

Module React.
Import Config Host.

(** ** The widget object *)

(** What the code sets on the widget outside the studies: the CSS custom
    properties, the overrides of [chart(0)], the chart type, and whether
    [remove()] was called. *)
Record widget := {
  w_options : widget_options;
  w_css : gmap string string;
  w_overrides : gmap string ovalue;
  w_chart_type : option Z;
  w_removed : bool
}.

Definition new_widget (o : widget_options) : widget :=
  {| w_options := o; w_css := ∅; w_overrides := wo_overrides o; w_chart_type := None;
     w_removed := false |}.

(** [changeStyles]: nothing without a widget; otherwise
    [tvWidget.chart(0).applyOverrides(ov)], then the
    [setCSSCustomProperty] calls in order. *)
Definition changeStyles (ov : gmap string ovalue) (css : list (string * string)) (tv : bool)
    (w : widget) : widget :=
  if tv then
    {| w_options := w_options w;
       w_css := foldl (fun m kv => <[kv.1 := kv.2]> m) (w_css w) css;
       w_overrides := ov ∪ w_overrides w;
       w_chart_type := w_chart_type w; w_removed := w_removed w |}
  else w.

Definition set_chart_type (t : Z) (w : widget) : widget :=
  {| w_options := w_options w; w_css := w_css w; w_overrides := w_overrides w;
     w_chart_type := Some t; w_removed := w_removed w |}.

Definition remove_widget (w : widget) : widget :=
  {| w_options := w_options w; w_css := w_css w; w_overrides := w_overrides w;
     w_chart_type := w_chart_type w; w_removed := true |}.

(** ** The body of a component *)

(** The props of [TVChartContainer({ asset, settings, locale })]. *)
Record props := {
  p_asset : option asset;
  p_settings : settings;
  p_locale : string
}.

Class Body := {
  b_state : Type;
  b_event : Type;
  (** [getWidgetOptions()] of the file, with the props of a render *)
  b_options : props -> result widget_options;
  (** [getCommonOverrides(settings)] and the CSS calls of [changeStyles] *)
  b_overrides : props -> gmap string ovalue;
  b_css : props -> list (string * string);
  (** the subscription effect, given the [chart] of its render *)
  b_subscribe : bool -> b_state -> b_state;
  (** the style effect after [changeStyles], given the [chart] of its render *)
  b_style : bool -> b_state -> b_state;
  (** the ready callback up to its [await]: the awaited study, or a rejection *)
  b_ready : b_state -> result (study_id * b_state);
  (** the rest of the ready callback, once the awaited promise resolves *)
  b_resolved : study_id -> b_state -> result b_state;
  (** the subscribers of a widget event, in subscription order *)
  b_dispatch : b_event -> b_state -> b_state;
  (** one entry per run of the subscription effect: the [chart] it captured *)
  b_subs : b_state -> list bool
}.

Class BodyLaws `{Body} : Prop := {
  subs_subscribe c h : b_subs (b_subscribe c h) = b_subs h ++ [c];
  subs_style c h : b_subs (b_style c h) = b_subs h;
  subs_ready h id h' : b_ready h = Ok (id, h') -> b_subs h' = b_subs h;
  subs_resolved id h h' : b_resolved id h = Ok h' -> b_subs h' = b_subs h;
  subs_dispatch ev h : b_subs (b_dispatch ev h) = b_subs h
}.

Section Runtime.
Context `{Body}.

(** ** The component's state *)

Record lstate := {
  the_props : props;               (** the props of the next render *)
  tvWidget : bool;                 (** the React state [tvWidget] is set *)
  react_chart : bool;              (** the React state [chart] is set *)
  committed : option (bool * bool); (** [(chart, tvWidget)] of the last commit *)
  render_pending : bool;           (** a state update awaits a render *)
  the_widget : option widget;      (** the object [new Widget(...)] made *)
  cleanup_tv : option bool;        (** [tvWidget] as the cleanup closure captured it *)
  ready : nat;                     (** 0: not fired, 1: awaiting, 2: done *)
  pending_id : option study_id;    (** the study the awaited promise resolves to *)
  handlers : b_state;              (** the state of the file's handlers *)
  errors : list js_error;          (** exceptions of effects, cleanups and callbacks *)
  unmounted : bool
}.

Definition lstate_init (p : props) (h : b_state) : lstate :=
  {| the_props := p; tvWidget := false; react_chart := false; committed := None; render_pending := false;
     the_widget := None; cleanup_tv := None; ready := 0; pending_id := None;
     handlers := h; errors := []; unmounted := false |}.

Definition set_handlers (h : b_state) (st : lstate) : lstate :=
  {| the_props := the_props st; tvWidget := tvWidget st; react_chart := react_chart st; committed := committed st;
     render_pending := render_pending st; the_widget := the_widget st;
     cleanup_tv := cleanup_tv st; ready := ready st; pending_id := pending_id st;
     handlers := h; errors := errors st; unmounted := unmounted st |}.

Definition add_error (e : js_error) (st : lstate) : lstate :=
  {| the_props := the_props st; tvWidget := tvWidget st; react_chart := react_chart st; committed := committed st;
     render_pending := render_pending st; the_widget := the_widget st;
     cleanup_tv := cleanup_tv st; ready := ready st; pending_id := pending_id st;
     handlers := handlers st; errors := errors st ++ [e]; unmounted := unmounted st |}.

(** ** The effects *)

(** The mount effect: [new Widget(getWidgetOptions())] (an exception of
    [getWidgetOptions] propagates out of the effect), [setTVWidget],
    the ready callback registered, and the cleanup closing over the
    [tvWidget] of this render. *)
Definition mount_effect (p : props) (tv_render : bool) (st : lstate) : lstate :=
  match b_options p with
  | Throw e => add_error e st
  | Ok o =>
      {| the_props := the_props st; tvWidget := true; react_chart := react_chart st; committed := committed st;
         render_pending := true; the_widget := Some (new_widget o);
         cleanup_tv := Some tv_render; ready := ready st; pending_id := pending_id st;
         handlers := handlers st; errors := errors st; unmounted := unmounted st |}
  end.

(** The subscription effect: [if (tvWidget)] subscribe the handlers. *)
Definition subscribe_effect (chart_render tv_render : bool) (st : lstate) : lstate :=
  if tv_render then set_handlers (b_subscribe chart_render (handlers st)) st else st.

(** The style effect: [if (chart) { changeStyles(); ... }]. *)
Definition style_effect (p : props) (chart_render tv_render : bool) (st : lstate) : lstate :=
  if chart_render then
    {| the_props := the_props st; tvWidget := tvWidget st; react_chart := react_chart st; committed := committed st;
       render_pending := render_pending st;
       the_widget := changeStyles (b_overrides p) (b_css p) tv_render <$> the_widget st;
       cleanup_tv := cleanup_tv st; ready := ready st; pending_id := pending_id st;
       handlers := b_style chart_render (handlers st); errors := errors st;
       unmounted := unmounted st |}
  else st.

Definition set_committed (d : bool * bool) (st : lstate) : lstate :=
  {| the_props := the_props st; tvWidget := tvWidget st; react_chart := react_chart st; committed := Some d;
     render_pending := false; the_widget := the_widget st; cleanup_tv := cleanup_tv st;
     ready := ready st; pending_id := pending_id st; handlers := handlers st;
     errors := errors st; unmounted := unmounted st |}.

(** A render and its commit: the render reads the current props and
    state, its effects close over them; each effect runs if it is the
    first commit or its dependencies changed ([Object.is] on booleans is
    equality). *)
Definition commit (st : lstate) : lstate :=
  let p := the_props st in
  let ch := react_chart st in
  let tv := tvWidget st in
  let st0 := set_committed (ch, tv) st in
  match committed st with
  | None =>
      style_effect p ch tv (subscribe_effect ch tv (mount_effect p tv st0))
  | Some (ch', tv') =>
      let st1 := if bool_decide ((ch, tv) = (ch', tv')) then st0 else subscribe_effect ch tv st0 in
      if bool_decide (ch = ch') then st1 else style_effect p ch tv st1
  end.

(** The ready callback up to its [await]: [setChartType(1)],
    [setChart(activeChart)], then the body's code; a rejection there ends
    the callback. *)
Definition chart_ready (st : lstate) : lstate :=
  let w := set_chart_type 1 <$> the_widget st in
  match b_ready (handlers st) with
  | Ok (id, h) =>
      {| the_props := the_props st; tvWidget := tvWidget st; react_chart := true; committed := committed st;
         render_pending := true; the_widget := w; cleanup_tv := cleanup_tv st; ready := 1;
         pending_id := Some id; handlers := h; errors := errors st; unmounted := unmounted st |}
  | Throw e =>
      {| the_props := the_props st; tvWidget := tvWidget st; react_chart := true; committed := committed st;
         render_pending := true; the_widget := w; cleanup_tv := cleanup_tv st; ready := 2;
         pending_id := None; handlers := handlers st; errors := errors st ++ [e];
         unmounted := unmounted st |}
  end.

(** The rest of the callback, once the awaited promise resolves. *)
Definition chart_ready_resolved (id : study_id) (st : lstate) : lstate :=
  let (h, errs) :=
    match b_resolved id (handlers st) with
    | Ok h => (h, errors st)
    | Throw e => (handlers st, errors st ++ [e])
    end in
  {| the_props := the_props st; tvWidget := tvWidget st; react_chart := react_chart st; committed := committed st;
     render_pending := render_pending st; the_widget := the_widget st;
     cleanup_tv := cleanup_tv st; ready := 2; pending_id := None;
     handlers := h; errors := errs; unmounted := unmounted st |}.

(** The parent renders the component with new props. *)
Definition set_props (p : props) (st : lstate) : lstate :=
  {| the_props := p; tvWidget := tvWidget st; react_chart := react_chart st;
     committed := committed st; render_pending := true; the_widget := the_widget st;
     cleanup_tv := cleanup_tv st; ready := ready st; pending_id := pending_id st;
     handlers := handlers st; errors := errors st; unmounted := unmounted st |}.

Definition deliver (ev : b_event) (st : lstate) : lstate :=
  set_handlers (b_dispatch ev (handlers st)) st.

(** Unmounting runs the cleanup of the mount effect:
    [tvWidget.remove()] on the captured value; [null.remove()] throws. *)
Definition unmount (st : lstate) : lstate :=
  let (w, errs) :=
    match cleanup_tv st with
    | None => (the_widget st, errors st)
    | Some false => (the_widget st, errors st ++ [TypeError "tvWidget is null"])
    | Some true => (remove_widget <$> the_widget st, errors st)
    end in
  {| the_props := the_props st; tvWidget := tvWidget st; react_chart := react_chart st; committed := committed st;
     render_pending := render_pending st; the_widget := w; cleanup_tv := cleanup_tv st;
     ready := ready st; pending_id := pending_id st; handlers := handlers st;
     errors := errs; unmounted := true |}.

(** ** The transitions *)

Inductive lstep : lstate -> lstate -> Prop :=
  | ls_mount st :
      committed st = None -> unmounted st = false -> lstep st (commit st)
  | ls_render st :
      committed st <> None -> render_pending st = true -> unmounted st = false ->
      lstep st (commit st)
  | ls_ready st :
      the_widget st <> None -> ready st = 0%nat -> unmounted st = false -> lstep st (chart_ready st)
  (** A promise settles whether or not the component is still mounted. *)
  | ls_resolved st id :
      pending_id st = Some id -> lstep st (chart_ready_resolved id st)
  | ls_event st ev :
      committed st <> None -> unmounted st = false -> lstep st (deliver ev st)
  | ls_unmount st :
      committed st <> None -> unmounted st = false -> lstep st (unmount st)
  | ls_props st p :
      committed st <> None -> unmounted st = false -> lstep st (set_props p st).

(** ** The invariant of the reachable states *)

(** The subscriptions: one per commit that changed [(chart, tvWidget)]
    while [tvWidget] was set, each holding the [chart] of its render. *)
Definition subs_for (ch tv : bool) (subs : list bool) : Prop :=
  if tv then (if ch then subs = [true] \/ subs = [false; true] else subs = [false])
  else subs = [].

Definition linv (st : lstate) : Prop :=
  (react_chart st = true -> tvWidget st = true) /\
  (tvWidget st = true -> cleanup_tv st = Some false /\ the_widget st <> None) /\
  (the_widget st <> None -> tvWidget st = true) /\
  match committed st with
  | None => tvWidget st = false /\ react_chart st = false /\ cleanup_tv st = None /\
            b_subs (handlers st) = []
  | Some (ch, tv) =>
      (ch = true -> react_chart st = true) /\ (tv = true -> tvWidget st = true) /\
      (ch = true -> tv = true) /\ subs_for ch tv (b_subs (handlers st))
  end.

End Runtime.

(** ** Properties of [changeStyles] *)

(** What the widget calls keep of the widget. *)
Lemma changeStyles_options ov css tv w : w_options (changeStyles ov css tv w) = w_options w.
Proof. by destruct tv. Qed.

Section Properties.
Context `{BodyLaws}.

(** A property every step keeps holds of every state reached. *)
Lemma lstep_inv (P : lstate -> Prop) s1 s2 :
  (forall s s', lstep s s' -> P s -> P s') -> P s1 -> rtc lstep s1 s2 -> P s2.
Proof. intros Hstep H1 Hr. induction Hr; eauto. Qed.

Lemma linv_init p h : b_subs h = [] -> linv (lstate_init p h).
Proof. intros Hh. unfold linv. simpl. split_and!; done. Qed.

Lemma linv_commit st : linv st -> linv (commit st).
Proof.
  unfold linv. intros (Hct & Htv & Hw & Hc). unfold commit.
  destruct (committed st) as [[ch' tv']|] eqn:Ec.
  - destruct Hc as (Hch' & Htv' & Hct' & Hsubs).
    destruct (react_chart st) eqn:Ech, (tvWidget st) eqn:Etv, ch', tv'; simpl in *;
      rewrite ?subs_style, ?subs_subscribe; simpl; rewrite ?fmap_None, ?Ech, ?Etv;
      unfold subs_for in *; rewrite ?Hsubs;
      intuition (try discriminate; subst; simpl; auto).
  - destruct Hc as (Etv & Ech & Ecl & Esubs). rewrite Etv, Ech. unfold mount_effect.
    destruct (b_options _); simpl; rewrite ?Etv, ?Ech;
      intuition (try discriminate; try congruence; simpl; auto).
Qed.

Lemma linv_step st st' : lstep st st' -> linv st -> linv st'.
Proof.
  intros Hstep Hinv. destruct Hstep as [st | st | st | st id Hp | st ev | st | st p]; try by apply linv_commit.
  all: unfold linv in *; destruct Hinv as (Hct & Htv & Hw' & Hcm).
  - unfold chart_ready. assert (tvWidget st = true) by auto.
    destruct (b_ready (handlers st)) as [[id h]|e] eqn:Er; simpl; rewrite fmap_None;
      [rewrite (subs_ready _ _ _ Er)|];
      destruct (committed st) as [[ch tv]|]; intuition congruence.
  - unfold chart_ready_resolved.
    destruct (b_resolved id (handlers st)) as [h|e] eqn:Er; simpl;
      [rewrite (subs_resolved _ _ _ Er)|]; auto.
  - simpl. rewrite subs_dispatch. auto.
  - unfold unmount. destruct (cleanup_tv st) as [[|]|]; simpl; rewrite ?fmap_None; auto.
  - simpl. auto.
Qed.

(** Every state reached from an initial one satisfies the invariant. *)
Lemma linv_reachable p h st : b_subs h = [] -> rtc lstep (lstate_init p h) st -> linv st.
Proof. intros Hh. apply lstep_inv; [apply linv_step | by apply linv_init]. Qed.

Lemma linv_subs st :
  linv st ->
  b_subs (handlers st) = [] \/ b_subs (handlers st) = [false] \/
  b_subs (handlers st) = [true] \/ b_subs (handlers st) = [false; true].
Proof.
  intros (_ & _ & _ & Hc).
  destruct (committed st) as [[[|] [|]]|]; unfold subs_for in Hc; intuition.
Qed.

Ltac commit_cases st :=
  unfold commit, style_effect, subscribe_effect, mount_effect;
  destruct (committed st) as [[? ?]|];
  destruct (react_chart st), (tvWidget st); repeat case_bool_decide;
  try destruct (b_options _); simpl.

(** What a commit does to the handler state: the subscription and the
    style effects, nothing else. *)
Lemma commit_handlers (P : b_state -> Prop) st :
  P (handlers st) -> (forall c h, P h -> P (b_subscribe c h)) -> (forall c h, P h -> P (b_style c h)) ->
  P (handlers (commit st)).
Proof. intros Hh Hsub Hsty. commit_cases st; auto. Qed.

(** A commit leaves the ready callback and the props alone and only adds
    errors. *)
Lemma commit_frame st :
  ready (commit st) = ready st /\ pending_id (commit st) = pending_id st /\
  the_props (commit st) = the_props st /\ committed (commit st) = Some (react_chart st, tvWidget st) /\
  errors st `prefix_of` errors (commit st).
Proof. commit_cases st; split_and!; auto using prefix_app_r. Qed.

(** A commit whose dependencies did not change runs no effect. *)
Lemma commit_steady st :
  committed st = Some (react_chart st, tvWidget st) ->
  commit st = set_committed (react_chart st, tvWidget st) st.
Proof. intros Hc. unfold commit. rewrite Hc. by rewrite !bool_decide_true. Qed.

(** Errors are never forgotten. *)
Lemma errors_step st st' : lstep st st' -> errors st `prefix_of` errors st'.
Proof.
  destruct 1; try apply commit_frame; unfold chart_ready, chart_ready_resolved, unmount; simpl.
  - destruct (b_ready _) as [[]|]; simpl; auto using prefix_app_r.
  - destruct (b_resolved _ _); simpl; auto using prefix_app_r.
  - done.
  - destruct (cleanup_tv st) as [[]|]; simpl; auto using prefix_app_r.
  - done.
Qed.

(** ** Properties of the component *)

(** C10: unmounting never releases the widget: the cleanup closure holds
    the [tvWidget] of the first render, [null], so [tvWidget.remove()]
    throws a [TypeError] and the widget stays as it was. This holds for
    the body of either file. *)
Theorem unmount_throws p h st w :
  b_subs h = [] -> rtc lstep (lstate_init p h) st -> the_widget st = Some w ->
  let st' := unmount st in
  errors st' = errors st ++ [TypeError "tvWidget is null"] /\ the_widget st' = Some w.
Proof.
  intros Hh Hr Hw st'. subst st'. destruct (linv_reachable p h st Hh Hr) as (_ & Htv & Hw' & _).
  rewrite Hw in Hw'. destruct (Htv (Hw' ltac:(discriminate))) as [Hcl _].
  unfold unmount. rewrite Hcl. simpl. by rewrite Hw.
Qed.

(** C11: the subscription effect runs once per change of
    [(chart, tvWidget)] and never unsubscribes: the handlers are
    subscribed at most twice, and all but the last subscription captured
    [chart = null]. *)
Theorem effect_subs_shape p h st :
  b_subs h = [] -> rtc lstep (lstate_init p h) st ->
  b_subs (handlers st) = [] \/ b_subs (handlers st) = [false] \/
  b_subs (handlers st) = [true] \/ b_subs (handlers st) = [false; true].
Proof. intros Hh Hr. apply linv_subs, (linv_reachable p h), Hr. exact Hh. Qed.

(** The invariant of a component whose first [getWidgetOptions] throws:
    before the first commit the props are still the first ones, after it
    the effects' dependencies stay [(null, null)]. *)
Definition no_widget (p0 : props) (e : js_error) (s : lstate) : Prop :=
  the_widget s = None /\ tvWidget s = false /\ pending_id s = None /\ cleanup_tv s = None /\
  react_chart s = false /\ b_subs (handlers s) = [] /\
  (committed s = None /\ the_props s = p0 \/ committed s = Some (false, false) /\ e ∈ errors s).

Lemma no_widget_step p0 e s s' :
  b_options p0 = Throw e -> lstep s s' -> no_widget p0 e s -> no_widget p0 e s'.
Proof.
  intros He0 Hstep (Hw & Htv & Hid & Hcl & Hch & Hs & Hc).
  destruct Hstep as [s Hc' Hu | s Hc' Hp Hu | s Hw' | s id Hp | s ev | s Hc' Hu | s p Hc' Hu];
    try congruence.
  - destruct Hc as [[_ Hp0]|[? _]]; [|congruence].
    unfold commit. rewrite Hc', Htv, Hch. simpl. unfold mount_effect. rewrite Hp0, He0. simpl.
    split_and!; try done. right. split; [done|]. simpl. set_solver.
  - destruct Hc as [[? _]|[Hc Hin]]; [congruence|].
    rewrite commit_steady by congruence. rewrite Hch, Htv. simpl. split_and!; auto.
  - unfold no_widget, deliver, set_handlers. simpl. rewrite subs_dispatch. split_and!; auto.
  - unfold no_widget, unmount. rewrite Hcl. simpl. split_and!; auto.
  - unfold no_widget. simpl. destruct Hc as [[? _]|?]; [congruence|]. split_and!; auto.
Qed.

(** C17: when the first render's [getWidgetOptions] throws (the asset is
    [null]), no widget is ever built, whatever happens after: no handler
    is subscribed, and from the first commit on the error is recorded. *)
Theorem options_throw_no_widget p0 e h st :
  b_options p0 = Throw e -> b_subs h = [] -> rtc lstep (lstate_init p0 h) st ->
  the_widget st = None /\ b_subs (handlers st) = [] /\ (committed st <> None -> e ∈ errors st).
Proof.
  intros He0 Hh Hr.
  destruct (lstep_inv (no_widget p0 e) (lstate_init p0 h) st (fun s s' => no_widget_step p0 e s s' He0))
    as (Hw & _ & _ & _ & _ & Hs & Hc); [by split_and!; auto| exact Hr |].
  split_and!; [done | done |]. destruct Hc as [[-> _]|[_ ?]]; [done | auto].
Qed.

(** Options are read once: from the first commit on, the widget's
    options are those of the props of the first render. *)
Definition options_frozen (p0 : props) (s : lstate) : Prop :=
  (committed s = None -> the_props s = p0 /\ the_widget s = None) /\
  (forall w, the_widget s = Some w -> b_options p0 = Ok (w_options w)).

Lemma commit_options st :
  committed st <> None -> w_options <$> the_widget (commit st) = w_options <$> the_widget st.
Proof.
  intros Hc. commit_cases st; try congruence;
    destruct (the_widget st); simpl; rewrite ?changeStyles_options; done.
Qed.

Lemma options_frozen_commit p0 s : options_frozen p0 s -> options_frozen p0 (commit s).
Proof.
  intros [Hn Hw]. split.
  - by destruct (commit_frame s) as (_ & _ & _ & -> & _).
  - intros w Hw'. destruct (committed s) eqn:Ec.
    + pose proof (commit_options s ltac:(congruence)) as Ho. rewrite Hw' in Ho.
      destruct (the_widget s) eqn:Ew; simplify_eq/=. rewrite Ho. auto.
    + destruct (Hn eq_refl) as [Hp Hw0]. revert Hw'. unfold commit. rewrite Ec, Hp.
      unfold style_effect, subscribe_effect, mount_effect.
      destruct (b_options p0) eqn:Eo, (react_chart s), (tvWidget s); simpl;
        rewrite ?Hw0; intros; simplify_eq; rewrite ?changeStyles_options; done.
Qed.

Lemma options_frozen_step p0 s s' : lstep s s' -> options_frozen p0 s -> options_frozen p0 s'.
Proof.
  intros Hstep Hinv. destruct Hstep as [s | s | s Hw' | s id Hp | s ev | s Hc' Hu | s p Hc' Hu];
    try by apply options_frozen_commit.
  all: destruct Hinv as [Hn Hw]; split; simpl.
  - unfold chart_ready. destruct (b_ready _) as [[]|]; simpl;
      intros Hc; destruct (Hn Hc); congruence.
  - unfold chart_ready. intros w.
    destruct (b_ready _) as [[]|], (the_widget s) eqn:Ew; simpl; intros; simplify_eq/=; auto.
  - unfold chart_ready_resolved. destruct (b_resolved _ _); auto.
  - unfold chart_ready_resolved. destruct (b_resolved _ _); auto.
  - auto.
  - auto.
  - unfold unmount. destruct (cleanup_tv s) as [[]|]; simpl; congruence.
  - unfold unmount. intros w.
    destruct (cleanup_tv s) as [[]|], (the_widget s) eqn:Ew; simpl; intros; simplify_eq/=; auto.
  - congruence.
  - auto.
Qed.

(** C19: [new widget(getWidgetOptions(...))] runs in the mount effect
    only: whatever props the parent passes later, every widget the
    component holds was built from the options of the first render's
    props. *)
Theorem widget_options_frozen p0 h st w :
  rtc lstep (lstate_init p0 h) st -> the_widget st = Some w -> b_options p0 = Ok (w_options w).
Proof.
  intros Hr Hw.
  destruct (lstep_inv (options_frozen p0) (lstate_init p0 h) st (options_frozen_step p0))
    as [_ Hf]; [split; [done | discriminate] | exact Hr | exact (Hf w Hw)].
Qed.

(** What the style effect writes into the widget. *)
Definition style_view (s : lstate) : option (gmap string string * gmap string ovalue) :=
  (fun w => (w_css w, w_overrides w)) <$> the_widget s.

Lemma style_view_step s s' :
  linv s -> committed s = Some (true, true) -> react_chart s = true -> lstep s s' ->
  committed s' = Some (true, true) /\ react_chart s' = true /\ style_view s' = style_view s.
Proof.
  intros Hinv Hc Hch Hstep. destruct Hinv as (Hct & _).
  assert (tvWidget s = true) as Htv by auto.
  destruct Hstep as [s | s | s Hw' | s id Hp | s ev | s Hc' Hu | s p Hc' Hu];
    try congruence; try (rewrite commit_steady by congruence; rewrite Hch, Htv; unfold style_view; simpl; split_and!; congruence).
  - unfold chart_ready, style_view. destruct (b_ready _) as [[]|], (the_widget s); auto.
  - unfold chart_ready_resolved. destruct (b_resolved _ _); auto.
  - auto.
  - unfold unmount, style_view. destruct (cleanup_tv s) as [[]|], (the_widget s); auto.
  - auto.
Qed.

(** C20: the theme is applied once: from the commit in which both the
    chart and the widget are known on, the widget's custom CSS and its
    overrides never change, whatever settings the parent passes later. *)
Theorem theme_applied_once p0 h st st' :
  b_subs h = [] -> rtc lstep (lstate_init p0 h) st -> committed st = Some (true, true) ->
  rtc lstep st st' -> style_view st' = style_view st.
Proof.
  intros Hh Hr Hc Hr'.
  destruct (linv_reachable p0 h st Hh Hr) as (_ & _ & _ & Hcm). rewrite Hc in Hcm.
  refine (proj2 (proj2 (proj2 (lstep_inv (fun s => rtc lstep (lstate_init p0 h) s /\
            committed s = Some (true, true) /\ react_chart s = true /\ style_view s = style_view st)
            st st' _ _ Hr')))); [|split_and!; tauto].
  intros s s' Hs (Hr1 & Hc1 & Hch1 & Hv1).
  destruct (style_view_step s s') as (? & ? & ->); eauto using linv_reachable, rtc_r.
Qed.

End Properties.

(** Tactics that build a run step by step, the target state written as
    the composition of the steps. *)
Ltac lmount := eapply rtc_l; [apply ls_mount; reflexivity |].
Ltac lrender := eapply rtc_l; [apply ls_render; [discriminate | reflexivity | reflexivity] |].
Ltac lready := eapply rtc_l; [apply ls_ready; [discriminate | reflexivity | reflexivity] |].
Ltac lresolve id := eapply rtc_l; [apply (ls_resolved _ id); reflexivity |].
Ltac levent := eapply rtc_l; [apply ls_event; [discriminate | reflexivity] |].
Ltac lunmount := eapply rtc_l; [apply ls_unmount; [discriminate | reflexivity] |].
Ltac lprops p := eapply rtc_l; [apply (ls_props _ p); [discriminate | reflexivity] |].

End React.
