(* ===== verification/Lifecycle.v ===== *)
(** * Lifecycle: the component of Sentiment.js on the React runtime

    The body of [TVChartContainer] in [src/Sentiment/Sentiment.js] as a
    [React.Body] ([sentiment_body]): the handler state is
    [Sentiment.sstate] (the module-level [sentimentId], line 72, and the
    widget's chart); the subscription effect (lines 260-292) adds one
    subscription of the six handlers capturing the render's [chart]; the
    style effect (lines 295-301) runs [setBaselineLevel] after
    [changeStyles]; the ready callback (lines 229-252) calls
    [createStudy] before its [await] and stores the handle and subscribes
    the ['study'] handler after it; widget events go to
    [Sentiment.dispatch]. [sentiment_laws] discharges [React.BodyLaws],
    so the runtime's theorems hold of this component.

    The theorems here are the ones that depend on what the handlers do:
    one recomputation per event despite the double subscription, the race
    between [createStudy] and the commit of [setChart], the recovery of
    the baseline by the next event, the continuation that runs after
    teardown, and the host invariant kept by every step. The concrete
    runs at the end mount the component with the props [lc_props], and
    [run_new_props] passes it a light theme and another locale once the
    chart is up: the runtime's [widget_options_frozen] and
    [theme_applied_once] apply to it. *)

From S2P Require Import Prelude Config Host Sentiment React.

Module Lifecycle.
Import Config Host Sentiment React.

Section SentimentBody.
Context {C : Type} `{ChartLaws C}.

(** The globals the module reads. *)
Variable g : globals.

Definition sentiment_body : Body := {|
  b_state := @sstate C;
  b_event := event;
  b_options p := getWidgetOptions g (p_asset p) (p_settings p) (p_locale p);
  b_overrides p := getCommonOverrides (p_settings p);
  b_css p := changeStyles_css (p_settings p);
  b_subscribe := add_effect_sub;
  b_style := setBaselineLevel;
  b_ready h := Ok (ready_createStudy h);
  b_resolved id h := Ok (ready_resolved id h);
  b_dispatch := dispatch;
  b_subs := effect_subs
|}.

#[local] Existing Instance sentiment_body.

(** The handler state when the component mounts: [sentimentId = null]
    (line 72), nothing subscribed. *)
Definition sentiment_init (c : C) : @sstate C :=
  {| sentimentId := SNull; chart := c; rejections := []; effect_subs := []; study_sub := false |}.

Lemma dispatch_subs ev (st : @sstate C) : effect_subs (dispatch ev st) = effect_subs st.
Proof.
  destruct ev;
    try (apply (foldl_handlers_inv (fun s' => effect_subs s' = effect_subs st)
                  (fun b s' => handle_effect_event b _ s')); [done|];
         intros b s' <-; apply handle_effect_event_subs).
  simpl. destruct (study_sub st); [|done]. unfold handle_study, study_cleanup, study_sync. simpl.
  case_match; [|done]. destruct (createStudy _ _). done.
Qed.

Lemma ready_createStudy_subs (st : @sstate C) : effect_subs (ready_createStudy st).2 = effect_subs st.
Proof. unfold ready_createStudy. by destruct (createStudy _ _). Qed.

Lemma setBaselineLevel_subs b (h : @sstate C) : effect_subs (setBaselineLevel b h) = effect_subs h.
Proof. apply setBaselineLevel_frame. Qed.

Lemma setBaselineLevel_false (h : @sstate C) : setBaselineLevel false h = h.
Proof. apply setBaselineLevel_guard. by left. Qed.

#[local] Instance sentiment_laws : BodyLaws.
Proof.
  split; simpl.
  - done.
  - apply setBaselineLevel_subs.
  - intros h id h' E. injection E as E. pose proof (ready_createStudy_subs h) as Hs.
    by rewrite E in Hs.
  - by intros id h h' [= <-].
  - apply dispatch_subs.
Qed.

(** The host invariant in the handler state. *)
Definition hwf (st : lstate) : Prop := chart_wf (chart (handlers st)).

Lemma ready_createStudy_wf (h : @sstate C) : chart_wf (chart h) -> chart_wf (chart (ready_createStudy h).2).
Proof.
  unfold ready_createStudy. intros Hwf. pose proof (wf_createStudy sentimentName _ Hwf).
  destruct (createStudy _ _). done.
Qed.

Lemma hwf_commit st : hwf st -> hwf (commit st).
Proof.
  intros Hwf. apply (@commit_handlers sentiment_body (fun h => chart_wf (chart h))); simpl;
    auto using setBaselineLevel_wf.
Qed.

Lemma hwf_step st st' : lstep st st' -> hwf st -> hwf st'.
Proof.
  intros Hstep Hwf. destruct Hstep; try by apply hwf_commit.
  - unfold hwf, chart_ready. simpl. pose proof (ready_createStudy_wf _ Hwf).
    by destruct (ready_createStudy _).
  - exact Hwf.
  - by apply dispatch_wf.
  - unfold hwf, unmount. by destruct (cleanup_tv st) as [[]|].
  - exact Hwf.
Qed.

Lemma hwf_reachable p c st : chart_wf c -> rtc lstep (lstate_init p (sentiment_init c)) st -> hwf st.
Proof. intros Hc. apply lstep_inv; [apply hwf_step | exact Hc]. Qed.

(** ** Properties of the component *)

(** C12: although the handlers are subscribed twice, a pointer, undo or
    scale event recomputes the baseline at most once: the stale
    subscription captured [chart = null] and returns at its guard. *)
Theorem single_recompute p c st ev :
  rtc lstep (lstate_init p (sentiment_init c)) st ->
  ev = MouseDown \/ ev = MouseUp \/ ev = UndoRedoStateChanged \/ ev = ResetScales ->
  handlers (deliver ev st) = handlers st \/
  handlers (deliver ev st) = setBaselineLevel true (handlers st).
Proof.
  intros Hr Hev. simpl. pose proof (linv_subs st (@linv_reachable sentiment_body _ p (sentiment_init c) st eq_refl Hr)) as Hs.
  simpl in Hs.
  assert (E : dispatch ev (handlers st) =
              foldl (fun h b => setBaselineLevel b h) (handlers st) (effect_subs (handlers st)))
    by (destruct Hev as [-> | [-> | [-> | ->]]]; reflexivity).
  rewrite E. destruct Hs as [-> | [-> | [-> | ->]]]; simpl; rewrite ?setBaselineLevel_false; auto.
Qed.

(** C14: once a commit has seen both the widget and the chart, the
    baseline is never stuck: whatever the order of the earlier events,
    while the handle names a study of the chart and the visible range is
    known, the next pointer event sets that study's baseline. *)
Theorem baseline_recovers p c st id o f t :
  chart_wf c -> rtc lstep (lstate_init p (sentiment_init c)) st ->
  committed st = Some (true, true) ->
  sentimentId (handlers st) = SId id -> study_overrides id (chart (handlers st)) = Some o ->
  visiblePriceRange (chart (handlers st)) = Ok (f, t) ->
  study_overrides id (chart (handlers (deliver MouseDown st))) = Some (baseline_override f t ∪ o).
Proof.
  intros Hc Hr Hcm Hid Ho Hrange. pose proof (hwf_reachable p c st Hc Hr) as Hwf.
  destruct (@linv_reachable sentiment_body _ p (sentiment_init c) st eq_refl Hr) as (_ & _ & _ & Hl). rewrite Hcm in Hl.
  destruct Hl as (_ & _ & _ & Hs). simpl in *. unfold dispatch.
  destruct Hs as [-> | ->]; simpl; rewrite ?setBaselineLevel_false;
    rewrite (setBaselineLevel_tracked _ _ _ _ _ Hid Ho Hrange); by apply study_applyOverrides_lookup.
Qed.

End SentimentBody.

(** ** Concrete runs: the order of the ready callback and the commit *)

Definition lc_globals : globals :=
  {| g_assetClasses := None; g_BLOB_CDN_URL := Some "https://cdn.example";
     g_drawSentiment := true; g_priceData := None; g_yourSubscriptionMethod := true |}.

Definition lc_asset : asset :=
  {| Decimals := 2; AssetClassId := "1"; AssetTicker := "BTC"; AssetName := "Bitcoin";
     Category := "Crypto" |}.

Definition lc_chart : Host.chart :=
  {| studies := []; next_id := 0%nat; panes := [[Some (-30, 10)]]; chart_type := 1%Z;
     main_overrides := ∅ |}.

(** The component of the runs below, and its first props. *)
Definition LB : Body := sentiment_body lc_globals.

Definition lc_props : props := {| p_asset := Some lc_asset; p_settings := ex_settings; p_locale := "en-GB" |}.

Definition lc_init : @lstate LB := @lstate_init LB lc_props (sentiment_init lc_chart).

(** The promise of [createStudy] resolves before React commits the
    render [setChart] scheduled. *)
Definition run_resolved_first : @lstate LB :=
  commit (chart_ready_resolved 0%nat (chart_ready (commit (commit lc_init)))).

(** React commits first; the promise resolves afterwards. *)
Definition run_commit_first : @lstate LB :=
  chart_ready_resolved 0%nat (commit (chart_ready (commit (commit lc_init)))).

(** The component unmounts while [createStudy] is pending. *)
Definition run_unmount_pending : @lstate LB :=
  chart_ready_resolved 0%nat (unmount (chart_ready (commit (commit lc_init)))).

(** The component mounted without an asset, after one pointer event. *)
Definition lc_props_null : props := {| p_asset := None; p_settings := ex_settings; p_locale := "en-GB" |}.

Definition run_null_asset : @lstate LB :=
  @deliver LB MouseDown (commit (@lstate_init LB lc_props_null (sentiment_init lc_chart))).

(** The parent passes a light theme and another locale once the chart is
    up, and the component renders again. *)
Definition lc_light : settings :=
  {| primaryBackgroundColor1 := "#fff"; primaryBackgroundColor2 := "#f4f4f4"; fontColor := "#111";
     buyColor := "#0a0"; sellColor := "#a00"; accentColor := "#06c" |}.

Definition lc_props_light : props := {| p_asset := Some lc_asset; p_settings := lc_light; p_locale := "de" |}.

Definition run_new_props : @lstate LB := commit (set_props lc_props_light run_commit_first).

(** The widget of the runs above. *)
Definition lc_widget : widget :=
  default (new_widget (Build_widget_options "" "" "" Undefined [] [] "" "" "" false false ∅ ∅))
    (the_widget run_commit_first).

(** C13: the initial baseline depends on the order of two events the
    code does not control: if [createStudy] resolves before the commit
    of [setChart], the style effect sets the overlay's baseline; if the
    commit comes first, [setBaselineLevel] finds [sentimentId] still
    [null] and the overlay keeps no baseline until the next event. Both
    orders are runs of the component. *)
Theorem initial_baseline_race :
  rtc lstep lc_init run_resolved_first /\ rtc lstep lc_init run_commit_first /\
  study_overrides 0%nat (chart (handlers run_resolved_first)) = Some (baseline_override (-30) 10) /\
  study_overrides 0%nat (chart (handlers run_commit_first)) = Some ∅.
Proof.
  split_and!; [unfold run_resolved_first | unfold run_commit_first | vm_refl ..];
    lmount; lrender; lready; [lresolve 0%nat; lrender | lrender; lresolve 0%nat]; apply rtc_refl.
Qed.

(** C18: teardown guards no continuation: when the component unmounts
    while [createStudy] is pending, the cleanup throws and leaves the
    widget alive, and the resolution of the promise still runs the rest
    of the ready callback on the unmounted component: it stores the
    overlay handle in the module-level [sentimentId] and subscribes the
    ['study'] handler on the widget. *)
Theorem stale_ready_continuation :
  rtc lstep lc_init run_unmount_pending /\
  unmounted run_unmount_pending = true /\
  errors run_unmount_pending = [TypeError "tvWidget is null"] /\
  w_removed <$> the_widget run_unmount_pending = Some false /\
  sentimentId (handlers run_unmount_pending) = SId 0%nat /\
  study_sub (handlers run_unmount_pending) = true.
Proof.
  split_and!; [unfold run_unmount_pending | vm_refl ..].
  lmount; lrender; lready; lunmount; lresolve 0%nat; apply rtc_refl.
Qed.

Lemma unmount_throws_witness :
  errors (unmount run_commit_first) = errors run_commit_first ++ [TypeError "tvWidget is null"] /\
  the_widget (unmount run_commit_first) = Some lc_widget.
Proof.
  apply (@unmount_throws LB (sentiment_laws lc_globals) lc_props (sentiment_init lc_chart)); [reflexivity | |].
  - unfold run_commit_first, lc_init. lmount; lrender; lready; lrender; lresolve 0%nat; apply rtc_refl.
  - vm_refl.
Defined.

Lemma effect_subs_shape_witness :
  b_subs (handlers run_commit_first) = [] \/ b_subs (handlers run_commit_first) = [false] \/
  b_subs (handlers run_commit_first) = [true] \/ b_subs (handlers run_commit_first) = [false; true].
Proof.
  apply (@effect_subs_shape LB (sentiment_laws lc_globals)
           lc_props (sentiment_init lc_chart) run_commit_first); [reflexivity|].
  unfold run_commit_first, lc_init. lmount; lrender; lready; lrender; lresolve 0%nat; apply rtc_refl.
Defined.

Lemma single_recompute_witness :
  handlers (@deliver LB MouseDown run_commit_first) = handlers run_commit_first \/
  handlers (@deliver LB MouseDown run_commit_first) = setBaselineLevel true (handlers run_commit_first).
Proof.
  apply (single_recompute lc_globals lc_props lc_chart).
  - unfold run_commit_first, lc_init. lmount; lrender; lready; lrender; lresolve 0%nat; apply rtc_refl.
  - by left.
Defined.

Lemma baseline_recovers_witness :
  study_overrides 0%nat (chart (handlers (@deliver LB MouseDown run_commit_first))) =
    Some (baseline_override (-30) 10 ∪ ∅).
Proof.
  apply (baseline_recovers lc_globals lc_props lc_chart); [| | vm_refl ..].
  - apply (bool_decide_unpack _). vm_compute. reflexivity.
  - unfold run_commit_first, lc_init. lmount; lrender; lready; lrender; lresolve 0%nat; apply rtc_refl.
Defined.

Lemma options_throw_no_widget_witness :
  the_widget run_null_asset = None /\ effect_subs (handlers run_null_asset) = [] /\
  (committed run_null_asset <> None -> TypeError "asset.AssetTicker" ∈ errors run_null_asset).
Proof.
  apply (@options_throw_no_widget _ (sentiment_laws lc_globals)
           lc_props_null (TypeError "asset.AssetTicker") (sentiment_init lc_chart)); [reflexivity | reflexivity |].
  unfold run_null_asset. lmount; levent; apply rtc_refl.
Defined.

(** The widget after the new props. *)
Definition lc_widget_light : widget :=
  default (new_widget (Build_widget_options "" "" "" Undefined [] [] "" "" "" false false ∅ ∅))
    (the_widget run_new_props).

Lemma widget_options_frozen_witness :
  @b_options LB lc_props = Ok (w_options lc_widget_light).
Proof.
  apply (@widget_options_frozen LB lc_props (sentiment_init lc_chart)
           run_new_props); [| vm_refl].
  unfold run_new_props, run_commit_first, lc_init.
  lmount; lrender; lready; lrender; lresolve 0%nat; lprops lc_props_light; lrender; apply rtc_refl.
Defined.

Lemma theme_applied_once_witness :
  @style_view LB run_new_props = @style_view LB run_commit_first.
Proof.
  apply (@theme_applied_once LB (sentiment_laws lc_globals) lc_props (sentiment_init lc_chart));
    [reflexivity | | vm_refl |].
  - unfold run_commit_first, lc_init. lmount; lrender; lready; lrender; lresolve 0%nat; apply rtc_refl.
  - unfold run_new_props. lprops lc_props_light; lrender; apply rtc_refl.
Defined.

End Lifecycle.
