(* ===== verification/Page.v ===== *)
(** * Page: two mounts of the component sharing the module's [sentimentId]

    [let sentimentId = null] (Sentiment.js line 72) is evaluated once,
    when the module loads; every instance of [TVChartContainer] reads and
    writes that one binding. A page that unmounts the component and
    mounts it again (a route change, a parent that swaps its key, React's
    development double mount) therefore runs a second instance against
    the handle the first one left, and the first instance is not gone:
    its cleanup throws ([React.unmount_throws]), its widget stays alive,
    and the continuation of its ready callback still runs when
    [createStudy]'s promise settles ([Lifecycle.stale_ready_continuation]).

    The page ([page]) holds the shared binding and the two instances,
    each a [React.lstate] of the body of Sentiment.js. An instance's step
    ([pstep]) loads the shared binding into its handler state, runs one
    [React.lstep], and stores the binding back ([load]); the copy of the
    handle inside an instance's state is never read from outside a step.
    [remount] is the page right after the second mount: the old instance
    as the first run left it, the new one initial, and the binding as
    the old instance last wrote it, not [null].

    Theorems: once the old instance's continuation has written the
    identifier of a study of the old chart over the new instance's
    handle, the new instance never tracks a live study again: no later
    step of either instance makes the handle name a study of the new
    chart, so every [setBaselineLevel] of the new instance leaves the
    chart as it is ([remount_never_tracks]); a concrete page reaches that
    state ([remount_clobbers_handle]). *)

From S2P Require Import Prelude Config Host Sentiment React Lifecycle.

Module Page.
Import Config Host Sentiment React Lifecycle.

Section Page.
Context {C : Type} `{ChartLaws C}.
Variable g : globals.

(** The body both instances run. *)
Definition page_body : Body := sentiment_body g.
#[local] Existing Instance page_body.

(** The module's binding of [sentimentId] and the two instances. *)
Record page := {
  pg_sid : sid;
  pg_old : lstate;
  pg_new : lstate
}.

(** An instance reads the module's binding. *)
Definition load (x : sid) (s : lstate) : lstate := set_handlers (set_sentimentId x (handlers s)) s.

(** The instance's step, with the binding written back. *)
Definition set_old (s : lstate) (pg : page) : page :=
  {| pg_sid := sentimentId (handlers s); pg_old := s; pg_new := pg_new pg |}.

Definition set_new (s : lstate) (pg : page) : page :=
  {| pg_sid := sentimentId (handlers s); pg_old := pg_old pg; pg_new := s |}.

Inductive pstep : page -> page -> Prop :=
  | ps_old pg s : lstep (load (pg_sid pg) (pg_old pg)) s -> pstep pg (set_old s pg)
  | ps_new pg s : lstep (load (pg_sid pg) (pg_new pg)) s -> pstep pg (set_new s pg).

(** The page right after the component is mounted again: the module is
    not evaluated again, so the binding is what the old instance left. *)
Definition remount (st : lstate) (p : props) (c : C) : page :=
  {| pg_sid := sentimentId (handlers st); pg_old := st; pg_new := lstate_init p (sentiment_init c) |}.

(** A step of an instance given as a function of its loaded state. *)
Definition old_does (f : lstate -> lstate) (pg : page) : page := set_old (f (load (pg_sid pg) (pg_old pg))) pg.
Definition new_does (f : lstate -> lstate) (pg : page) : page := set_new (f (load (pg_sid pg) (pg_new pg))) pg.

(** ** The handle never names a live study *)

(** The invariant of the page after the clobbering: the shared handle
    names no study of the new chart, the new instance's ready callback
    has run to its end, nothing is pending, and the old instance is
    unmounted. *)
Definition stale (pg : page) : Prop :=
  hinv (set_sentimentId (pg_sid pg) (handlers (pg_new pg))) /\ ready (pg_new pg) <> 0%nat /\
  pending_id (pg_new pg) = None /\ pending_id (pg_old pg) = None /\ unmounted (pg_old pg) = true.

Lemma pstep_old pg f : lstep (load (pg_sid pg) (pg_old pg)) (f (load (pg_sid pg) (pg_old pg))) -> pstep pg (old_does f pg).
Proof. apply ps_old. Qed.

Lemma pstep_new pg f : lstep (load (pg_sid pg) (pg_new pg)) (f (load (pg_sid pg) (pg_new pg))) -> pstep pg (new_does f pg).
Proof. apply ps_new. Qed.

Lemma hinv_commit (st : lstate) : hinv (handlers st) -> hinv (handlers (commit st)).
Proof. intros Hh. apply (@commit_handlers page_body hinv); [done | intros ?? Hh'; exact Hh' | apply hinv_sbl]. Qed.

Lemma stale_intro pg :
  no_live_handle (pg_sid pg) (chart (handlers (pg_new pg))) -> chart_wf (chart (handlers (pg_new pg))) ->
  ready (pg_new pg) <> 0%nat -> pending_id (pg_new pg) = None -> pending_id (pg_old pg) = None ->
  unmounted (pg_old pg) = true -> stale pg.
Proof. intros. by split_and!. Qed.

(** No step of either instance gives the handle a live study. *)
Lemma stale_step pg pg' : pstep pg pg' -> stale pg -> stale pg'.
Proof.
  intros [pg0 s Hs | pg0 s Hs] (Hh & Hr & Hpn & Hpo & Hu).
  - inversion Hs; subst; cbn in *; congruence.
  - set (L := load (pg_sid pg0) (pg_new pg0)) in *.
    assert (Hh' : hinv (handlers L)) by exact Hh.
    inversion Hs as [st Hc Hu' | st Hc Hp Hu' | st Hw Hr0 Hu' | st id Hp | st ev Hc Hu' | st Hc Hu' | st p Hc Hu'];
      subst; unfold stale; cbn [set_new pg_sid pg_old pg_new].
    1-2: destruct (commit_frame L) as (-> & -> & _); split_and!; [by apply hinv_commit | done..].
    + exfalso. by apply Hr.
    + cbn in Hp. congruence.
    + split_and!; [by apply hinv_dispatch | done..].
    + unfold unmount. destruct (cleanup_tv L) as [[]|]; by split_and!.
    + by split_and!.
Qed.

(** C29: after a remount, once the shared handle names no study of the
    new chart (the old instance's continuation wrote the identifier of
    its own overlay over it), the new instance never tracks its overlay
    again: whatever either instance does later, the handle names no
    study of the new chart, and every [setBaselineLevel] of the new
    instance leaves the chart as it is. *)
Theorem remount_never_tracks pg pg' :
  stale pg -> rtc pstep pg pg' ->
  stale pg' /\
  forall b, chart (setBaselineLevel b (handlers (load (pg_sid pg') (pg_new pg')))) = chart (handlers (pg_new pg')).
Proof.
  intros Hs Hr. assert (Hs' : stale pg') by (induction Hr; eauto using stale_step).
  split; [done|]. intros b.
  change (handlers (load (pg_sid pg') (pg_new pg'))) with (set_sentimentId (pg_sid pg') (handlers (pg_new pg'))).
  destruct (sbl_dead b _ (proj1 Hs')) as [-> | [e ->]]; done.
Qed.

End Page.

Arguments pg_sid {_ _ _} _.
Arguments pg_old {_ _ _} _.
Arguments pg_new {_ _ _} _.

(** Tactics for runs of the page, the target written as a composition
    of [old_does] and [new_does]. *)
Ltac pold f tac := eapply rtc_l; [apply (pstep_old _ _ f); tac |].
Ltac pnew f tac := eapply rtc_l; [apply (pstep_new _ _ f); tac |].

(** ** A concrete page *)

Definition PB : Body := page_body lc_globals.

(** The first instance mounts, its chart becomes ready, and it unmounts
    while [createStudy] is pending. *)
Definition run_a : @lstate PB :=
  unmount (chart_ready (commit (commit (@lstate_init PB lc_props (sentiment_init lc_chart))))).

(** The chart of the second widget, whose studies get other identifiers. *)
Definition lc_chart_b : Host.chart :=
  {| studies := []; next_id := 5%nat; panes := [[Some (-30, 10)]]; chart_type := 1%Z;
     main_overrides := ∅ |}.

Definition pg0 : page lc_globals := remount lc_globals run_a lc_props lc_chart_b.

(** The second instance mounts and tracks its overlay (study 5) after
    its promise resolves; then the first instance's promise resolves. *)
Definition pg1 : page lc_globals :=
  old_does lc_globals (chart_ready_resolved 0%nat)
    (new_does lc_globals commit
      (new_does lc_globals (chart_ready_resolved 5%nat)
        (new_does lc_globals chart_ready
          (new_does lc_globals commit (new_does lc_globals commit pg0))))).

(** C30: the clobbering happens on a page that mounts, unmounts while
    [createStudy] is pending, and mounts again: the second instance
    starts from the first one's handle, tracks its own overlay and sets
    its baseline, and then the first instance's continuation overwrites
    the shared handle: the handle the second instance reads is the
    identifier of the old chart's overlay, a study its chart does not
    have. *)
Theorem remount_clobbers_handle :
  rtc (pstep lc_globals) pg0 pg1 /\
  pg_sid pg0 = SNull /\ sentimentId (handlers (load lc_globals (pg_sid pg1) (pg_new pg1))) = SId 0%nat /\
  getAllStudies (chart (handlers (pg_new pg1))) = [(5%nat, sentimentName)] /\
  study_overrides 5%nat (chart (handlers (pg_new pg1))) = Some (baseline_override (-30) 10 ∪ ∅) /\
  study_overrides 0%nat (chart (handlers (pg_new pg1))) = None.
Proof.
  split_and!; [unfold pg1 | vm_refl ..].
  pnew (@commit PB) ltac:(apply ls_mount; reflexivity).
  pnew (@commit PB) ltac:(apply ls_render; [discriminate | reflexivity | reflexivity]).
  pnew (@chart_ready PB) ltac:(apply ls_ready; [discriminate | reflexivity | reflexivity]).
  pnew (@chart_ready_resolved PB 5%nat) ltac:(apply ls_resolved; reflexivity).
  pnew (@commit PB) ltac:(apply ls_render; [discriminate | reflexivity | reflexivity]).
  pold (@chart_ready_resolved PB 0%nat) ltac:(apply ls_resolved; reflexivity).
  apply rtc_refl.
Qed.

(** A pointer event on the second widget after the clobbering. *)
Definition pg2 : page lc_globals := new_does lc_globals (@deliver PB MouseDown) pg1.

Lemma lc_chart_b_wf : chart_wf (chart (handlers (pg_new pg1))).
Proof. vm_compute. split; [apply NoDup_singleton | apply Forall_singleton; lia]. Qed.

Lemma remount_never_tracks_witness :
  stale lc_globals pg2 /\
  forall b, chart (setBaselineLevel b (handlers (load lc_globals (pg_sid pg2) (pg_new pg2)))) =
            chart (handlers (pg_new pg2)).
Proof.
  apply (remount_never_tracks lc_globals pg1 pg2).
  - assert (E : pg_sid pg1 = SId 0%nat) by vm_refl.
    apply stale_intro; [intros id Hid; rewrite E in Hid; injection Hid as <-; vm_refl
                       | apply lc_chart_b_wf | vm_compute; discriminate | vm_refl ..].
  - unfold pg2. pnew (@deliver PB MouseDown) ltac:(apply ls_event; [discriminate | reflexivity]). apply rtc_refl.
Defined.

End Page.
