(* ===== verification/TvCode.v ===== *)
(** * TvCode: the plain container of src/tv-code.js

    [src/tv-code.js] is the container without the sentiment overlay. Its
    tables (lines 7-69), [changeStyles] (lines 82-107) and
    [getWidgetOptions] (lines 158-180) are translated here from that file;
    their text is that of Sentiment.js, and the definitions here are
    convertible to [Config]'s, so the datafeed of
    [Datafeed.getDatafeed_tvcode] may use [Config]'s tables.

    The component body ([tvcode_body], a [React.Body]) differs: the
    subscription effect (lines 204-209) subscribes one empty
    ['mouse_down'] handler, the style effect (lines 212-217) only calls
    [changeStyles], and the ready callback (lines 188-196) ends with
    [sentimentId = await activeChart.createStudy(..., { symbol:
    sentimentName }, ...)], where neither [sentimentName] nor
    [sentimentId] is declared in the file. The module is strict (it uses
    [import]), so reading [sentimentName] throws a [ReferenceError]
    before [createStudy] is called, unless the page defines a global of
    that name; and the assignment throws after the [await] unless a
    global [sentimentId] exists. [tv_env] records those two globals. *)

From S2P Require Import Prelude Config Host React.

Module TvCode.
Import Config Host React.

(** ** The tables of tv-code.js *)

Definition getConfigurationData_tvcode {A} (isAI : A) : configuration :=
  {| supported_resolutions := ["1D"]; supports_marks := true |}.

Definition tvAssetTypes_entries_tvcode (ac : asset_classes) : list (string * string) :=
  [(Coins_id ac, "crypto"); (Equity_id ac, "stock"); (Commodity_id ac, "commodity");
   (Index_id ac, "index"); (CurrencyPairs_id ac, "forex")].

Definition tvAssetTypes_tvcode (ac : asset_classes) : gmap string string :=
  obj_of_literal (tvAssetTypes_entries_tvcode ac).

Definition assetsSessions_entries_tvcode (ac : asset_classes) : list (string * string) :=
  [(Coins_id ac, "24x7"); (Equity_id ac, "0000-0000"); (Commodity_id ac, "0000-0000");
   (Index_id ac, "24x7"); (CurrencyPairs_id ac, "0000-0000")].

Definition assetsSessions_tvcode (ac : asset_classes) : gmap string string :=
  obj_of_literal (assetsSessions_entries_tvcode ac).

Definition tvChartLocales_entries_tvcode : list (string * string) :=
  [("ar-AE", "ar"); ("zh-tw", "zh_TW"); ("zh-CN", "zh"); ("en-GB", "en");
   ("fr-FR", "fr"); ("de-DE", "de"); ("id-ID", "id_ID"); ("it-IT", "it");
   ("ja-JP", "ja"); ("ms-MY", "ms_MY"); ("pl-PL", "pl"); ("pt-PT", "pt");
   ("ru-RU", "ru"); ("es-ES", "es"); ("sv-SE", "sv"); ("th-TH", "th");
   ("tr-TR", "tr"); ("vi-vn", "vi")].

Definition tvChartLocales_tvcode : gmap string string :=
  obj_of_literal tvChartLocales_entries_tvcode.

Definition getCommonOverrides_tvcode (s : settings) : gmap string ovalue :=
  obj_of_literal
    [("paneProperties.background", OStr (primaryBackgroundColor2 s));
     ("scalesProperties.textColor", OStr (fontColor s));
     ("scalesProperties.showSymbolLabels", OBool false);
     ("mainSeriesProperties.barStyle.downColor", OStr (buyColor s));
     ("mainSeriesProperties.barStyle.upColor", OStr (buyColor s));
     ("mainSeriesProperties.candleStyle.borderUpColor", OStr (buyColor s));
     ("mainSeriesProperties.candleStyle.borderDownColor", OStr (sellColor s));
     ("mainSeriesProperties.lineStyle.color", OStr (fontColor s));
     ("mainSeriesProperties.showPriceLine", OBool false);
     ("paneProperties.separatorColor", OStr (primaryBackgroundColor2 s))].

(** The [setCSSCustomProperty] calls of [changeStyles] (lines 91-106). *)
Definition changeStyles_css_tvcode (s : settings) : list (string * string) :=
  [("--tv-color-platform-background", primaryBackgroundColor2 s);
   ("--tv-color-pane-background", primaryBackgroundColor2 s);
   ("--tv-color-toolbar-button-text", fontColor s);
   ("--tv-color-toolbar-button-background-hover", primaryBackgroundColor1 s);
   ("--tv-color-toolbar-button-text-active", accentColor s);
   ("--tv-color-popup-background", primaryBackgroundColor1 s);
   ("--tv-color-popup-element-text", fontColor s);
   ("--tv-color-popup-element-secondary-text", fontColor s);
   ("--tv-color-popup-element-background-active", accentColor s);
   ("--tv-color-toolbar-button-background-expanded", primaryBackgroundColor1 s);
   ("--tv-color-toolbar-button-text-hover", accentColor s);
   ("--tv-color-toolbar-button-text-active", accentColor s);
   ("--tv-color-toolbar-divider-background", primaryBackgroundColor1 s);
   ("--tv-color-popup-element-text-hover", accentColor s);
   ("--tv-color-popup-element-background-hover", primaryBackgroundColor1 s);
   ("--tv-color-popup-element-divider-background", fontColor s)].

(** [tvChartLocales[locale] || 'en'] (line 164). *)
Definition widget_locale_tvcode (locale : string) : prop_value string :=
  js_or_default (js_get tvChartLocales_tvcode locale) "en".

(** The [overrides] option (lines 173-177). *)
Definition widget_overrides_tvcode (s : settings) : gmap string ovalue :=
  obj_spread
    (obj_of_literal [("paneProperties.crossHairProperties.color", OStr (accentColor s));
                     ("mainSeriesProperties.style", ONum (JNum 1))])
    (getCommonOverrides_tvcode s).

(** [getWidgetOptions()] (lines 158-180), evaluated in order: the [null]
    asset first (line 160), then [BLOB_CDN_URL] (line 163). *)
Definition getWidgetOptions_tvcode (g : globals) (a : option asset) (s : settings)
    (locale : string) : result widget_options :=
  ticker ← read_nullable "asset.AssetTicker" AssetTicker a;
  cdn ← read_global "BLOB_CDN_URL" (g_BLOB_CDN_URL g);
  mret {| wo_symbol := ticker;
          wo_interval := "1D";
          wo_library_path := cdn +:+ "/tvchartinglibrary/";
          wo_locale := widget_locale_tvcode locale;
          wo_enabled_features := ["fix_left_edge"; "iframe_loading_compatibility_mode";
                                  "low_density_bars";
                                  "determine_first_data_request_size_using_visible_range"];
          wo_disabled_features := ["use_localstorage_for_settings"; "header_symbol_search";
                                   "header_compare"; "study_templates";
                                   "request_only_visible_range_on_reset"];
          wo_charts_storage_api_version := "1.1";
          wo_client_id := "tradingview.com";
          wo_user_id := "public_user_id";
          wo_fullscreen := false;
          wo_autosize := true;
          wo_studies_overrides := obj_of_literal [("Overlay.style", ONum (JNum 10))];
          wo_overrides := widget_overrides_tvcode s |}.

(** ** The component body *)

(** The globals the ready callback uses without declaring them:
    a global [sentimentName] of the page, if any, and whether a global
    binding [sentimentId] exists for the assignment. *)
Record tv_env := {
  tv_sentimentName : option string;
  tv_sentimentId : bool
}.

(** The only event tv-code.js subscribes to. *)
Inductive tv_event := mouse_down.

Section Body.
Context {C : Type} `{ChartLaws C}.

(** The widget's chart, the global [sentimentId] as the callback set
    it, and one entry per run of the subscription effect. *)
Record tvstate := {
  tv_chart : C;
  tv_handle : option study_id;
  tv_subs : list bool
}.

Definition tv_init (c : C) : tvstate := {| tv_chart := c; tv_handle := None; tv_subs := [] |}.

(** Line 195 up to the [await]: the argument [{ symbol: sentimentName }]
    is evaluated before [createStudy] is called. *)
Definition ready_tvcode (e : tv_env) (st : tvstate) : result (study_id * tvstate) :=
  name ← read_global "sentimentName" (tv_sentimentName e);
  let (id, c) := createStudy name (tv_chart st) in
  mret (id, {| tv_chart := c; tv_handle := tv_handle st; tv_subs := tv_subs st |}).

(** Line 195 after the [await]: the assignment to an undeclared
    identifier throws in strict code. *)
Definition resolved_tvcode (e : tv_env) (id : study_id) (st : tvstate) : result tvstate :=
  if tv_sentimentId e then Ok {| tv_chart := tv_chart st; tv_handle := Some id; tv_subs := tv_subs st |}
  else Throw (ReferenceError "sentimentId").

(** Line 207: [tvWidget.subscribe('mouse_down', () => { })]. *)
Definition subscribe_tvcode (captured : bool) (st : tvstate) : tvstate :=
  {| tv_chart := tv_chart st; tv_handle := tv_handle st; tv_subs := tv_subs st ++ [captured] |}.

(** The subscribed handlers are empty: an event changes nothing. *)
Definition dispatch_tvcode (ev : tv_event) (st : tvstate) : tvstate := st.

Variable g : globals.
Variable e : tv_env.

Definition tvcode_body : Body := {|
  b_state := tvstate;
  b_event := tv_event;
  b_options p := getWidgetOptions_tvcode g (p_asset p) (p_settings p) (p_locale p);
  b_overrides p := getCommonOverrides_tvcode (p_settings p);
  b_css p := changeStyles_css_tvcode (p_settings p);
  b_subscribe := subscribe_tvcode;
  b_style _ st := st;
  b_ready := ready_tvcode e;
  b_resolved := resolved_tvcode e;
  b_dispatch := dispatch_tvcode;
  b_subs := tv_subs
|}.

#[local] Existing Instance tvcode_body.

#[local] Instance tvcode_laws : BodyLaws.
Proof.
  split; simpl; try done.
  - intros h id h'. unfold ready_tvcode. cbv [mbind result_bind mret result_ret read_global].
    repeat case_match; intros; simplify_eq/=; done.
  - intros id h h'. unfold resolved_tvcode. repeat case_match; intros; simplify_eq/=; done.
Qed.

(** The part of the state the failing ready callback leaves alone. *)
Definition no_overlay (c : C) (st : lstate) : Prop :=
  tv_chart (handlers st) = c /\ tv_handle (handlers st) = None /\ pending_id st = None /\
  (ready st <> 0%nat -> ReferenceError "sentimentName" ∈ errors st).

Lemma no_overlay_step c st st' :
  tv_sentimentName e = None -> lstep st st' -> no_overlay c st -> no_overlay c st'.
Proof.
  intros He Hstep. pose proof (errors_step _ _ Hstep) as Hpre.
  assert (Hin : ReferenceError "sentimentName" ∈ errors st ->
                ReferenceError "sentimentName" ∈ errors st')
    by (destruct Hpre as [l ->]; intros; apply elem_of_app; by left).
  intros (Hc & Hh & Hp & Hr). destruct Hstep.
  1-2: unfold no_overlay; destruct (commit_frame st) as (-> & -> & _ & _ & _);
       split_and!; auto; [apply (@commit_handlers tvcode_body (fun h => tv_chart h = c))
                         | apply (@commit_handlers tvcode_body (fun h => tv_handle h = None))]; simpl; auto.
  - unfold chart_ready, no_overlay; simpl. unfold ready_tvcode. rewrite He. simpl.
    split_and!; auto. intros _. rewrite elem_of_app, list_elem_of_singleton. by right.
  - congruence.
  - unfold no_overlay; simpl. split_and!; auto.
  - unfold no_overlay.
    assert (handlers (unmount st) = handlers st /\ pending_id (unmount st) = pending_id st /\
            ready (unmount st) = ready st) as (-> & -> & ->)
      by (unfold unmount; by destruct (cleanup_tv st) as [[]|]).
    split_and!; auto.
  - unfold no_overlay; simpl. split_and!; auto.
Qed.

(** ** Properties of the tv-code.js component *)

(** C15: without a global [sentimentName], tv-code.js's ready callback
    throws a [ReferenceError] when it builds the arguments of
    [createStudy]: in every reachable state the chart has not changed,
    no overlay handle is ever set, no promise is pending, and once the
    callback has run its rejection is recorded. *)
Theorem tvcode_ready_rejects p c st :
  tv_sentimentName e = None -> rtc lstep (lstate_init p (tv_init c)) st -> no_overlay c st.
Proof.
  intros He. apply lstep_inv; [intros ??; by apply no_overlay_step | by split_and!].
Qed.

End Body.

(** ** Concrete runs *)

Definition tv_globals : globals :=
  {| g_assetClasses := None; g_BLOB_CDN_URL := Some "https://cdn.example";
     g_drawSentiment := true; g_priceData := None; g_yourSubscriptionMethod := true |}.

Definition tv_asset : asset :=
  {| Decimals := 2; AssetClassId := "1"; AssetTicker := "BTC"; AssetName := "Bitcoin";
     Category := "Crypto" |}.

Definition tv_chart0 : Host.chart :=
  {| studies := []; next_id := 0%nat; panes := [[Some (-30, 10)]]; chart_type := 1%Z;
     main_overrides := ∅ |}.

(** The page defines neither global. *)
Definition TB : Body :=
  tvcode_body tv_globals {| tv_sentimentName := None; tv_sentimentId := false |}.

Definition tv_props : props := {| p_asset := Some tv_asset; p_settings := ex_settings; p_locale := "en-GB" |}.

(** The page defines a global [sentimentName] but no [sentimentId]. *)
Definition TB2 : Body :=
  tvcode_body tv_globals {| tv_sentimentName := Some sentimentName; tv_sentimentId := false |}.

(** Mount, commit [setTVWidget], the ready callback, commit [setChart]. *)
Definition tv_run : @lstate TB :=
  commit (chart_ready (commit (commit (@lstate_init TB tv_props (tv_init tv_chart0))))).

(** The same with a global [sentimentName]; the promise resolves before
    the second commit. *)
Definition tv_run2 : @lstate TB2 :=
  commit (chart_ready_resolved 0%nat
    (chart_ready (commit (commit (@lstate_init TB2 tv_props (tv_init tv_chart0)))))).

(** C16: even with a global [sentimentName], tv-code.js never tracks its
    study: [createStudy] runs and adds the study to the chart, but the
    assignment to the undeclared [sentimentId] after the [await] throws a
    [ReferenceError]; the widget is styled and set to bars all the same. *)
Theorem tvcode_assignment_throws :
  rtc (@lstep TB2) (@lstate_init TB2 tv_props (tv_init tv_chart0)) tv_run2 /\
  getAllStudies (tv_chart (handlers tv_run2)) = [(0%nat, sentimentName)] /\
  tv_handle (handlers tv_run2) = None /\
  errors tv_run2 = [ReferenceError "sentimentId"] /\
  (fun w => (w_chart_type w, w_css w !! "--tv-color-pane-background")) <$> the_widget tv_run2 =
    Some (Some 1%Z, Some "#222").
Proof.
  split_and!; [unfold tv_run2 | vm_refl ..].
  lmount; lrender; lready; lresolve 0%nat; lrender; apply rtc_refl.
Qed.

Lemma tvcode_ready_rejects_witness :
  no_overlay tv_globals {| tv_sentimentName := None; tv_sentimentId := false |} tv_chart0 tv_run.
Proof.
  apply (tvcode_ready_rejects _ _ tv_props); [reflexivity|].
  unfold tv_run. lmount; lrender; lready; lrender; apply rtc_refl.
Defined.

End TvCode.
